(** * timeout.c: multiplexing SIGALRM over several timeout reasons

    A shallow embedding of [src/backend/utils/misc/timeout.c] and the
    verification of its queue discipline.

    The C file keeps its state in file-level statics and talks to the host
    through [setitimer], [GetCurrentTimestamp], [SetLatch], [elog] and the
    registered callbacks.  The embedding threads one [process] value through
    a state-and-exception monad:

    - [statics] holds the four static variables of the file;
    - a [timeout_params *] is the number of the slot of [all_timeouts] it
      points to ([None] is the NULL pointer), so that a field read through
      [active_timeouts[i]] sees the last write to [all_timeouts[id]];
    - every array access is bounds-checked and every pointer dereference is
      NULL-checked; a violation is the outcome [UNDEFINED];
    - the [type] of a batch entry is the integer the enum object holds, so
      that the [switch] of [enable_timeouts] has its [default:] arm for
      exactly the values of no enumerator;
    - [elog(FATAL)], [elog(ERROR)] and a failed [Assert] leave the monad with
      the state reached so far, which is what a [longjmp] or an abort leaves
      behind;
    - a [for] loop whose bound its body does not change is a [Fixpoint] on
      the number of iterations that remain; the [while] loop of the signal
      handler, which calls arbitrary callbacks, carries fuel;
    - what the file takes from headers and from the host ([MAX_TIMEOUTS],
      [USER_TIMEOUT], whether [Assert] is compiled in, the timestamp
      helpers, the clock, [setitimer], the callbacks) is a [Platform], over
      which every theorem is stated.

    The file has the model first, then the invariants and the list view of
    the queue the proofs work with, then a sample host, then the proofs.
    The main results:

    - [mutators_preserve_queue_invariants]: the six mutators keep the queue
      sorted, duplicate-free, registered and within bounds;
    - [enable_twice_reschedules], [disable_timeout_idempotent]: the two laws
      of enabling and disabling;
    - [schedule_alarm_spec], [handle_sig_alarm_spec]: what the timer is
      programmed to and what the signal handler fires, round by round, when
      the callbacks leave the statics alone
      ([handle_sig_alarm_reentrant_counterexample] shows a callback that
      does not);
    - [RegisterTimeout_spec], [get_timeout_indicator_spec],
      [disable_all_timeouts_spec]: the registry;
    - [enable_timeouts_spec], [enable_timeouts_not_atomic]: batches, on the
      normal path and when an entry has an unknown type.

    Further results cover the rest of the file: the array helpers
    ([find_active_timeout_spec], [insert_timeout_spec],
    [remove_timeout_index_spec]); [InitializeTimeouts_spec] and the laws of
    allocation; the single calls and their round trips; the signal handler
    on an idle, an early and a late signal; batches beside single calls;
    the behaviour outside the contract (a reason never registered, a timer
    that fails); and [session_keeps_invariants], for any sequence of
    calls. *)

From Stdlib Require Import ZArith Lia String.
From stdpp Require Import base tactics option list numbers sorting.

Local Open Scope Z_scope.

(** ** Data model *)

(** [TimeoutId], an enumeration, as the number of the enumerator. *)
Abbreviation TimeoutId := nat (only parsing).

(** Integer timestamps (microseconds), the [int64] flavour of [TimestampTz]. *)
Abbreviation TimestampTz := Z (only parsing).

(** A callback is known by its address only. *)
Abbreviation timeout_handler_proc := nat (only parsing).

(** [struct timeout_params]: data about any one timeout reason. *)
Record timeout_params := mk_timeout_params {
  index : TimeoutId;
  indicator : bool;
  timeout_handler : option timeout_handler_proc;
  start_time : TimestampTz;
  fin_time : TimestampTz
}.

Definition set_indicator (b : bool) (e : timeout_params) : timeout_params :=
  mk_timeout_params (index e) b (timeout_handler e) (start_time e) (fin_time e).

Definition set_timeout_handler (h : option timeout_handler_proc)
    (e : timeout_params) : timeout_params :=
  mk_timeout_params (index e) (indicator e) h (start_time e) (fin_time e).

Definition set_start_time (t : TimestampTz) (e : timeout_params) : timeout_params :=
  mk_timeout_params (index e) (indicator e) (timeout_handler e) t (fin_time e).

Definition set_fin_time (t : TimestampTz) (e : timeout_params) : timeout_params :=
  mk_timeout_params (index e) (indicator e) (timeout_handler e) (start_time e) t.

(** [struct timeval] and [struct itimerval]. *)
Record timeval := mk_timeval { tv_sec : Z; tv_usec : Z }.
Record itimerval := mk_itimerval { it_interval : timeval; it_value : timeval }.

(** [MemSet(&timeval, 0, sizeof(struct itimerval))]. *)
Definition itimerval_zero : itimerval :=
  mk_itimerval (mk_timeval 0 0) (mk_timeval 0 0).

(** [enum TimeoutType], declared in utils/timeout.h (not part of src/) with
    the enumerators [TMPARAM_AFTER] and [TMPARAM_AT], in this order, which C
    numbers 0 and 1.  An object of the type holds an integer, and that can
    be the value of neither enumerator: the [switch] of [enable_timeouts]
    has a [default:] arm for it.  So the type is the integer it holds. *)
Abbreviation TimeoutType := Z (only parsing).
Definition TMPARAM_AFTER : TimeoutType := 0.
Definition TMPARAM_AT : TimeoutType := 1.

(** [(int) x] for an integer [x] as wide as [int]: [x] itself when an [int]
    can hold it, and otherwise [x] reduced modulo 2^32 into the range of
    [int]. *)
Definition to_int (x : Z) : Z := (x + 2147483648) mod 4294967296 - 2147483648.

(** [EnableTimeoutParams] and [DisableTimeoutParams]; the fields carry a
    prefix because [fin_time] is already a field of [timeout_params]. *)
Record EnableTimeoutParams := mk_EnableTimeoutParams {
  tp_id : TimeoutId;
  tp_type : TimeoutType;
  tp_delay_ms : Z;
  tp_fin_time : TimestampTz
}.

Record DisableTimeoutParams := mk_DisableTimeoutParams {
  dp_id : TimeoutId;
  dp_keep_indicator : bool
}.

(** The static variables of timeout.c. *)
Record statics := mk_statics {
  all_timeouts : list timeout_params;
  all_timeouts_initialized : bool;
  num_active_timeouts : Z;
  active_timeouts : list (option TimeoutId)
}.

(** What happens, in the order it happens.  The three [EvCall_] events
    mark the entry into the internal helpers [disable_alarm],
    [enable_timeout] and [schedule_alarm], with their arguments; the others
    are calls that leave the file. *)
Inductive event :=
  | EvSetitimer (v : itimerval)
  | EvSetLatch
  | EvPqsignal
  | EvHandler (h : timeout_handler_proc)
  | EvCall_disable_alarm (multi_insert : bool)
  | EvCall_enable_timeout (id : TimeoutId) (now fin : TimestampTz)
  | EvCall_schedule_alarm (now : TimestampTz).

(** The process: the statics, [errno], whether [MyProc] is set, how often
    the clock has been read, and the trace of events. *)
Record process := mk_process {
  mem : statics;
  errno : Z;
  MyProc : bool;
  clock_reads : nat;
  trace : list event
}.

Definition with_mem (m : statics) (p : process) : process :=
  mk_process m (errno p) (MyProc p) (clock_reads p) (trace p).

Definition with_errno (e : Z) (p : process) : process :=
  mk_process (mem p) e (MyProc p) (clock_reads p) (trace p).

Definition with_clock_reads (n : nat) (p : process) : process :=
  mk_process (mem p) (errno p) (MyProc p) n (trace p).

Definition with_trace (t : list event) (p : process) : process :=
  mk_process (mem p) (errno p) (MyProc p) (clock_reads p) t.

Definition with_all_timeouts (l : list timeout_params) (m : statics) : statics :=
  mk_statics l (all_timeouts_initialized m) (num_active_timeouts m) (active_timeouts m).

Definition with_initialized (b : bool) (m : statics) : statics :=
  mk_statics (all_timeouts m) b (num_active_timeouts m) (active_timeouts m).

Definition with_num_active (n : Z) (m : statics) : statics :=
  mk_statics (all_timeouts m) (all_timeouts_initialized m) n (active_timeouts m).

Definition with_active (a : list (option TimeoutId)) (m : statics) : statics :=
  mk_statics (all_timeouts m) (all_timeouts_initialized m) (num_active_timeouts m) a.

(** ** The host platform

    Everything timeout.c takes from headers and from the host that is not
    part of the file: the two constants of [enum TimeoutId], whether
    [Assert] is compiled in, the two timestamp helpers, the clock (its
    [n]-th reading), the return code of [setitimer] and what a callback
    does when it is called. *)
Class Platform := {
  MAX_TIMEOUTS : nat;
  USER_TIMEOUT : TimeoutId;
  USE_ASSERT_CHECKING : bool;
  TimestampTzPlusMilliseconds : TimestampTz -> Z -> TimestampTz;
  TimestampDifference : TimestampTz -> TimestampTz -> Z * Z;
  clock : nat -> TimestampTz;
  setitimer : itimerval -> Z;
  run_handler : timeout_handler_proc -> process -> process
}.

(** ** Outcomes and the monad *)

Inductive exception :=
  | FATAL (msg : string) (args : list Z)
  | ERROR (msg : string) (args : list Z)
  | TRAP
  | UNDEFINED
  | OUT_OF_FUEL.

Inductive result (A : Type) :=
  | Ok (a : A)
  | Raise (e : exception).
Arguments Ok {A} a.
Arguments Raise {A} e.

Definition M (A : Type) : Type := process -> result A * process.

Definition ret {A} (a : A) : M A := fun p => (Ok a, p).

Definition bind {A B} (m : M A) (k : A -> M B) : M B :=
  fun p => match m p with
           | (Ok a, p') => k a p'
           | (Raise e, p') => (Raise e, p')
           end.

Definition raise {A} (e : exception) : M A := fun p => (Raise e, p).

Notation "x <- m ;; k" := (bind m (fun x => k))
  (at level 100, m at next level, right associativity).
Notation "m ;; k" := (bind m (fun _ => k))
  (at level 100, right associativity).

Definition gets {A} (f : statics -> A) : M A := fun p => (Ok (f (mem p)), p).

Definition modify (f : statics -> statics) : M unit :=
  fun p => (Ok tt, with_mem (f (mem p)) p).

Definition emit (e : event) : M unit :=
  fun p => (Ok tt, with_trace (trace p ++ [e]) p).

Definition when (b : bool) (m : M unit) : M unit := if b then m else ret tt.

(** ** Memory access

    [all_timeouts[id]], [active_timeouts[i]] and [ptr->field], each with the
    check a C implementation does not make. *)

Definition all_timeouts_get (id : TimeoutId) : M timeout_params :=
  fun p => match all_timeouts (mem p) !! id with
           | Some e => (Ok e, p)
           | None => (Raise UNDEFINED, p)
           end.

Definition all_timeouts_upd (id : TimeoutId)
    (f : timeout_params -> timeout_params) : M unit :=
  e <- all_timeouts_get id ;;
  modify (fun m => with_all_timeouts (<[id := f e]> (all_timeouts m)) m).

Definition active_timeouts_get (i : Z) : M (option TimeoutId) :=
  fun p => if i <? 0 then (Raise UNDEFINED, p) else
           match active_timeouts (mem p) !! Z.to_nat i with
           | Some ptr => (Ok ptr, p)
           | None => (Raise UNDEFINED, p)
           end.

Definition active_timeouts_set (i : Z) (ptr : option TimeoutId) : M unit :=
  _ <- active_timeouts_get i ;;
  modify (fun m => with_active (<[Z.to_nat i := ptr]> (active_timeouts m)) m).

(** [ptr->...] as an rvalue. *)
Definition load (ptr : option TimeoutId) : M timeout_params :=
  match ptr with
  | Some slot => all_timeouts_get slot
  | None => raise UNDEFINED
  end.

(** [ptr->... = ...]. *)
Definition store (ptr : option TimeoutId)
    (f : timeout_params -> timeout_params) : M unit :=
  match ptr with
  | Some slot => all_timeouts_upd slot f
  | None => raise UNDEFINED
  end.

Section Program.
Context `{Platform}.

(** [Assert(cond)]: the condition is evaluated, and can trap, only in a
    build with [USE_ASSERT_CHECKING]. *)
Definition Assert (cond : M bool) : M unit :=
  if USE_ASSERT_CHECKING then
    b <- cond ;; if b then ret tt else raise TRAP
  else ret tt.

(** [GetCurrentTimestamp()]. *)
Definition GetCurrentTimestamp : M TimestampTz :=
  fun p => (Ok (clock (clock_reads p)), with_clock_reads (S (clock_reads p)) p).

(** [setitimer(ITIMER_REAL, &timeval, NULL)], returning its return code. *)
Definition call_setitimer (v : itimerval) : M Z :=
  emit (EvSetitimer v) ;; ret (setitimer v).

(** A call through [this_timeout->timeout_handler]; calling through a NULL
    function pointer is undefined. *)
Definition call_handler (h : option timeout_handler_proc) : M unit :=
  match h with
  | Some f => emit (EvHandler f) ;; (fun p => (Ok tt, run_handler f p))
  | None => raise UNDEFINED
  end.

(** *** Internal helper functions *)

(** [disable_alarm(multi_insert)], lines 69-98. *)
Definition disable_alarm (multi_insert : bool) : M unit :=
  emit (EvCall_disable_alarm multi_insert) ;;
  n <- gets num_active_timeouts ;;
  if multi_insert || (0 <? n) then
    rc <- call_setitimer itimerval_zero ;;
    if negb (rc =? 0) then raise (FATAL "could not disable SIGALRM timer: %m" [])
    else ret tt
  else ret tt.

(** The loop of [find_active_timeout]: [k] iterations remain, the next one
    looks at position [i]. *)
Fixpoint find_active_timeout_from (id : TimeoutId) (k : nat) (i : Z) : M Z :=
  match k with
  | O => ret (-1)
  | S k' =>
      ptr <- active_timeouts_get i ;;
      e <- load ptr ;;
      if Nat.eqb (index e) id then ret i
      else find_active_timeout_from id k' (i + 1)
  end.

(** [find_active_timeout(id)], lines 104-116: [i] runs from 0 while
    [i < num_active_timeouts]. *)
Definition find_active_timeout (id : TimeoutId) : M Z :=
  n <- gets num_active_timeouts ;;
  find_active_timeout_from id (Z.to_nat n) 0.

(** [for (i = ...; i >= index; i--) active_timeouts[i + 1] = active_timeouts[i]]
    with [k] iterations remaining. *)
Fixpoint shift_up_from (k : nat) (i : Z) : M unit :=
  match k with
  | O => ret tt
  | S k' =>
      ptr <- active_timeouts_get i ;;
      active_timeouts_set (i + 1) ptr ;;
      shift_up_from k' (i - 1)
  end.

(** [insert_timeout(id, index)], lines 122-138. *)
Definition insert_timeout (id : TimeoutId) (idx : Z) : M unit :=
  n <- gets num_active_timeouts ;;
  (if (idx <? 0) || (n <? idx) then
     raise (FATAL "timeout index %d out of range 0..%d" [idx; n])
   else ret tt) ;;
  shift_up_from (Z.to_nat (n - idx)) (n - 1) ;;
  active_timeouts_set idx (Some id) ;;
  modify (fun m => with_num_active (num_active_timeouts m + 1) m).

(** [for (i = ...; i < num_active_timeouts; i++) active_timeouts[i - 1] = active_timeouts[i]]
    with [k] iterations remaining. *)
Fixpoint shift_down_from (k : nat) (i : Z) : M unit :=
  match k with
  | O => ret tt
  | S k' =>
      ptr <- active_timeouts_get i ;;
      active_timeouts_set (i - 1) ptr ;;
      shift_down_from k' (i + 1)
  end.

(** [remove_timeout_index(index)], lines 143-156. *)
Definition remove_timeout_index (idx : Z) : M unit :=
  n <- gets num_active_timeouts ;;
  (if (idx <? 0) || (n <=? idx) then
     raise (FATAL "timeout index %d out of range 0..%d" [idx; n - 1])
   else ret tt) ;;
  shift_down_from (Z.to_nat (n - (idx + 1))) (idx + 1) ;;
  modify (fun m => with_num_active (num_active_timeouts m - 1) m).

(** The search loop of [enable_timeout], lines 182-190: returns the [i] at
    which the loop is left. *)
Fixpoint insertion_point_from (id : TimeoutId) (fin : TimestampTz)
    (k : nat) (i : Z) : M Z :=
  match k with
  | O => ret i
  | S k' =>
      old_timeout <- active_timeouts_get i ;;
      e <- load old_timeout ;;
      if fin <? fin_time e then ret i
      else if (fin =? fin_time e) && Nat.ltb id (index e) then ret i
      else insertion_point_from id fin k' (i + 1)
  end.

(** [enable_timeout(id, now, fin_time)], lines 161-199. *)
Definition enable_timeout (id : TimeoutId) (now fin : TimestampTz) : M unit :=
  emit (EvCall_enable_timeout id now fin) ;;
  Assert (gets all_timeouts_initialized) ;;
  Assert (e <- all_timeouts_get id ;; ret (bool_decide (timeout_handler e <> None))) ;;
  i <- find_active_timeout id ;;
  (if 0 <=? i then remove_timeout_index i else ret tt) ;;
  n <- gets num_active_timeouts ;;
  i <- insertion_point_from id fin (Z.to_nat n) 0 ;;
  all_timeouts_upd id (set_indicator false) ;;
  all_timeouts_upd id (set_start_time now) ;;
  all_timeouts_upd id (set_fin_time fin) ;;
  insert_timeout id i.

(** [schedule_alarm(now)], lines 207-236. *)
Definition schedule_alarm (now : TimestampTz) : M unit :=
  emit (EvCall_schedule_alarm now) ;;
  n <- gets num_active_timeouts ;;
  if 0 <? n then
    ptr <- active_timeouts_get 0 ;;
    e <- load ptr ;;
    let '(secs, usecs) := TimestampDifference now (fin_time e) in
    let usecs := if (secs =? 0) && (usecs =? 0) then 1 else usecs in
    rc <- call_setitimer (mk_itimerval (mk_timeval 0 0) (mk_timeval secs usecs)) ;;
    if negb (rc =? 0) then raise (FATAL "could not enable SIGALRM timer: %m" [])
    else ret tt
  else ret tt.

(** *** Signal handler *)

(** The [while] loop of [handle_sig_alarm], lines 270-290.  A callback is
    arbitrary code, so the loop carries fuel; it returns the last [now]. *)
Fixpoint fire_pending (fuel : nat) (now : TimestampTz) : M TimestampTz :=
  n <- gets num_active_timeouts ;;
  if 0 <? n then
    head <- active_timeouts_get 0 ;;
    e <- load head ;;
    if fin_time e <=? now then
      match fuel with
      | O => raise OUT_OF_FUEL
      | S fuel' =>
          let this_timeout := head in
          remove_timeout_index 0 ;;
          store this_timeout (set_indicator true) ;;
          e' <- load this_timeout ;;
          call_handler (timeout_handler e') ;;
          now <- GetCurrentTimestamp ;;
          fire_pending fuel' now
      end
    else ret now
  else ret now.

(** [handle_sig_alarm], lines 249-297. *)
Definition handle_sig_alarm (fuel : nat) : M unit :=
  fun p0 =>
  let save_errno := errno p0 in
  let body : M unit :=
    (fun p => when (MyProc p) (emit EvSetLatch) p) ;;
    n <- gets num_active_timeouts ;;
    (if 0 <? n then
       now <- GetCurrentTimestamp ;;
       now <- fire_pending fuel now ;;
       schedule_alarm now
     else ret tt) ;;
    (fun p => (Ok tt, with_errno save_errno p)) in
  body p0.

(** *** Public API *)

(** The loop of [InitializeTimeouts], lines 321-328. *)
Fixpoint InitializeTimeouts_from (k : nat) (i : nat) : M unit :=
  match k with
  | O => ret tt
  | S k' =>
      all_timeouts_upd i (fun _ => mk_timeout_params i false None 0 0) ;;
      InitializeTimeouts_from k' (S i)
  end.

(** [InitializeTimeouts()], lines 313-334. *)
Definition InitializeTimeouts : M unit :=
  modify (with_num_active 0) ;;
  InitializeTimeouts_from MAX_TIMEOUTS 0%nat ;;
  modify (with_initialized true) ;;
  emit EvPqsignal.

(** The allocation loop of [RegisterTimeout], lines 352-354: returns the
    [id] at which the loop is left. *)
Fixpoint RegisterTimeout_scan (k : nat) (id : TimeoutId) : M TimeoutId :=
  match k with
  | O => ret id
  | S k' =>
      e <- all_timeouts_get id ;;
      if bool_decide (timeout_handler e = None) then ret id
      else RegisterTimeout_scan k' (S id)
  end.

(** [RegisterTimeout(id, handler)], lines 344-366. *)
Definition RegisterTimeout (id : TimeoutId)
    (handler : option timeout_handler_proc) : M TimeoutId :=
  Assert (gets all_timeouts_initialized) ;;
  id <- (if Nat.leb USER_TIMEOUT id then
           id <- RegisterTimeout_scan (MAX_TIMEOUTS - USER_TIMEOUT) USER_TIMEOUT ;;
           if Nat.leb MAX_TIMEOUTS id then
             raise (FATAL "cannot add more timeout reasons" [])
           else ret id
         else ret id) ;;
  Assert (e <- all_timeouts_get id ;; ret (bool_decide (timeout_handler e = None))) ;;
  all_timeouts_upd id (set_timeout_handler handler) ;;
  ret id.

(** [enable_timeout_after(id, delay_ms)], lines 373-389. *)
Definition enable_timeout_after (id : TimeoutId) (delay_ms : Z) : M unit :=
  disable_alarm false ;;
  now <- GetCurrentTimestamp ;;
  let fin := TimestampTzPlusMilliseconds now delay_ms in
  enable_timeout id now fin ;;
  schedule_alarm now.

(** [enable_timeout_at(id, fin_time)], lines 398-412. *)
Definition enable_timeout_at (id : TimeoutId) (fin : TimestampTz) : M unit :=
  disable_alarm false ;;
  now <- GetCurrentTimestamp ;;
  enable_timeout id now fin ;;
  schedule_alarm now.

(** [timeouts[i]] for an array passed by the caller. *)
Definition arg_get {A} (timeouts : list A) (i : Z) : M A :=
  if i <? 0 then raise UNDEFINED else
  match timeouts !! Z.to_nat i with
  | Some x => ret x
  | None => raise UNDEFINED
  end.

(** One pass through the body of the loop of [enable_timeouts],
    lines 435-454. *)
Definition enable_timeouts_body (now : TimestampTz) (t : EnableTimeoutParams) : M unit :=
  let id := tp_id t in
  if tp_type t =? TMPARAM_AFTER then
    let fin := TimestampTzPlusMilliseconds now (tp_delay_ms t) in
    enable_timeout id now fin
  else if tp_type t =? TMPARAM_AT then
    enable_timeout id now (tp_fin_time t)
  else
    raise (ERROR "unrecognized timeout type %d" [to_int (tp_type t)]).

Fixpoint enable_timeouts_from (timeouts : list EnableTimeoutParams)
    (now : TimestampTz) (k : nat) (i : Z) : M unit :=
  match k with
  | O => ret tt
  | S k' =>
      t <- arg_get timeouts i ;;
      enable_timeouts_body now t ;;
      enable_timeouts_from timeouts now k' (i + 1)
  end.

(** [enable_timeouts(timeouts, count)], lines 421-459. *)
Definition enable_timeouts (timeouts : list EnableTimeoutParams) (count : Z) : M unit :=
  disable_alarm (1 <? count) ;;
  now <- GetCurrentTimestamp ;;
  enable_timeouts_from timeouts now (Z.to_nat count) 0 ;;
  schedule_alarm now.

(** [disable_timeout(id, keep_indicator)], lines 470-494. *)
Definition disable_timeout (id : TimeoutId) (keep_indicator : bool) : M unit :=
  Assert (gets all_timeouts_initialized) ;;
  Assert (e <- all_timeouts_get id ;; ret (bool_decide (timeout_handler e <> None))) ;;
  disable_alarm false ;;
  i <- find_active_timeout id ;;
  (if 0 <=? i then remove_timeout_index i else ret tt) ;;
  (if negb keep_indicator then all_timeouts_upd id (set_indicator false) else ret tt) ;;
  n <- gets num_active_timeouts ;;
  if 0 <? n then
    now <- GetCurrentTimestamp ;; schedule_alarm now
  else ret tt.

(** One pass through the body of the loop of [disable_timeouts],
    lines 519-529. *)
Definition disable_timeouts_body (t : DisableTimeoutParams) : M unit :=
  let id := dp_id t in
  Assert (e <- all_timeouts_get id ;; ret (bool_decide (timeout_handler e <> None))) ;;
  idx <- find_active_timeout id ;;
  (if 0 <=? idx then remove_timeout_index idx else ret tt) ;;
  if negb (dp_keep_indicator t) then all_timeouts_upd id (set_indicator false)
  else ret tt.

Fixpoint disable_timeouts_from (timeouts : list DisableTimeoutParams)
    (k : nat) (i : Z) : M unit :=
  match k with
  | O => ret tt
  | S k' =>
      t <- arg_get timeouts i ;;
      disable_timeouts_body t ;;
      disable_timeouts_from timeouts k' (i + 1)
  end.

(** [disable_timeouts(timeouts, count)], lines 506-535. *)
Definition disable_timeouts (timeouts : list DisableTimeoutParams) (count : Z) : M unit :=
  Assert (gets all_timeouts_initialized) ;;
  disable_alarm false ;;
  disable_timeouts_from timeouts (Z.to_nat count) 0 ;;
  n <- gets num_active_timeouts ;;
  if 0 <? n then
    now <- GetCurrentTimestamp ;; schedule_alarm now
  else ret tt.

(** The loop of [disable_all_timeouts], lines 556-557. *)
Fixpoint clear_indicators_from (k : nat) (i : nat) : M unit :=
  match k with
  | O => ret tt
  | S k' =>
      all_timeouts_upd i (set_indicator false) ;;
      clear_indicators_from k' (S i)
  end.

(** [disable_all_timeouts(keep_indicators)], lines 541-559. *)
Definition disable_all_timeouts (keep_indicators : bool) : M unit :=
  rc <- call_setitimer itimerval_zero ;;
  (if negb (rc =? 0) then raise (FATAL "could not disable SIGALRM timer: %m" [])
   else ret tt) ;;
  modify (with_num_active 0) ;;
  if negb keep_indicators then clear_indicators_from MAX_TIMEOUTS 0%nat
  else ret tt.

(** [get_timeout_indicator(id, reset_indicator)], lines 568-578. *)
Definition get_timeout_indicator (id : TimeoutId) (reset_indicator : bool) : M bool :=
  e <- all_timeouts_get id ;;
  if indicator e then
    (if reset_indicator then all_timeouts_upd id (set_indicator false) else ret tt) ;;
    ret true
  else ret false.

(** [get_timeout_start_time(id)], lines 588-592. *)
Definition get_timeout_start_time (id : TimeoutId) : M TimestampTz :=
  e <- all_timeouts_get id ;; ret (start_time e).

(** The six operations that change the queue, as one type. *)
Inductive mutator :=
  | Op_enable_timeout_after (id : TimeoutId) (delay_ms : Z)
  | Op_enable_timeout_at (id : TimeoutId) (fin : TimestampTz)
  | Op_enable_timeouts (timeouts : list EnableTimeoutParams) (count : Z)
  | Op_disable_timeout (id : TimeoutId) (keep_indicator : bool)
  | Op_disable_timeouts (timeouts : list DisableTimeoutParams) (count : Z)
  | Op_disable_all_timeouts (keep_indicators : bool).

Definition run_mutator (op : mutator) : M unit :=
  match op with
  | Op_enable_timeout_after id delay_ms => enable_timeout_after id delay_ms
  | Op_enable_timeout_at id fin => enable_timeout_at id fin
  | Op_enable_timeouts timeouts count => enable_timeouts timeouts count
  | Op_disable_timeout id keep => disable_timeout id keep
  | Op_disable_timeouts timeouts count => disable_timeouts timeouts count
  | Op_disable_all_timeouts keep => disable_all_timeouts keep
  end.

End Program.

(** ** The active queue and its invariants *)

(** The active queue: the first [num_active_timeouts] slots of
    [active_timeouts]. *)
Definition queue (m : statics) : list (option TimeoutId) :=
  take (Z.to_nat (num_active_timeouts m)) (active_timeouts m).

(** The entry a queue slot points to. *)
Definition entry_at (m : statics) (ptr : option TimeoutId) : option timeout_params :=
  match ptr with
  | Some slot => all_timeouts m !! slot
  | None => None
  end.

(** The entries of the active queue, in queue order; [None] when a slot of
    the queue does not point into [all_timeouts]. *)
Definition queue_entries (m : statics) : option (list timeout_params) :=
  mapM (entry_at m) (queue m).

(** The sort key of an entry and the lexicographic order on keys. *)
Definition key (e : timeout_params) : Z * nat := (fin_time e, index e).

Definition key_lt (a b : Z * nat) : Prop :=
  a.1 < b.1 \/ (a.1 = b.1 /\ (a.2 < b.2)%nat).

Definition entry_lt (a b : timeout_params) : Prop := key_lt (key a) (key b).

Section Invariants.
Context `{Platform}.

(** What [InitializeTimeouts] establishes and no function of the file
    changes: both arrays have [MAX_TIMEOUTS] slots, the module is
    initialized, and the [index] field of slot [k] is [k]. *)
Record wf_statics (m : statics) : Prop := {
  wf_all_length : length (all_timeouts m) = MAX_TIMEOUTS;
  wf_active_length : length (active_timeouts m) = MAX_TIMEOUTS;
  wf_initialized : all_timeouts_initialized m = true;
  wf_index : forall k e, all_timeouts m !! k = Some e -> index e = k
}.

(** The invariants of the active queue, for the entries [es] it holds:
    strictly increasing keys, no identifier twice, no NULL handler, and at
    most [MAX_TIMEOUTS] of them. *)
Record queue_invariants_for (m : statics) (es : list timeout_params) : Prop := {
  qi_entries : queue_entries m = Some es;
  qi_sorted : StronglySorted entry_lt es;
  qi_nodup : NoDup (index <$> es);
  qi_handler : Forall (fun e => timeout_handler e <> None) es;
  qi_bound : 0 <= num_active_timeouts m <= Z.of_nat MAX_TIMEOUTS
}.

Definition queue_invariants (m : statics) : Prop :=
  exists es, queue_invariants_for m es.

(** [id] names a slot of [all_timeouts] that has a handler. *)
Definition registered (m : statics) (id : TimeoutId) : Prop :=
  exists e, all_timeouts m !! id = Some e /\ timeout_handler e <> None.

(** The preconditions the operations assert on their arguments: every
    identifier passed is registered. *)
Definition mutator_pre (m : statics) (op : mutator) : Prop :=
  match op with
  | Op_enable_timeout_after id _ => registered m id
  | Op_enable_timeout_at id _ => registered m id
  | Op_enable_timeouts timeouts _ =>
      Forall (fun t => registered m (tp_id t)) timeouts
  | Op_disable_timeout id _ => registered m id
  | Op_disable_timeouts timeouts _ =>
      Forall (fun t => registered m (dp_id t)) timeouts
  | Op_disable_all_timeouts _ => True
  end.

(** Callbacks that stay out of timeout.c: they leave its statics alone,
    call none of its functions and do not read the clock. *)
Definition handlers_external : Prop :=
  forall h p,
    mem (run_handler h p) = mem p /\
    trace (run_handler h p) = trace p /\
    clock_reads (run_handler h p) = clock_reads p.

(** Callbacks that leave the statics of timeout.c alone: they call none
    of its functions.  What else they do is up to them: set [errno], call
    the host, take time. *)
Definition handlers_keep_statics : Prop :=
  forall h p, mem (run_handler h p) = mem p.

(** The host never refuses to program the timer. *)
Definition timer_ok : Prop := forall v, setitimer v = 0.

End Invariants.

(** ** The abstract queue

    The lemmas describe the active queue by the list of entries it points
    to; these are the list operations the array code implements. *)

(** [ptrs] point, in order, to the entries [es]. *)
Definition entries_of (m : statics) (ptrs : list (option TimeoutId))
    (es : list timeout_params) : Prop :=
  Forall2 (fun ptr e => entry_at m ptr = Some e) ptrs es.

#[global] Instance key_lt_dec : RelDecision key_lt.
Proof. intros a b. unfold key_lt. apply _. Defined.

#[global] Instance entry_lt_dec : RelDecision entry_lt.
Proof. intros a b. unfold entry_lt. apply _. Defined.

(** [e] put in front of the first entry with a larger key. *)
Fixpoint insert_sorted (e : timeout_params) (es : list timeout_params) :
    list timeout_params :=
  match es with
  | [] => [e]
  | x :: es' =>
      if decide (entry_lt e x) then e :: x :: es' else x :: insert_sorted e es'
  end.

(** The entries other than those of [id]. *)
Definition without (id : TimeoutId) (es : list timeout_params) : list timeout_params :=
  filter (fun e => index e <> id) es.

(** What [enable_timeout] writes to the entry it arms. *)
Definition armed (now fin : TimestampTz) (e : timeout_params) : timeout_params :=
  set_fin_time fin (set_start_time now (set_indicator false e)).

(** The process with [active_timeouts] replaced. *)
Definition set_active (a : list (option TimeoutId)) (p : process) : process :=
  with_mem (with_active a (mem p)) p.

(** The process with slot [id] of [all_timeouts] replaced. *)
Definition set_slot (id : TimeoutId) (e : timeout_params) (p : process) : process :=
  with_mem (with_all_timeouts (<[id := e]> (all_timeouts (mem p))) (mem p)) p.

(** The handler registered for [id], if any. *)
Definition handler_at (m : statics) (id : TimeoutId) : option timeout_handler_proc :=
  match all_timeouts m !! id with
  | Some e => timeout_handler e
  | None => None
  end.

(** An entry of a batch whose [type] is one of the two enumerators. *)
Definition recognised (t : EnableTimeoutParams) : Prop :=
  tp_type t = TMPARAM_AFTER \/ tp_type t = TMPARAM_AT.

(** The events of [disable_alarm(multi_insert)] with [n] active timeouts. *)
Definition disable_events (multi_insert : bool) (n : Z) : list event :=
  EvCall_disable_alarm multi_insert ::
  (if multi_insert || (0 <? n) then [EvSetitimer itimerval_zero] else []).

(** The callbacks run for the entries [es], in order. *)
Definition fire_events (es : list timeout_params) : list event :=
  omap (fun e => EvHandler <$> timeout_handler e) es.

(** The callbacks called among the events [evs]. *)
Definition handler_calls (evs : list event) : list timeout_handler_proc :=
  omap (fun ev => match ev with EvHandler h => Some h | _ => None end) evs.

(** The arguments of the calls of [schedule_alarm] among the events [evs]. *)
Definition schedule_alarm_calls (evs : list event) : list TimestampTz :=
  omap (fun ev => match ev with EvCall_schedule_alarm t => Some t | _ => None end) evs.

(** [c] keeps [I] true of the statics, whether it returns or raises. *)
Definition stable (I : statics -> Prop) {A} (c : M A) : Prop :=
  forall p, I (mem p) -> I (mem (c p).2).

Section Abstract.
Context `{Platform}.

(** What [schedule_alarm] passes to [setitimer] when the head of the queue
    is due at [fin]. *)
Definition alarm_value (now fin : TimestampTz) : itimerval :=
  let '(secs, usecs) := TimestampDifference now fin in
  mk_itimerval (mk_timeval 0 0)
    (mk_timeval secs (if (secs =? 0) && (usecs =? 0) then 1 else usecs)).

Definition setitimer_outcome (msg : string) (v : itimerval) : result unit :=
  if setitimer v =? 0 then Ok tt else Raise (FATAL msg []).

(** The events and the outcome of [schedule_alarm(now)] when the queue
    holds [es]. *)
Definition schedule_events (now : TimestampTz) (es : list timeout_params) : list event :=
  match es with
  | [] => [EvCall_schedule_alarm now]
  | e :: _ => [EvCall_schedule_alarm now; EvSetitimer (alarm_value now (fin_time e))]
  end.

Definition schedule_result (now : TimestampTz) (es : list timeout_params) : result unit :=
  match es with
  | [] => Ok tt
  | e :: _ => setitimer_outcome "could not enable SIGALRM timer: %m"
                (alarm_value now (fin_time e))
  end.

(** The state invariant of the mutators: well-formed statics, the queue
    invariants, and every identifier of [ids] registered. *)
Definition good (ids : list TimeoutId) (m : statics) : Prop :=
  wf_statics m /\ queue_invariants m /\ Forall (registered m) ids.

(** The [fin_time] an entry of a batch asks for. *)
Definition deadline (now : TimestampTz) (t : EnableTimeoutParams) : TimestampTz :=
  if tp_type t =? TMPARAM_AFTER then TimestampTzPlusMilliseconds now (tp_delay_ms t)
  else tp_fin_time t.

(** The registry entry of a timeout just enabled by a batch. *)
Definition enabled_entry (h : TimeoutId -> option timeout_handler_proc)
    (now : TimestampTz) (t : EnableTimeoutParams) : timeout_params :=
  mk_timeout_params (tp_id t) false (h (tp_id t)) now (deadline now t).

(** The queue after one more entry of the batch. *)
Definition enqueue (h : TimeoutId -> option timeout_handler_proc)
    (now : TimestampTz) (es : list timeout_params) (t : EnableTimeoutParams) :
    list timeout_params :=
  insert_sorted (enabled_entry h now t) (without (tp_id t) es).

(** The [enable_timeout] calls of a batch. *)
Definition enable_events (now : TimestampTz) (ts : list EnableTimeoutParams) : list event :=
  (fun t => EvCall_enable_timeout (tp_id t) now (deadline now t)) <$> ts.

(** *** The loop of the signal handler, round by round *)

(** The state [q] in which the loop calls the callback of [e], reached from
    [p], where [e] heads the queue and [rest] follows it: [e] has been
    removed from the queue, its indicator has been set, the call is on
    record, and nothing else has changed. *)
Definition round_to_callback (e : timeout_params) (rest : list timeout_params)
    (p q : process) : Prop :=
  wf_statics (mem q) /\ queue_invariants_for (mem q) rest /\
  all_timeouts (mem q) = <[index e := set_indicator true e]> (all_timeouts (mem p)) /\
  errno q = errno p /\ MyProc q = MyProc p /\ clock_reads q = clock_reads p /\
  trace q = trace p ++ fire_events [e].

(** The rounds of the loop that fire the entries [fired] and leave [rest]
    in the queue: entered with the reading [now] in the state [p], they end
    with the reading [now'] in the state [p'].  A round finds the head of
    the queue due at the current reading, gets to the call of its callback
    as above, runs the callback, and then reads the clock again. *)
Inductive fire_rounds : list timeout_params -> list timeout_params ->
    TimestampTz -> process -> TimestampTz -> process -> Prop :=
  | fire_rounds_done rest now p :
      fire_rounds [] rest now p now p
  | fire_rounds_next e fired rest now p h q now' p' :
      fin_time e <= now ->
      timeout_handler e = Some h ->
      round_to_callback e (fired ++ rest) p q ->
      fire_rounds fired rest
        (clock (clock_reads (run_handler h q)))
        (with_clock_reads (S (clock_reads (run_handler h q))) (run_handler h q))
        now' p' ->
      fire_rounds (e :: fired) rest now p now' p'.

End Abstract.

(** ** The module in use

    What the process does with the module over time: it registers reasons,
    calls the mutators and the getters, and is interrupted by SIGALRM.  The
    definitions below are the vocabulary for statements about more than
    one call. *)

(** What [handle_sig_alarm] does before it looks at the queue. *)
Definition latch_events (p : process) : list event :=
  if MyProc p then [EvSetLatch] else [].

(** The values given to [setitimer] among the events [evs]. *)
Definition setitimer_calls (evs : list event) : list itimerval :=
  omap (fun ev => match ev with EvSetitimer v => Some v | _ => None end) evs.

(** An entry with its [start_time] blanked: what two runs that read the
    clock at different moments can agree on. *)
Definition forget_start (e : timeout_params) : timeout_params := set_start_time 0 e.


Section Callers.
Context `{Platform}.

(** The events of the closing
    [if (num_active_timeouts > 0) schedule_alarm(GetCurrentTimestamp())] of
    [disable_timeout] and [disable_timeouts] when the queue holds [es], and
    the number of clock readings it takes. *)
Definition reschedule_events (now : TimestampTz) (es : list timeout_params) : list event :=
  match es with
  | [] => []
  | _ :: _ => schedule_events now es
  end.

Definition reschedule_reads (es : list timeout_params) : nat :=
  match es with
  | [] => 0
  | _ :: _ => 1
  end.

(** The events [evs] of a call leave the timer programmed for the queue
    [es]: with entries left, the last event arms it for the head, from the
    clock reading [now]; with none left, no event arms it. *)
Definition timer_programmed (now : TimestampTz) (evs : list event)
    (es : list timeout_params) : Prop :=
  match es with
  | [] => Forall (fun v => v = itimerval_zero) (setitimer_calls evs)
  | hd :: _ => last evs = Some (EvSetitimer (alarm_value now (fin_time hd)))
  end.

(** An argument list a batch function can walk: [count] is its length and
    every entry has a type the function knows. *)
Definition mutator_args_ok (op : mutator) : Prop :=
  match op with
  | Op_enable_timeouts ts count =>
      count = Z.of_nat (length ts) /\ Forall recognised ts
  | Op_disable_timeouts ts count => count = Z.of_nat (length ts)
  | _ => True
  end.


(** Calling [disable_timeout] for the entries of a batch, one call after
    the other. *)
Fixpoint disable_each (ts : list DisableTimeoutParams) : M unit :=
  match ts with
  | [] => ret tt
  | t :: ts' => disable_timeout (dp_id t) (dp_keep_indicator t) ;; disable_each ts'
  end.

(** Calling [enable_timeout_at] for the entries of a batch, one call after
    the other. *)
Fixpoint enable_each_at (ts : list EnableTimeoutParams) : M unit :=
  match ts with
  | [] => ret tt
  | t :: ts' => enable_timeout_at (tp_id t) (tp_fin_time t) ;; enable_each_at ts'
  end.

(** Allocating a user-defined reason for each of the callbacks [hs], one
    call of [RegisterTimeout] after the other; the identifiers obtained. *)
Fixpoint register_each (hs : list timeout_handler_proc) : M (list TimeoutId) :=
  match hs with
  | [] => ret []
  | h :: hs' =>
      id <- RegisterTimeout USER_TIMEOUT (Some h) ;;
      ids <- register_each hs' ;;
      ret (id :: ids)
  end.

(** The user-defined slots from [USER_TIMEOUT + j] on are free, those
    before are taken. *)
Definition users_taken (j : nat) (m : statics) : Prop :=
  forall s e, (USER_TIMEOUT <= s < MAX_TIMEOUTS)%nat -> all_timeouts m !! s = Some e ->
    (timeout_handler e = None <-> (USER_TIMEOUT + j <= s)%nat).





End Callers.


(** ** A sample host and sample states

    Used to run the model on concrete inputs.  The host has sixteen timeout
    reasons of which the first six are predefined, builds with assertions,
    counts time in microseconds, reads 1.0 s, 1.1 s, 1.2 s, ... from its
    clock, never fails to program the timer, and has callbacks that only
    leave their address in [errno]. *)

(** Modelled from the spec: [TimestampDifference] lives in
    utils/timestamp.c, which is not part of src/.  The difference between two
    instants as seconds and microseconds; an instant that is not in the
    future is zero away, which is the case the rounding of [schedule_alarm]
    is for. *)
Definition TimestampDifference_usec (start_time stop_time : TimestampTz) : Z * Z :=
  let diff := stop_time - start_time in
  if diff <=? 0 then (0, 0) else (diff / 1000000, diff mod 1000000).

(** Modelled from the spec: [TimestampTzPlusMilliseconds] is a macro of
    utils/timestamp.h, which is not part of src/: [now + delay_ms], on
    timestamps in microseconds. *)
Definition TimestampTzPlusMilliseconds_usec (tz : TimestampTz) (ms : Z) : TimestampTz :=
  tz + ms * 1000.

Definition sample_host : Platform := {|
  MAX_TIMEOUTS := 16;
  USER_TIMEOUT := 6;
  USE_ASSERT_CHECKING := true;
  TimestampTzPlusMilliseconds := TimestampTzPlusMilliseconds_usec;
  TimestampDifference := TimestampDifference_usec;
  clock := fun n => 1000000 + 100000 * Z.of_nat n;
  setitimer := fun _ => 0;
  run_handler := fun h p => with_errno (Z.of_nat h) p
|}.

(** The sample host with a timer that cannot be programmed. *)
Definition failing_host : Platform := {|
  MAX_TIMEOUTS := 16;
  USER_TIMEOUT := 6;
  USE_ASSERT_CHECKING := true;
  TimestampTzPlusMilliseconds := TimestampTzPlusMilliseconds_usec;
  TimestampDifference := TimestampDifference_usec;
  clock := fun n => 1000000 + 100000 * Z.of_nat n;
  setitimer := fun _ => -1;
  run_handler := fun h p => with_errno (Z.of_nat h) p
|}.

(** The sample host with a callback that calls back into timeout.c: the
    callback of reason 2 (at address 102) arms reason 3 for 0.5 s, a time
    that has passed. *)
Definition reentrant_host : Platform := {|
  MAX_TIMEOUTS := 16;
  USER_TIMEOUT := 6;
  USE_ASSERT_CHECKING := true;
  TimestampTzPlusMilliseconds := TimestampTzPlusMilliseconds_usec;
  TimestampDifference := TimestampDifference_usec;
  clock := fun n => 1000000 + 100000 * Z.of_nat n;
  setitimer := fun _ => 0;
  run_handler := fun h p =>
    if (h =? 102)%nat then (@enable_timeout_at sample_host 3 500000 p).2 else p
|}.


Section SampleData.
#[local] Existing Instance sample_host.

(** The process before [InitializeTimeouts]: statics are zero. *)
Definition process_start : process :=
  mk_process
    (mk_statics (replicate 16 (mk_timeout_params 0 false None 0 0)) false 0
       (replicate 16 None))
    0 true 0 [].

(** Initialized, reasons 2 to 5 registered and two user-defined reasons
    allocated (they get 6 and 7); nothing armed. *)
Definition sample_idle : process :=
  Eval vm_compute in
    ((InitializeTimeouts ;;
      RegisterTimeout 2 (Some 102%nat) ;;
      RegisterTimeout 3 (Some 103%nat) ;;
      RegisterTimeout 4 (Some 104%nat) ;;
      RegisterTimeout 5 (Some 105%nat) ;;
      RegisterTimeout USER_TIMEOUT (Some 200%nat) ;;
      RegisterTimeout USER_TIMEOUT (Some 201%nat)) process_start).2.

(** Scenario 1 of the spec: at 1.0 s, reasons 2 and 5 are both armed for
    1.1 s. *)
Definition sample_armed : process :=
  Eval vm_compute in
    (enable_timeouts
       [mk_EnableTimeoutParams 2 TMPARAM_AT 0 1100000;
        mk_EnableTimeoutParams 5 TMPARAM_AT 0 1100000] 2 sample_idle).2.

(** The entries the queue of [sample_armed] points to. *)
Definition sample_armed_entries : list timeout_params :=
  Eval vm_compute in default [] (queue_entries (mem sample_armed)).

(** Every user-defined slot taken. *)
Definition sample_full : process :=
  Eval vm_compute in
    (foldr (fun h k => RegisterTimeout USER_TIMEOUT (Some h) ;; k) (ret tt)
       (seq 202 8) sample_idle).2.

(** Scenario 3 of the spec: a batch of two, and the same batch with an
    entry of an unknown type in between. *)
Definition sample_batch : list EnableTimeoutParams :=
  [mk_EnableTimeoutParams 3 TMPARAM_AFTER 50 0;
   mk_EnableTimeoutParams 4 TMPARAM_AT 0 1010000].

Definition sample_bad_batch : list EnableTimeoutParams :=
  [mk_EnableTimeoutParams 3 TMPARAM_AFTER 50 0;
   mk_EnableTimeoutParams 7 2 0 0;
   mk_EnableTimeoutParams 4 TMPARAM_AT 0 1010000].


(** Just initialized: no reason registered. *)
Definition sample_fresh : process :=
  Eval vm_compute in (InitializeTimeouts process_start).2.

(** At 1.0 s, reason 3 is armed for 5.0 s: nothing is due for a while. *)
Definition sample_later : process :=
  Eval vm_compute in (enable_timeout_at 3 5000000 sample_idle).2.

Definition sample_later_entries : list timeout_params :=
  Eval vm_compute in default [] (queue_entries (mem sample_later)).

(** A batch of cancellations, and a batch of deadlines. *)
Definition sample_cancel_batch : list DisableTimeoutParams :=
  [mk_DisableTimeoutParams 5 false; mk_DisableTimeoutParams 3 true].

Definition sample_at_batch : list EnableTimeoutParams :=
  [mk_EnableTimeoutParams 4 TMPARAM_AT 0 1300000;
   mk_EnableTimeoutParams 2 TMPARAM_AT 0 1200000].


End SampleData.

(** * Proofs *)

(** ** Running the monad *)

Lemma bind_ok {A B} (m : M A) (k : A -> M B) p a p' :
  m p = (Ok a, p') -> bind m k p = k a p'.
Proof. intros E. unfold bind. by rewrite E. Qed.

Lemma active_timeouts_get_ok (i : nat) ptr p :
  active_timeouts (mem p) !! i = Some ptr ->
  active_timeouts_get (Z.of_nat i) p = (Ok ptr, p).
Proof.
  intros E. unfold active_timeouts_get.
  destruct (Z.ltb_spec (Z.of_nat i) 0); [lia|].
  by rewrite Nat2Z.id, E.
Qed.

Lemma active_timeouts_set_ok (i : nat) ptr p :
  (i < length (active_timeouts (mem p)))%nat ->
  active_timeouts_set (Z.of_nat i) ptr p =
    (Ok tt, with_mem (with_active (<[i := ptr]> (active_timeouts (mem p))) (mem p)) p).
Proof.
  intros Hi. unfold active_timeouts_set.
  destruct (lookup_lt_is_Some_2 _ _ Hi) as [old E].
  rewrite (bind_ok _ _ _ _ _ (active_timeouts_get_ok _ _ _ E)).
  unfold modify. by rewrite Nat2Z.id.
Qed.


(** ** The array loops

    Each loop of the file, run on arrays that are long enough, as a list
    operation. *)

(** The loop of [remove_timeout_index]: the [k] slots from [S j] on move
    down by one. *)
Lemma shift_down_from_ok k : forall (j : nat) p,
  (S j + k <= length (active_timeouts (mem p)))%nat ->
  shift_down_from k (Z.of_nat (S j)) p =
    (Ok tt, set_active
       (take j (active_timeouts (mem p)) ++
        take k (drop (S j) (active_timeouts (mem p))) ++
        drop (j + k) (active_timeouts (mem p))) p).
Proof.
  induction k as [|k IH]; intros j p Hlen.
  - simpl. unfold ret. rewrite Nat.add_0_r, take_drop.
    destruct p as [[] ? ? ? ?]; reflexivity.
  - cbn [shift_down_from]. set (a := active_timeouts (mem p)) in *.
    destruct (lookup_lt_is_Some_2 a (S j) ltac:(lia)) as [x Ex].
    rewrite (bind_ok _ _ _ _ _ (active_timeouts_get_ok _ _ _ Ex)).
    replace (Z.of_nat (S j) - 1) with (Z.of_nat j) by lia.
    rewrite (bind_ok _ _ _ _ _ (active_timeouts_set_ok j x p ltac:(fold a; lia))).
    replace (Z.of_nat (S j) + 1) with (Z.of_nat (S (S j))) by lia.
    rewrite IH by (cbn; rewrite length_insert; fold a; lia).
    unfold set_active, with_mem, with_active; cbn. fold a. do 3 f_equal.
    rewrite (take_S_r _ _ x) by (rewrite list_lookup_insert_eq; [done|lia]).
    rewrite take_insert_ge by lia.
    rewrite !drop_insert_lt by lia.
    rewrite (drop_S a x (S j) Ex). cbn [take].
    rewrite <- app_assoc. cbn [app].
    replace (S (j + k))%nat with (j + S k)%nat by lia. reflexivity.
Qed.

(** The loop of [insert_timeout]: the [k] slots from [lo] on move up by
    one. *)
Lemma shift_up_from_ok k : forall (lo : nat) p,
  (lo + k < length (active_timeouts (mem p)))%nat ->
  shift_up_from k (Z.of_nat (lo + k) - 1) p =
    (Ok tt, set_active
       (take (S lo) (active_timeouts (mem p)) ++
        take k (drop lo (active_timeouts (mem p))) ++
        drop (S (lo + k)) (active_timeouts (mem p))) p).
Proof.
  induction k as [|k IH]; intros lo p Hlen.
  - cbn [shift_up_from]. unfold ret.
    rewrite Nat.add_0_r, take_0, app_nil_l, take_drop.
    destruct p as [[] ? ? ? ?]; reflexivity.
  - cbn [shift_up_from]. set (a := active_timeouts (mem p)) in *.
    replace (Z.of_nat (lo + S k) - 1) with (Z.of_nat (lo + k)) by lia.
    destruct (lookup_lt_is_Some_2 a (lo + k) ltac:(lia)) as [x Ex].
    rewrite (bind_ok _ _ _ _ _ (active_timeouts_get_ok _ _ _ Ex)).
    replace (Z.of_nat (lo + k) + 1) with (Z.of_nat (S (lo + k))) by lia.
    rewrite (bind_ok _ _ _ _ _ (active_timeouts_set_ok (S (lo + k)) x p ltac:(fold a; lia))).
    rewrite IH by (cbn; rewrite ?length_insert; fold a; lia).
    unfold set_active, with_mem, with_active;
      cbn [mem active_timeouts all_timeouts all_timeouts_initialized
           num_active_timeouts errno MyProc clock_reads trace].
    fold a. do 3 f_equal.
    rewrite take_insert_ge by lia. f_equal.
    rewrite drop_insert_ge by lia.
    rewrite take_insert_ge by lia.
    rewrite (take_S_r _ _ x) by (by rewrite lookup_drop).
    rewrite <- app_assoc. f_equal. cbn [app].
    rewrite drop_insert_ge by lia.
    rewrite Nat.sub_diag.
    destruct (lookup_lt_is_Some_2 a (S (lo + k)) ltac:(lia)) as [y Ey].
    rewrite (drop_S a y _ Ey). cbn.
    by replace (lo + S k)%nat with (S (lo + k)) by lia.
Qed.

(** [remove_timeout_index] deletes position [idx] of the queue. *)
Lemma remove_timeout_index_ok (idx : nat) p :
  let m := mem p in
  let n := Z.to_nat (num_active_timeouts m) in
  (idx < n)%nat -> (n <= length (active_timeouts m))%nat ->
  exists a',
    remove_timeout_index (Z.of_nat idx) p =
      (Ok tt, with_mem (mk_statics (all_timeouts m) (all_timeouts_initialized m)
                          (num_active_timeouts m - 1) a') p) /\
    length a' = length (active_timeouts m) /\
    take (n - 1) a' = delete idx (queue m).
Proof.
  intros m n Hidx Hn. unfold remove_timeout_index, queue.
  fold m. fold n. set (a := active_timeouts m) in *.
  assert (En : n = Z.to_nat (num_active_timeouts m)) by done. clearbody n.
  eexists. split; [|split].
  - unfold bind at 1. cbn [gets]. fold m.
    destruct (Z.ltb_spec (Z.of_nat idx) 0); [lia|].
    destruct (Z.leb_spec (num_active_timeouts m) (Z.of_nat idx)); [lia|].
    cbn [orb]. unfold bind at 1. cbn [ret].
    replace (Z.of_nat idx + 1) with (Z.of_nat (S idx)) by lia.
    replace (Z.to_nat (num_active_timeouts m - Z.of_nat (S idx))) with (n - S idx)%nat.
    2:{ lia. }
    rewrite (bind_ok _ _ _ _ _ (shift_down_from_ok (n - S idx) idx p ltac:(fold m a; lia))).
    unfold modify, set_active, with_mem, with_num_active, with_active. cbn. reflexivity.
  - rewrite !length_app, !length_take, !length_drop. fold m a. lia.
  - fold m a. rewrite delete_take_drop.
    rewrite take_take. replace (idx `min` n)%nat with idx by lia.
    rewrite take_app_ge by (rewrite length_take; lia).
    rewrite length_take. replace (idx `min` length a)%nat with idx by lia.
    rewrite take_app_le by (rewrite length_take, length_drop; lia).
    rewrite take_take. f_equal.
    replace ((n - 1 - idx) `min` (n - S idx))%nat with (n - S idx)%nat by lia.
    rewrite take_drop_commute. do 2 f_equal. lia.
Qed.

(** [insert_timeout] puts a pointer to slot [id] at position [idx] of the
    queue. *)
Lemma insert_timeout_ok (id : TimeoutId) (idx : nat) p :
  let m := mem p in
  let n := Z.to_nat (num_active_timeouts m) in
  0 <= num_active_timeouts m ->
  (idx <= n)%nat -> (n < length (active_timeouts m))%nat ->
  exists a',
    insert_timeout id (Z.of_nat idx) p =
      (Ok tt, with_mem (mk_statics (all_timeouts m) (all_timeouts_initialized m)
                          (num_active_timeouts m + 1) a') p) /\
    length a' = length (active_timeouts m) /\
    take (S n) a' = take idx (queue m) ++ Some id :: drop idx (queue m).
Proof.
  intros m n H0 Hidx Hn. unfold insert_timeout, queue.
  fold m. fold n. set (a := active_timeouts m) in *.
  assert (En : n = Z.to_nat (num_active_timeouts m)) by done. clearbody n.
  eexists. split; [|split].
  - unfold bind at 1. cbn [gets]. fold m.
    destruct (Z.ltb_spec (Z.of_nat idx) 0); [lia|].
    destruct (Z.ltb_spec (num_active_timeouts m) (Z.of_nat idx)); [lia|].
    cbn [orb]. unfold bind at 1. cbn [ret].
    replace (Z.to_nat (num_active_timeouts m - Z.of_nat idx)) with (n - idx)%nat by lia.
    replace (num_active_timeouts m - 1) with (Z.of_nat (idx + (n - idx)) - 1) by lia.
    rewrite (bind_ok _ _ _ _ _ (shift_up_from_ok (n - idx) idx p ltac:(fold m a; lia))).
    erewrite bind_ok;
      [|apply (active_timeouts_set_ok idx (Some id)); cbn;
        rewrite !length_app, !length_take, !length_drop; fold m a; lia].
    unfold modify, set_active, with_mem, with_num_active, with_active. cbn. reflexivity.
  - rewrite length_insert, !length_app, !length_take, !length_drop. fold m a. lia.
  - fold m a. 
    rewrite take_take. replace (idx `min` n)%nat with idx by lia.
    rewrite take_insert_lt by lia.
    rewrite app_assoc.
    rewrite take_app_le by (rewrite length_app, !length_take, length_drop; lia).
    rewrite take_ge by (rewrite length_app, !length_take, length_drop; lia).
    rewrite insert_app_l by (rewrite length_take; lia).
    rewrite (take_S_r a idx (default None (a !! idx))).
    2:{ destruct (lookup_lt_is_Some_2 a idx ltac:(lia)) as [x ->]. done. }
    rewrite insert_app_r_alt by (rewrite length_take; lia).
    rewrite length_take. replace (idx - idx `min` length a)%nat with 0%nat by lia.
    cbn [insert list_insert]. rewrite <- app_assoc. cbn [app]. do 2 f_equal.
    rewrite take_drop_commute. do 2 f_equal. lia.
Qed.



Lemma all_timeouts_get_ok id e p :
  all_timeouts (mem p) !! id = Some e -> all_timeouts_get id p = (Ok e, p).
Proof. intros E. unfold all_timeouts_get. by rewrite E. Qed.

Lemma load_ok ptr e p :
  entry_at (mem p) ptr = Some e -> load ptr p = (Ok e, p).
Proof.
  destruct ptr as [slot|]; [|done]. apply all_timeouts_get_ok.
Qed.

Lemma entries_of_cons_take m k i a e es :
  entries_of m (take (S k) (drop i a)) (e :: es) ->
  exists x, a !! i = Some x /\ entry_at m x = Some e /\
            entries_of m (take k (drop (S i) a)) es.
Proof.
  intros HF. destruct (drop i a) as [|x l] eqn:Ed; [inversion HF|].
  cbn [take] in HF. apply Forall2_cons in HF as [Hx HF].
  exists x. split; [|split; [done|]].
  - rewrite <- (Nat.add_0_r i), <- lookup_drop, Ed. done.
  - replace (drop (S i) a) with l; [done|].
    replace (S i) with (i + 1)%nat by lia. by rewrite <- drop_drop, Ed.
Qed.

(** The loop of [find_active_timeout] is [list_find] on the entries. *)
Lemma find_active_timeout_from_ok id k : forall (i : nat) p es,
  entries_of (mem p) (take k (drop i (active_timeouts (mem p)))) es ->
  length es = k ->
  find_active_timeout_from id k (Z.of_nat i) p =
    (Ok (match list_find (fun e => index e = id) es with
         | Some (j, _) => Z.of_nat (i + j)
         | None => -1
         end), p).
Proof.
  induction k as [|k IH]; intros i p es HF Hlen.
  - destruct es; [done|discriminate].
  - destruct es as [|e es]; [discriminate|].
    apply entries_of_cons_take in HF as (x & Ex & Hx & HF).
    cbn [find_active_timeout_from].
    rewrite (bind_ok _ _ _ _ _ (active_timeouts_get_ok _ _ _ Ex)).
    rewrite (bind_ok _ _ _ _ _ (load_ok _ _ _ Hx)).
    cbn [list_find]. destruct (Nat.eqb_spec (index e) id) as [E|E].
    + rewrite decide_True by done. unfold ret. do 3 f_equal. lia.
    + rewrite decide_False by done.
      replace (Z.of_nat i + 1) with (Z.of_nat (S i)) by lia.
      rewrite (IH _ _ es HF) by (cbn in Hlen; lia).
      destruct (list_find _ es) as [[j y]|]; cbn; [|done].
      do 3 f_equal. lia.
Qed.

Lemma insertion_point_test fin id e :
  (fin <? fin_time e) = false ->
  ((fin =? fin_time e) && Nat.ltb id (index e)) = false ->
  ~ key_lt (fin, id) (key e).
Proof.
  intros H1 H2 [Hl|[He Hl]]; cbn in *.
  - apply Z.ltb_ge in H1. lia.
  - apply andb_false_iff in H2 as [H2|H2].
    + apply Z.eqb_neq in H2. lia.
    + apply Nat.ltb_ge in H2. lia.
Qed.

(** The search loop of [enable_timeout] stops at the first entry whose key
    is larger than [(fin, id)]. *)
Lemma insertion_point_from_ok id fin k : forall (i : nat) p es,
  entries_of (mem p) (take k (drop i (active_timeouts (mem p)))) es ->
  length es = k ->
  insertion_point_from id fin k (Z.of_nat i) p =
    (Ok (match list_find (fun e => key_lt (fin, id) (key e)) es with
         | Some (j, _) => Z.of_nat (i + j)
         | None => Z.of_nat (i + k)
         end), p).
Proof.
  induction k as [|k IH]; intros i p es HF Hlen.
  - destruct es; [|discriminate]. cbn. unfold ret. by rewrite Nat.add_0_r.
  - destruct es as [|e es]; [discriminate|].
    apply entries_of_cons_take in HF as (x & Ex & Hx & HF).
    cbn [insertion_point_from].
    rewrite (bind_ok _ _ _ _ _ (active_timeouts_get_ok _ _ _ Ex)).
    rewrite (bind_ok _ _ _ _ _ (load_ok _ _ _ Hx)).
    cbn [list_find].
    destruct (fin <? fin_time e) eqn:T1.
    { rewrite decide_True by (left; cbn; lia). unfold ret. do 3 f_equal. lia. }
    destruct ((fin =? fin_time e) && Nat.ltb id (index e)) eqn:T2.
    { apply andb_true_iff in T2 as [T2 T3].
      apply Z.eqb_eq in T2. apply Nat.ltb_lt in T3.
      rewrite decide_True by (right; cbn; lia). unfold ret. do 3 f_equal. lia. }
    rewrite decide_False by (by apply insertion_point_test).
    replace (Z.of_nat i + 1) with (Z.of_nat (S i)) by lia.
    rewrite (IH _ _ es HF) by (cbn in Hlen; lia).
    destruct (list_find _ es) as [[j y]|]; cbn; do 3 f_equal; lia.
Qed.



(** ** The order on keys and sorted insertion *)

#[global] Instance key_lt_trans : Transitive key_lt.
Proof. intros [a1 a2] [b1 b2] [c1 c2]; unfold key_lt; cbn. lia. Qed.

#[global] Instance entry_lt_trans : Transitive entry_lt.
Proof. intros a b c. unfold entry_lt. apply key_lt_trans. Qed.

Lemma entry_lt_total a b :
  index a <> index b -> ~ entry_lt a b -> entry_lt b a.
Proof.
  unfold entry_lt, key_lt, key; cbn. lia.
Qed.

Lemma insert_sorted_find e es :
  insert_sorted e es =
    let j := match list_find (fun x => key_lt (key e) (key x)) es with
             | Some (j, _) => j
             | None => length es
             end in
    take j es ++ e :: drop j es.
Proof.
  induction es as [|x es IH]; [done|].
  cbn [insert_sorted list_find]. unfold entry_lt at 1.
  destruct (decide (key_lt (key e) (key x))); [done|].
  rewrite IH. cbn zeta.
  destruct (list_find _ es) as [[j y]|]; done.
Qed.

Lemma insert_sorted_perm e es : insert_sorted e es ≡ₚ e :: es.
Proof.
  induction es as [|x es IH]; [done|]. cbn.
  destruct (decide _); [done|]. rewrite IH. apply Permutation_swap.
Qed.

Lemma insert_sorted_sorted e es :
  StronglySorted entry_lt es ->
  index e ∉ index <$> es ->
  StronglySorted entry_lt (insert_sorted e es).
Proof.
  induction 1 as [|x es Hs IH Hx]; intros Hni; cbn.
  - repeat constructor.
  - rewrite fmap_cons, not_elem_of_cons in Hni. destruct Hni as [Hne Hni].
    destruct (decide (entry_lt e x)) as [Hl|Hl].
    + constructor; [by constructor|].
      constructor; [done|].
      eapply Forall_impl; [exact Hx|]. intros y Hy. by etrans.
    + constructor; [by apply IH|].
      rewrite insert_sorted_perm. constructor; [|done].
      apply entry_lt_total; [congruence|done].
Qed.

Lemma filter_Forall_id {A} (P : A -> Prop) `{!forall x, Decision (P x)} l :
  Forall P l -> filter P l = l.
Proof.
  induction 1 as [|x l Hx Hl IH]; [done|].
  rewrite filter_cons_True by done. by f_equal.
Qed.

Lemma Forall_filter_weaken {A} (P Q : A -> Prop) `{!forall x, Decision (P x)} l :
  Forall Q l -> Forall Q (filter P l).
Proof.
  rewrite !Forall_forall. intros HQ x [_ Hx]%list_elem_of_filter. auto.
Qed.

Lemma StronglySorted_filter {A} (R : relation A) (P : A -> Prop)
    `{!forall x, Decision (P x)} l :
  StronglySorted R l -> StronglySorted R (filter P l).
Proof.
  induction 1 as [|x l Hs IH Hx]; [constructor|].
  rewrite filter_cons. destruct (decide (P x)); [|done].
  constructor; [done|]. by apply Forall_filter_weaken.
Qed.

Lemma NoDup_index_without id es :
  NoDup (index <$> es) -> NoDup (index <$> without id es).
Proof.
  unfold without. induction es as [|x es IH]; [done|].
  rewrite fmap_cons, NoDup_cons. intros [Hx Hnd].
  rewrite filter_cons. destruct (decide (index x <> id)); [|auto].
  rewrite fmap_cons. apply NoDup_cons. split; [|auto].
  intros (y & Ey & Hy)%list_elem_of_fmap. apply Hx.
  apply list_elem_of_filter in Hy as [_ Hy].
  rewrite Ey. by apply list_elem_of_fmap_2.
Qed.

Lemma without_delete id es j e :
  NoDup (index <$> es) ->
  list_find (fun e => index e = id) es = Some (j, e) ->
  delete j es = without id es.
Proof.
  revert j. induction es as [|x es IH]; intros j Hnd Hf; [done|].
  rewrite fmap_cons in Hnd. apply NoDup_cons in Hnd as [Hx Hnd].
  unfold without. cbn [list_find] in Hf.
  destruct (decide (index x = id)) as [E|E].
  - injection Hf as <- <-. rewrite filter_cons_False by (intros ?; done).
    cbn [delete list_delete].
    symmetry. apply filter_Forall_id.
    apply Forall_forall. intros y Hy Ey. apply Hx.
    rewrite E, <- Ey. by apply list_elem_of_fmap_2.
  - destruct (list_find _ es) as [[j' y]|] eqn:Ef; [|done].
    injection Hf as <- <-. rewrite filter_cons_True by done.
    cbn [delete list_delete]. f_equal. by eapply IH.
Qed.

Lemma without_id id es :
  list_find (fun e => index e = id) es = None -> without id es = es.
Proof.
  intros Hf. apply filter_Forall_id.
  rewrite list_find_None in Hf. done.
Qed.

Lemma not_elem_of_without id es : id ∉ index <$> without id es.
Proof.
  intros Hin. apply list_elem_of_fmap in Hin as (e & -> & He).
  apply list_elem_of_filter in He as [He _]. done.
Qed.

(** ** What the invariants say about slots *)

Section Facts.
Context `{Platform}.

Lemma queue_entries_of m es :
  queue_entries m = Some es <-> entries_of m (queue m) es.
Proof. apply mapM_Some. Qed.

Lemma entries_slot m ptr e :
  wf_statics m -> entry_at m ptr = Some e ->
  ptr = Some (index e) /\ (index e < MAX_TIMEOUTS)%nat /\
  all_timeouts m !! index e = Some e.
Proof.
  intros Hwf He. destruct ptr as [slot|]; [|done]. cbn in He.
  rewrite (wf_index _ Hwf _ _ He). split; [done|]. split; [|done].
  rewrite <- (wf_all_length _ Hwf). by eapply lookup_lt_Some.
Qed.

Lemma entries_of_slots m ptrs es :
  wf_statics m -> entries_of m ptrs es ->
  ptrs = (fun e => Some (index e)) <$> es /\
  Forall (fun e => (index e < MAX_TIMEOUTS)%nat /\ all_timeouts m !! index e = Some e) es.
Proof.
  intros Hwf. induction 1 as [|ptr e ptrs es He _ [IH1 IH2]]; [done|].
  destruct (entries_slot _ _ _ Hwf He) as (-> & ? & ?).
  split; [by rewrite fmap_cons, IH1|]. by constructor.
Qed.

Lemma queue_length m es :
  wf_statics m -> queue_invariants_for m es ->
  num_active_timeouts m = Z.of_nat (length es).
Proof.
  intros Hwf Hq. destruct Hq as [He _ _ _ Hb].
  apply queue_entries_of, Forall2_length in He. unfold queue in He.
  rewrite length_take, (wf_active_length _ Hwf) in He. lia.
Qed.

(** The sorting invariant position by position: of two entries of the
    queue the earlier one has the smaller [(fin_time, index)]. *)
Lemma queue_sorted_pointwise m es (i j : nat) ei ej :
  queue_invariants_for m es -> (i < j)%nat ->
  es !! i = Some ei -> es !! j = Some ej ->
  fin_time ei < fin_time ej \/
  (fin_time ei = fin_time ej /\ (index ei < index ej)%nat).
Proof.
  intros Hq. pose proof (qi_sorted _ _ Hq) as Hs. clear Hq.
  revert i j. induction Hs as [|x es Hs IH Hx]; intros i j Hij Hi Hj; [done|].
  destruct j as [|j]; [lia|]. cbn in Hj.
  destruct i as [|i]; cbn in Hi.
  - injection Hi as <-. rewrite Forall_forall in Hx.
    apply (Hx ej). by eapply list_elem_of_lookup_2.
  - apply (IH i j); [lia|done|done].
Qed.

(** Distinct numbers below [n] are at most [n]. *)
Lemma pigeonhole (l : list nat) (n : nat) :
  NoDup l -> Forall (fun x => (x < n)%nat) l -> (length l <= n)%nat.
Proof.
  intros Hnd Hl. pose proof (submseteq_length l (seq 0 n)) as Hs.
  rewrite length_seq in Hs. apply Hs, NoDup_submseteq; [done|].
  intros x Hx. rewrite Forall_forall in Hl. apply elem_of_seq. specialize (Hl x Hx). lia.
Qed.

(** A queue that does not hold [id] has room for it. *)
Lemma queue_room m es id :
  wf_statics m -> queue_entries m = Some es -> NoDup (index <$> es) ->
  (id < MAX_TIMEOUTS)%nat -> id ∉ index <$> es ->
  (length es < MAX_TIMEOUTS)%nat.
Proof.
  intros Hwf He Hnd Hid Hni.
  apply queue_entries_of, (entries_of_slots _ _ _ Hwf) in He as [_ Hsl].
  assert (length (id :: (index <$> es)) <= MAX_TIMEOUTS)%nat as Hl.
  { apply pigeonhole; [by constructor|]. constructor; [done|].
    apply Forall_fmap. eapply Forall_impl; [exact Hsl|]. by intros e [? _]. }
  cbn in Hl. rewrite length_fmap in Hl. lia.
Qed.

End Facts.

Lemma with_mem_id p : with_mem (mem p) p = p.
Proof. by destruct p. Qed.

Lemma entries_of_ext m1 m2 ptrs es :
  all_timeouts m1 = all_timeouts m2 ->
  entries_of m1 ptrs es -> entries_of m2 ptrs es.
Proof.
  intros E HF. eapply Forall2_impl; [exact HF|].
  intros [slot|] e; cbn; [|done]. by rewrite E.
Qed.

(** ** Cancelling and enabling one timeout *)

Section Cancel.
Context `{Platform}.

(** [find_active_timeout] followed by [remove_timeout_index], as the three
    callers write it: the entries of [id] leave the queue. *)
Lemma cancel_ok id p es :
  wf_statics (mem p) -> queue_invariants_for (mem p) es ->
  exists m1,
    (forall B (k : unit -> M B),
       bind (find_active_timeout id)
         (fun i => bind (if 0 <=? i then remove_timeout_index i else ret tt) k) p
       = k tt (with_mem m1 p)) /\
    all_timeouts m1 = all_timeouts (mem p) /\
    wf_statics m1 /\
    queue_invariants_for m1 (without id es) /\
    (id ∉ index <$> es -> m1 = mem p).
Proof.
  intros Hwf Hq. set (m := mem p) in *.
  pose proof (queue_length _ _ Hwf Hq) as Hn.
  destruct Hq as [He Hs Hnd Hh Hb].
  apply queue_entries_of in He.
  assert (Hfind : find_active_timeout id p =
    (Ok (match list_find (fun e => index e = id) es with
         | Some (j, _) => Z.of_nat j | None => -1 end), p)).
  { unfold find_active_timeout. unfold bind, gets. fold m.
    rewrite (find_active_timeout_from_ok id _ 0 p es).
    - done.
    - fold m. rewrite drop_0. exact He.
    - lia. }
  destruct (list_find (fun e => index e = id) es) as [[j e]|] eqn:Ef.
  - pose proof Ef as Ef'. apply list_find_Some in Ef' as (Hj & Hid & _).
    pose proof (lookup_lt_Some _ _ _ Hj) as Hjl.
    destruct (remove_timeout_index_ok j p) as (a' & Hrun & Hla & Hq');
      fold m; rewrite ?(wf_active_length _ Hwf); try lia.
    fold m in Hrun, Hla, Hq'.
    eexists. split; [|split; [|split; [|split]]].
    + intros B k. rewrite (bind_ok _ _ _ _ _ Hfind).
      destruct (Z.leb_spec 0 (Z.of_nat j)); [|lia].
      rewrite (bind_ok _ _ _ _ _ Hrun). reflexivity.
    + done.
    + destruct Hwf. by constructor; cbn; try congruence.
    + rewrite <- (without_delete id es j e Hnd Ef).
      constructor; cbn.
      * apply queue_entries_of. unfold queue; cbn.
        replace (Z.to_nat (num_active_timeouts m - 1))
          with (Z.to_nat (num_active_timeouts m) - 1)%nat by lia.
        rewrite Hq'. apply Forall2_delete.
        eapply entries_of_ext; [|exact He]. done.
      * rewrite (without_delete id es j e Hnd Ef). by apply StronglySorted_filter.
      * rewrite (without_delete id es j e Hnd Ef). by apply NoDup_index_without.
      * by apply Forall_delete.
      * lia.
    + intros Hni. exfalso. apply Hni. rewrite <- Hid.
      apply list_elem_of_fmap_2. by eapply list_elem_of_lookup_2.
  - exists m. split; [|split; [|split; [|split]]]; try done.
    + intros B k. rewrite (bind_ok _ _ _ _ _ Hfind). cbn.
      unfold bind, ret. unfold m. by rewrite with_mem_id.
    + rewrite (without_id id es Ef). by constructor; [apply queue_entries_of|..].
Qed.

End Cancel.


Lemma all_timeouts_upd_ok id f e p :
  all_timeouts (mem p) !! id = Some e ->
  all_timeouts_upd id f p =
    (Ok tt, with_mem (with_all_timeouts (<[id := f e]> (all_timeouts (mem p))) (mem p)) p).
Proof.
  intros E. unfold all_timeouts_upd.
  by rewrite (bind_ok _ _ _ _ _ (all_timeouts_get_ok _ _ _ E)).
Qed.

Lemma arm_entry_ok id now fin e0 p B (k : unit -> M B) :
  all_timeouts (mem p) !! id = Some e0 ->
  bind (all_timeouts_upd id (set_indicator false))
    (fun _ => bind (all_timeouts_upd id (set_start_time now))
       (fun _ => bind (all_timeouts_upd id (set_fin_time fin)) k)) p
  = k tt (with_mem (with_all_timeouts (<[id := armed now fin e0]> (all_timeouts (mem p)))
                      (mem p)) p).
Proof.
  intros E. pose proof (lookup_lt_Some _ _ _ E) as Hlt.
  rewrite (bind_ok _ _ _ _ _ (all_timeouts_upd_ok _ _ _ _ E)).
  erewrite bind_ok; [|apply all_timeouts_upd_ok; cbn; by apply list_lookup_insert_eq].
  erewrite bind_ok;
    [|apply all_timeouts_upd_ok; cbn; apply list_lookup_insert_eq; by rewrite length_insert].
  cbn. unfold with_mem, with_all_timeouts; cbn.
  by rewrite !list_insert_insert_eq.
Qed.

Lemma entries_of_insert `{Platform} m m' ptrs es id x :
  wf_statics m -> entries_of m ptrs es -> id ∉ index <$> es ->
  all_timeouts m' = <[id := x]> (all_timeouts m) ->
  entries_of m' ptrs es.
Proof.
  intros Hwf HF Hni E. induction HF as [|ptr e ptrs es He HF IH]; [constructor|].
  rewrite fmap_cons, not_elem_of_cons in Hni. destruct Hni as [Hne Hni].
  constructor; [|by apply IH].
  destruct (entries_slot _ _ _ Hwf He) as (-> & _ & Hl). cbn.
  rewrite E, list_lookup_insert_ne by done. done.
Qed.

Section Enable.
Context `{Platform}.

Lemma Assert_ok (cond : M bool) p :
  cond p = (Ok true, p) -> Assert cond p = (Ok tt, p).
Proof.
  intros E. unfold Assert. destruct USE_ASSERT_CHECKING; [|done].
  by rewrite (bind_ok _ _ _ _ _ E).
Qed.

Lemma Assert_initialized_ok p :
  wf_statics (mem p) -> Assert (gets all_timeouts_initialized) p = (Ok tt, p).
Proof. intros Hwf. apply Assert_ok. unfold gets. by rewrite (wf_initialized _ Hwf). Qed.

Lemma Assert_registered_ok id p :
  registered (mem p) id ->
  Assert (e <- all_timeouts_get id ;; ret (bool_decide (timeout_handler e <> None))) p
  = (Ok tt, p).
Proof.
  intros (e & E & Hh). apply Assert_ok.
  rewrite (bind_ok _ _ _ _ _ (all_timeouts_get_ok _ _ _ E)).
  unfold ret. by rewrite bool_decide_eq_true_2.
Qed.

(** [enable_timeout] on a registered [id]: the entry is armed and sits at
    its sorted position, once. *)
Lemma enable_timeout_ok id now fin p es e0 :
  wf_statics (mem p) -> queue_invariants_for (mem p) es ->
  all_timeouts (mem p) !! id = Some e0 -> timeout_handler e0 <> None ->
  exists m',
    enable_timeout id now fin p =
      (Ok tt, with_mem m' (with_trace (trace p ++ [EvCall_enable_timeout id now fin]) p)) /\
    all_timeouts m' = <[id := armed now fin e0]> (all_timeouts (mem p)) /\
    wf_statics m' /\
    queue_invariants_for m' (insert_sorted (armed now fin e0) (without id es)).
Proof.
  intros Hwf Hq E0 Hh0.
  unfold enable_timeout. unfold bind at 1, emit.
  set (p0 := with_trace (trace p ++ [EvCall_enable_timeout id now fin]) p).
  change (mem p) with (mem p0) in *. clearbody p0. clear p. rename p0 into p.
  pose proof (lookup_lt_Some _ _ _ E0) as Hid. rewrite (wf_all_length _ Hwf) in Hid.
  pose proof (wf_index _ Hwf _ _ E0) as Hidx. subst id.
  set (id := index e0) in *.
  destruct (cancel_ok id p es Hwf Hq) as (m1 & Hrun1 & Hall1 & Hwf1 & Hq1 & _).
  set (es1 := without id es) in *.
  pose proof (queue_length _ _ Hwf1 Hq1) as Hn1.
  pose proof (not_elem_of_without id es) as Hni. fold es1 in Hni.
  assert (length es1 < MAX_TIMEOUTS)%nat as Hroom
    by (eapply queue_room; eauto using qi_entries, qi_nodup).
  set (e1 := armed now fin e0).
  assert (index e1 = id) as Hidx1 by done.
  set (j := match list_find (fun x => key_lt (key e1) (key x)) es1 with
            | Some (j, _) => j | None => length es1 end).
  assert (j <= length es1)%nat as Hj.
  { unfold j. destruct (list_find _ es1) as [[j' y]|] eqn:Ef; [|lia].
    apply list_find_Some in Ef as (Hl & _). apply lookup_lt_Some in Hl. lia. }
  pose proof (qi_entries _ _ Hq1) as He1. apply queue_entries_of in He1.
  set (p2 := with_mem (with_all_timeouts (<[id := e1]> (all_timeouts m1)) m1) p).
  destruct (insert_timeout_ok id j p2) as (a' & Hrun3 & Hla & Hq3);
    cbn; rewrite ?(wf_active_length _ Hwf1); try lia.
  cbn [p2 queue mem with_mem with_all_timeouts all_timeouts all_timeouts_initialized
       num_active_timeouts active_timeouts] in Hrun3, Hla, Hq3.
  eexists. split; [|split; [|split]].
  - rewrite (bind_ok _ _ _ _ _ (Assert_initialized_ok _ Hwf)).
    rewrite (bind_ok _ _ _ _ _ (Assert_registered_ok id p ltac:(by exists e0))).
    rewrite Hrun1. unfold bind at 1. cbn [gets mem with_mem].
    erewrite bind_ok;
      [|apply (insertion_point_from_ok id fin _ 0 _ es1);
        [cbn [mem with_mem]; rewrite drop_0; exact He1|lia]].
    rewrite (arm_entry_ok id now fin e0) by (cbn; by rewrite Hall1).
    change (key_lt (fin, id)) with (key_lt (key e1)).
    replace (match list_find (fun e => key_lt (key e1) (key e)) es1 with
             | Some (j0, _) => Z.of_nat (0 + j0)
             | None => Z.of_nat (0 + Z.to_nat (num_active_timeouts m1)) end)
      with (Z.of_nat j).
    2:{ unfold j. destruct (list_find _ es1) as [[j' y]|]; [done|]. f_equal. lia. }
    cbn [mem with_mem]. fold e1. exact Hrun3.
  - cbn. by rewrite Hall1.
  - destruct Hwf1 as [W1 W2 W3 W4]. constructor; cbn.
    + by rewrite length_insert.
    + congruence.
    + done.
    + intros k e Hk. destruct (decide (k = id)) as [->|Hne].
      * rewrite list_lookup_insert_eq in Hk by (rewrite W1; lia). by simplify_eq.
      * rewrite list_lookup_insert_ne in Hk by done. eauto.
  - destruct Hq1 as [_ Hs1 Hnd1 Hh1 Hb1]. constructor; cbn.
    + apply queue_entries_of. unfold queue. cbn.
      replace (Z.to_nat (num_active_timeouts m1 + 1))
        with (S (Z.to_nat (num_active_timeouts m1))) by lia.
      rewrite Hq3, insert_sorted_find. cbn zeta. fold j.
      assert (entries_of (mk_statics (<[id:=e1]> (all_timeouts m1))
                (all_timeouts_initialized m1) (num_active_timeouts m1 + 1) a')
                (queue m1) es1) as He'.
      { eapply entries_of_insert; [exact Hwf1|exact He1|exact Hni|done]. }
      apply Forall2_app; [by apply Forall2_take|].
      constructor; [|by apply Forall2_drop].
      cbn. apply list_lookup_insert_eq. destruct Hwf1. lia.
    + apply insert_sorted_sorted; [done|]. by rewrite Hidx1.
    + rewrite insert_sorted_perm, fmap_cons. constructor; [by rewrite Hidx1|done].
    + rewrite insert_sorted_perm. by constructor.
    + lia.
Qed.

End Enable.

(** ** Programming the timer *)

Section Alarm.
Context `{Platform}.



Lemma disable_alarm_run multi_insert p :
  disable_alarm multi_insert p =
    if multi_insert || (0 <? num_active_timeouts (mem p)) then
      (setitimer_outcome "could not disable SIGALRM timer: %m" itimerval_zero,
       with_trace (trace p ++ [EvCall_disable_alarm multi_insert;
                               EvSetitimer itimerval_zero]) p)
    else (Ok tt, with_trace (trace p ++ [EvCall_disable_alarm multi_insert]) p).
Proof.
  unfold disable_alarm, setitimer_outcome, call_setitimer, bind, emit, gets, ret, raise.
  cbn [mem with_trace trace].
  destruct (multi_insert || (0 <? num_active_timeouts (mem p))); [|done].
  unfold with_trace; cbn. rewrite <- app_assoc.
  destruct (setitimer itimerval_zero =? 0); done.
Qed.

Lemma schedule_alarm_idle now p :
  num_active_timeouts (mem p) <= 0 ->
  schedule_alarm now p =
    (Ok tt, with_trace (trace p ++ [EvCall_schedule_alarm now]) p).
Proof.
  intros Hn. unfold schedule_alarm, bind, emit, gets, ret. cbn [mem with_trace].
  destruct (Z.ltb_spec 0 (num_active_timeouts (mem p))); [lia|done].
Qed.

Lemma schedule_alarm_armed now p ptr e :
  0 < num_active_timeouts (mem p) ->
  active_timeouts (mem p) !! 0%nat = Some ptr ->
  entry_at (mem p) ptr = Some e ->
  schedule_alarm now p =
    (setitimer_outcome "could not enable SIGALRM timer: %m" (alarm_value now (fin_time e)),
     with_trace (trace p ++ [EvCall_schedule_alarm now;
                             EvSetitimer (alarm_value now (fin_time e))]) p).
Proof.
  intros Hn Hptr He. unfold schedule_alarm.
  unfold bind at 1. unfold emit. unfold bind at 1. unfold gets. cbn [mem with_trace].
  destruct (Z.ltb_spec 0 (num_active_timeouts (mem p))); [|lia].
  erewrite bind_ok; [|by apply (active_timeouts_get_ok 0)].
  erewrite bind_ok; [|by apply load_ok].
  unfold alarm_value, setitimer_outcome.
  destruct (TimestampDifference now (fin_time e)) as [secs usecs].
  unfold call_setitimer, bind, emit, ret, raise, with_trace. cbn.
  rewrite <- app_assoc. cbn [app].
  destruct (setitimer _ =? 0); done.
Qed.

(** The head of a non-empty queue. *)
Lemma queue_head m e es :
  wf_statics m -> queue_invariants_for m (e :: es) ->
  0 < num_active_timeouts m /\
  exists ptr, active_timeouts m !! 0%nat = Some ptr /\ entry_at m ptr = Some e.
Proof.
  intros Hwf Hq. pose proof (queue_length _ _ Hwf Hq) as Hn. cbn in Hn.
  split; [lia|].
  apply qi_entries, queue_entries_of in Hq. unfold queue in Hq.
  destruct (active_timeouts m) as [|ptr a]; [by rewrite take_nil in Hq; inversion Hq|].
  destruct (Z.to_nat (num_active_timeouts m)) eqn:En; [lia|].
  cbn in Hq. apply Forall2_cons in Hq as [He _]. by exists ptr.
Qed.



Lemma schedule_alarm_run now p es :
  wf_statics (mem p) -> queue_invariants_for (mem p) es ->
  schedule_alarm now p =
    (schedule_result now es, with_trace (trace p ++ schedule_events now es) p).
Proof.
  intros Hwf Hq. destruct es as [|e es].
  - apply schedule_alarm_idle. rewrite (queue_length _ _ Hwf Hq). cbn. lia.
  - destruct (queue_head _ _ _ Hwf Hq) as (Hn & ptr & Hptr & He).
    by apply (schedule_alarm_armed now p ptr e).
Qed.

(** C6.  [schedule_alarm(now)] on a state that satisfies the invariants.
    With an empty queue it only returns: [setitimer] is not called.  With a
    head entry due at [fin_time e] it calls [setitimer] once, with a
    single-shot value ([it_interval] zero) whose [it_value] is what
    [TimestampDifference(now, fin_time e)] returns, except that a difference
    of [(0, 0)] becomes one microsecond; so the value passed is never the
    zero that disarms the timer, whatever the order of [now] and
    [fin_time e]. *)
Theorem schedule_alarm_spec (now : TimestampTz) (p : process)
    (es : list timeout_params) :
  wf_statics (mem p) -> queue_invariants_for (mem p) es ->
  match es with
  | [] =>
      num_active_timeouts (mem p) = 0 /\
      schedule_alarm now p =
        (Ok tt, with_trace (trace p ++ [EvCall_schedule_alarm now]) p)
  | e :: _ =>
      0 < num_active_timeouts (mem p) /\
      exists v,
        schedule_alarm now p =
          (if setitimer v =? 0 then Ok tt
           else Raise (FATAL "could not enable SIGALRM timer: %m" []),
           with_trace (trace p ++ [EvCall_schedule_alarm now; EvSetitimer v]) p) /\
        it_interval v = mk_timeval 0 0 /\
        it_value v =
          (let '(secs, usecs) := TimestampDifference now (fin_time e) in
           if (secs =? 0) && (usecs =? 0) then mk_timeval 0 1
           else mk_timeval secs usecs) /\
        it_value v <> mk_timeval 0 0
  end.
Proof.
  intros Hwf Hq. pose proof (queue_length _ _ Hwf Hq) as Hn.
  destruct es as [|e es].
  - split; [done|]. apply schedule_alarm_idle. rewrite Hn. cbn. lia.
  - split; [cbn in Hn; lia|].
    exists (alarm_value now (fin_time e)).
    rewrite (schedule_alarm_run now p (e :: es)) by done.
    split; [done|]. unfold alarm_value.
    destruct (TimestampDifference now (fin_time e)) as [secs usecs]. cbn.
    split; [done|].
    destruct (Z.eqb_spec secs 0) as [->|Hs]; cbn.
    + destruct (Z.eqb_spec usecs 0) as [->|Hu]; [done|]. split; [done|]. congruence.
    + split; [done|]. congruence.
Qed.

End Alarm.


(** ** Properties of the statics that every step keeps *)

Lemma stable_bind I {A B} (c : M A) (k : A -> M B) :
  stable I c -> (forall a, stable I (k a)) -> stable I (bind c k).
Proof.
  intros Hc Hk p HI. unfold bind. specialize (Hc p HI).
  destruct (c p) as [[a|e] p']; cbn in *; [by apply Hk|done].
Qed.

Lemma stable_ret I {A} (a : A) : stable I (ret a).
Proof. by intros p. Qed.

Lemma stable_raise I {A} e : stable I (@raise A e).
Proof. by intros p. Qed.

Lemma stable_gets I {A} (f : statics -> A) : stable I (gets f).
Proof. by intros p. Qed.

Lemma stable_emit I e : stable I (emit e).
Proof. by intros p. Qed.

Lemma stable_all_timeouts_get I id : stable I (all_timeouts_get id).
Proof. intros p HI. unfold all_timeouts_get. by destruct (_ !! _). Qed.

Lemma stable_active_timeouts_get I i : stable I (active_timeouts_get i).
Proof.
  intros p HI. unfold active_timeouts_get.
  destruct (i <? 0); [done|]. by destruct (_ !! _).
Qed.

Lemma stable_load I ptr : stable I (load ptr).
Proof. destruct ptr; [apply stable_all_timeouts_get|apply stable_raise]. Qed.

Lemma stable_arg_get I {A} (l : list A) i : stable I (arg_get l i).
Proof.
  unfold arg_get. destruct (i <? 0); [apply stable_raise|].
  destruct (_ !! _); [apply stable_ret|apply stable_raise].
Qed.

Create HintDb stable.
#[export] Hint Resolve stable_ret stable_raise stable_gets stable_emit
  stable_all_timeouts_get stable_active_timeouts_get stable_load
  stable_arg_get : stable.

Ltac stable_step :=
  first [ apply stable_bind; [|intros ?]
        | progress auto with stable
        | match goal with
          | |- stable _ (if ?b then _ else _) => destruct b
          | |- stable _ (match ?x with _ => _ end) => destruct x
          end ].

Section Stable.
Context `{Platform}.

Lemma stable_GetCurrentTimestamp I : stable I GetCurrentTimestamp.
Proof. by intros p. Qed.

Lemma stable_call_setitimer I v : stable I (call_setitimer v).
Proof. unfold call_setitimer. repeat stable_step. Qed.

Lemma stable_Assert I cond : stable I cond -> stable I (Assert cond).
Proof. intros Hc. unfold Assert. repeat stable_step. Qed.

Lemma stable_disable_alarm I multi_insert : stable I (disable_alarm multi_insert).
Proof.
  pose proof stable_call_setitimer. unfold disable_alarm. repeat stable_step.
Qed.

Lemma stable_schedule_alarm I now : stable I (schedule_alarm now).
Proof.
  pose proof stable_call_setitimer. unfold schedule_alarm. repeat stable_step.
Qed.


Lemma registered_insert m m' id e0 e1 x :
  all_timeouts m !! id = Some e0 ->
  timeout_handler e1 = timeout_handler e0 ->
  all_timeouts m' = <[id := e1]> (all_timeouts m) ->
  registered m x -> registered m' x.
Proof.
  intros E0 Hh E (e & Ex & Hx). unfold registered. rewrite E.
  destruct (decide (x = id)) as [->|Hne].
  - exists e1. rewrite list_lookup_insert_eq by (by eapply lookup_lt_Some).
    split; [done|]. rewrite Hh. congruence.
  - exists e. by rewrite list_lookup_insert_ne.
Qed.

Lemma enable_timeout_stable ids id now fin :
  id ∈ ids -> stable (good ids) (enable_timeout id now fin).
Proof.
  intros Hin p (Hwf & [es Hq] & Hreg).
  pose proof Hreg as Hreg'. rewrite Forall_forall in Hreg'.
  destruct (Hreg' id Hin) as (e0 & E0 & Hh0).
  destruct (enable_timeout_ok id now fin p es e0 Hwf Hq E0 Hh0)
    as (m' & Hrun & Hall & Hwf' & Hq').
  rewrite Hrun. cbn [snd mem with_mem]. split; [done|]. split; [by eexists|].
  eapply Forall_impl; [exact Hreg|]. intros x.
  by apply (registered_insert _ _ id e0 (armed now fin e0)).
Qed.

(** Clearing the indicator of a slot the queue does not point to. *)
Lemma clear_indicator_ok id p es e0 :
  wf_statics (mem p) -> queue_invariants_for (mem p) es ->
  all_timeouts (mem p) !! id = Some e0 -> id ∉ index <$> es ->
  let m' := with_all_timeouts (<[id := set_indicator false e0]> (all_timeouts (mem p))) (mem p) in
  all_timeouts_upd id (set_indicator false) p = (Ok tt, with_mem m' p) /\
  wf_statics m' /\ queue_invariants_for m' es.
Proof.
  intros Hwf Hq E0 Hni m'. split; [by apply all_timeouts_upd_ok|].
  pose proof (lookup_lt_Some _ _ _ E0) as Hlt.
  split.
  - destruct Hwf as [W1 W2 W3 W4]. constructor; cbn; try done.
    + by rewrite length_insert.
    + intros k e Hk. destruct (decide (k = id)) as [->|Hne].
      * rewrite list_lookup_insert_eq in Hk by done. simplify_eq. cbn. eauto.
      * rewrite list_lookup_insert_ne in Hk by done. eauto.
  - destruct Hq as [He Hs Hnd Hh Hb]. constructor; try done.
    apply queue_entries_of. apply queue_entries_of in He.
    by eapply (entries_of_insert (mem p) m').
Qed.

(** The common part of [disable_timeout] and [disable_timeouts]: find the
    timeout, take it out of the queue, and clear its indicator unless it is
    to be kept. *)
Lemma cancel_clear_ok id keep p es e0 :
  wf_statics (mem p) -> queue_invariants_for (mem p) es ->
  all_timeouts (mem p) !! id = Some e0 ->
  exists m',
    (forall B (k : unit -> M B),
       bind (find_active_timeout id)
         (fun i => bind (if 0 <=? i then remove_timeout_index i else ret tt)
            (fun _ => bind (if negb keep then all_timeouts_upd id (set_indicator false)
                            else ret tt) k)) p
       = k tt (with_mem m' p)) /\
    all_timeouts m' =
      (if keep then all_timeouts (mem p)
       else <[id := set_indicator false e0]> (all_timeouts (mem p))) /\
    wf_statics m' /\
    queue_invariants_for m' (without id es) /\
    (id ∉ index <$> es ->
       num_active_timeouts m' = num_active_timeouts (mem p) /\
       active_timeouts m' = active_timeouts (mem p)).
Proof.
  intros Hwf Hq E0.
  destruct (cancel_ok id p es Hwf Hq) as (m1 & Hrun & Hall & Hwf1 & Hq1 & Hsame).
  destruct keep; cbn [negb].
  - exists m1. split; [|split; [|split; [|split]]]; try done.
    + intros B k. rewrite Hrun. unfold bind, ret. done.
    + intros Hni. by rewrite (Hsame Hni).
  - destruct (clear_indicator_ok id (with_mem m1 p) (without id es) e0)
      as (Hrun2 & Hwf2 & Hq2); cbn [mem with_mem]; try done.
    { by rewrite Hall. }
    { apply not_elem_of_without. }
    cbn [mem with_mem] in *.
    eexists. split; [|split; [|split; [|split]]]; [| |exact Hwf2|exact Hq2|].
    + intros B k. rewrite Hrun. rewrite (bind_ok _ _ _ _ _ Hrun2). reflexivity.
    + cbn. by rewrite Hall.
    + intros Hni. cbn. by rewrite (Hsame Hni).
Qed.

End Stable.

Lemma bind_ret_tail {A B C} (c1 : M A) (c2 : A -> M B) (c3 : A -> M C) p :
  bind c1 (fun a => bind (c2 a) (fun _ => bind (c3 a) ret)) p =
  bind c1 (fun a => bind (c2 a) (fun _ => c3 a)) p.
Proof.
  unfold bind. destruct (c1 p) as [[a|?] p1]; [|done].
  destruct (c2 a p1) as [[b|?] p2]; [|done].
  by destruct (c3 a p2) as [[c|?] p3].
Qed.

(** ** The mutators keep the invariants *)

Section Mutators.
Context `{Platform}.

Lemma wf_statics_upd m i e f :
  wf_statics m -> all_timeouts m !! i = Some e -> index (f e) = index e ->
  wf_statics (with_all_timeouts (<[i := f e]> (all_timeouts m)) m).
Proof.
  intros [W1 W2 W3 W4] E Hf. pose proof (lookup_lt_Some _ _ _ E).
  constructor; cbn; try done.
  - by rewrite length_insert.
  - intros k x Hk. destruct (decide (k = i)) as [->|Hne].
    + rewrite list_lookup_insert_eq in Hk by done. simplify_eq. rewrite Hf. eauto.
    + rewrite list_lookup_insert_ne in Hk by done. eauto.
Qed.

Lemma stable_arg_get_bind I {A B} (ts : list A) i (k : A -> M B) :
  (forall t, t ∈ ts -> stable I (k t)) -> stable I (bind (arg_get ts i) k).
Proof.
  intros Hk p HI. unfold bind, arg_get.
  destruct (i <? 0); [done|].
  destruct (ts !! Z.to_nat i) as [t|] eqn:E; [|done].
  apply Hk; [|done]. by eapply list_elem_of_lookup_2.
Qed.

Lemma stable_Assert_registered I id :
  stable I (Assert (e <- all_timeouts_get id ;;
                    ret (bool_decide (timeout_handler e <> None)))).
Proof. apply stable_Assert. repeat stable_step. Qed.

Lemma stable_Assert_initialized I :
  stable I (Assert (gets all_timeouts_initialized)).
Proof. apply stable_Assert. repeat stable_step. Qed.

Lemma cancel_clear_stable ids id keep {B} (k : unit -> M B) :
  id ∈ ids -> stable (good ids) (k tt) ->
  stable (good ids)
    (bind (find_active_timeout id)
       (fun i => bind (if 0 <=? i then remove_timeout_index i else ret tt)
          (fun _ => bind (if negb keep then all_timeouts_upd id (set_indicator false)
                          else ret tt) k))).
Proof.
  intros Hin Hk p (Hwf & [es Hq] & Hreg).
  pose proof Hreg as Hreg'. rewrite Forall_forall in Hreg'.
  destruct (Hreg' id Hin) as (e0 & E0 & Hh0).
  destruct (cancel_clear_ok id keep p es e0 Hwf Hq E0)
    as (m' & Hrun & Hall & Hwf' & Hq' & _).
  rewrite Hrun. apply Hk. cbn. split; [done|]. split; [by eexists|].
  destruct keep.
  - eapply Forall_impl; [exact Hreg|]. intros x (e & Ex & Hx). exists e.
    by rewrite Hall.
  - eapply Forall_impl; [exact Hreg|]. intros x.
    by apply (registered_insert _ _ id e0 (set_indicator false e0)).
Qed.

Lemma enable_timeouts_body_stable ids now t :
  tp_id t ∈ ids -> stable (good ids) (enable_timeouts_body now t).
Proof.
  intros Hin. unfold enable_timeouts_body.
  destruct (tp_type t =? TMPARAM_AFTER); [|destruct (tp_type t =? TMPARAM_AT)];
    auto using enable_timeout_stable with stable.
Qed.

Lemma enable_timeouts_from_stable ids ts now k : forall i,
  Forall (fun t => tp_id t ∈ ids) ts ->
  stable (good ids) (enable_timeouts_from ts now k i).
Proof.
  induction k as [|k IH]; intros i Hts; cbn [enable_timeouts_from].
  - apply stable_ret.
  - apply stable_arg_get_bind. intros t Ht.
    rewrite Forall_forall in Hts.
    apply stable_bind; [by apply enable_timeouts_body_stable, Hts|].
    intros _. apply IH. by apply Forall_forall.
Qed.

Lemma disable_timeouts_from_stable ids ts k : forall i,
  Forall (fun t => dp_id t ∈ ids) ts ->
  stable (good ids) (disable_timeouts_from ts k i).
Proof.
  induction k as [|k IH]; intros i Hts; cbn [disable_timeouts_from].
  - apply stable_ret.
  - apply stable_arg_get_bind. intros t Ht.
    rewrite Forall_forall in Hts.
    apply stable_bind; [|intros _; apply IH; by apply Forall_forall].
    unfold disable_timeouts_body.
    apply stable_bind; [apply stable_Assert_registered|intros _].
    pose proof (cancel_clear_stable ids (dp_id t) (dp_keep_indicator t) ret
                  (Hts t Ht) (stable_ret _ tt)) as Hc.
    intros p HI. specialize (Hc p HI).
    by rewrite bind_ret_tail in Hc.
Qed.

Lemma clear_indicators_from_stable k : forall i,
  stable (fun m => wf_statics m /\ num_active_timeouts m = 0)
    (clear_indicators_from k i).
Proof.
  induction k as [|k IH]; intros i; cbn [clear_indicators_from].
  - apply stable_ret.
  - apply stable_bind; [|intros _; apply IH].
    intros p [Hwf Hn]. unfold all_timeouts_upd, bind, all_timeouts_get.
    destruct (all_timeouts (mem p) !! i) as [e|] eqn:E; [|done].
    cbn. split; [|done]. by apply wf_statics_upd.
Qed.

Lemma empty_queue_invariants m :
  wf_statics m -> num_active_timeouts m = 0 -> queue_invariants m.
Proof.
  intros Hwf Hn. exists []. constructor.
  - unfold queue_entries, queue. by rewrite Hn.
  - constructor.
  - constructor.
  - constructor.
  - lia.
Qed.

Lemma disable_all_timeouts_stable keep :
  stable (good []) (disable_all_timeouts keep).
Proof.
  intros p (Hwf & Hq & _). unfold disable_all_timeouts.
  assert (forall m, wf_statics m /\ num_active_timeouts m = 0 -> good [] m) as Hgood.
  { intros m [? ?]. split; [done|]. split; [by apply empty_queue_invariants|constructor]. }
  unfold bind at 1. unfold call_setitimer, bind at 1, emit, ret. 
  destruct (negb _); [by cbn|].
  unfold bind at 1. cbn [ret]. unfold bind at 1. unfold modify.
  set (p1 := with_mem _ _).
  assert (wf_statics (mem p1) /\ num_active_timeouts (mem p1) = 0) as H1.
  { subst p1; cbn. split; [|done]. by destruct Hwf. }
  destruct (negb keep).
  - by apply Hgood, clear_indicators_from_stable.
  - by apply Hgood.
Qed.

Lemma run_mutator_stable op ids :
  match op with
  | Op_enable_timeout_after id _ | Op_enable_timeout_at id _
  | Op_disable_timeout id _ => id ∈ ids
  | Op_enable_timeouts ts _ => Forall (fun t => tp_id t ∈ ids) ts
  | Op_disable_timeouts ts _ => Forall (fun t => dp_id t ∈ ids) ts
  | Op_disable_all_timeouts _ => ids = []
  end ->
  stable (good ids) (run_mutator op).
Proof.
  pose proof stable_disable_alarm. pose proof stable_schedule_alarm.
  pose proof stable_GetCurrentTimestamp.
  pose proof stable_Assert_registered. pose proof stable_Assert_initialized.
  destruct op as [id d|id fin|ts c|id keep|ts c|keep]; cbn [run_mutator]; intros Hin.
  - unfold enable_timeout_after.
    apply stable_bind; [done|intros _]. apply stable_bind; [done|intros now].
    apply stable_bind; [by apply enable_timeout_stable|done].
  - unfold enable_timeout_at.
    apply stable_bind; [done|intros _]. apply stable_bind; [done|intros now].
    apply stable_bind; [by apply enable_timeout_stable|done].
  - unfold enable_timeouts.
    apply stable_bind; [done|intros _]. apply stable_bind; [done|intros now].
    apply stable_bind; [by apply enable_timeouts_from_stable|done].
  - unfold disable_timeout.
    apply stable_bind; [done|intros _]. apply stable_bind; [done|intros _].
    apply stable_bind; [done|intros _].
    apply cancel_clear_stable; [done|]. repeat stable_step.
  - unfold disable_timeouts.
    apply stable_bind; [done|intros _]. apply stable_bind; [done|intros _].
    apply stable_bind; [by apply disable_timeouts_from_stable|intros _].
    repeat stable_step.
  - subst ids. apply disable_all_timeouts_stable.
Qed.

(** C1.  Every mutator keeps the queue invariants.  Run from statics that
    are well-formed (the module is initialized) and satisfy the queue
    invariants, with every identifier passed registered, each of
    [enable_timeout_after], [enable_timeout_at], [enable_timeouts],
    [disable_timeout], [disable_timeouts] and [disable_all_timeouts] leaves
    statics that are again well-formed and whose active queue is strictly
    increasing in [(fin_time, index)], holds no identifier twice, holds no
    entry with a NULL handler, and has between 0 and [MAX_TIMEOUTS]
    entries.  This holds of the state the operation leaves behind whether
    it returns or raises. *)
Theorem mutators_preserve_queue_invariants (op : mutator) (p : process) :
  wf_statics (mem p) -> queue_invariants (mem p) -> mutator_pre (mem p) op ->
  wf_statics (mem (run_mutator op p).2) /\
  queue_invariants (mem (run_mutator op p).2).
Proof.
  intros Hwf Hq Hpre.
  set (ids := match op with
              | Op_enable_timeout_after id _ | Op_enable_timeout_at id _
              | Op_disable_timeout id _ => [id]
              | Op_enable_timeouts ts _ => tp_id <$> ts
              | Op_disable_timeouts ts _ => dp_id <$> ts
              | Op_disable_all_timeouts _ => []
              end).
  assert (good ids (mem (run_mutator op p).2)) as (? & ? & _); [|done].
  apply run_mutator_stable.
  - destruct op; subst ids; cbn; try done; try (by apply list_elem_of_singleton).
    + apply Forall_forall. intros t Ht. by apply list_elem_of_fmap_2.
    + apply Forall_forall. intros t Ht. by apply list_elem_of_fmap_2.
  - split; [done|]. split; [done|].
    destruct op; subst ids; cbn in *; try by repeat constructor.
    + by apply Forall_fmap.
    + by apply Forall_fmap.
Qed.

End Mutators.


(** ** Single enables and disables *)

Section Runs.
Context `{Platform}.

Lemma setitimer_outcome_ok msg v : timer_ok -> setitimer_outcome msg v = Ok tt.
Proof. intros Ht. unfold setitimer_outcome. by rewrite Ht. Qed.

Lemma schedule_result_ok now es : timer_ok -> schedule_result now es = Ok tt.
Proof. intros Ht. destruct es; [done|]. by apply setitimer_outcome_ok. Qed.

Lemma disable_alarm_ok multi_insert p :
  timer_ok ->
  disable_alarm multi_insert p =
    (Ok tt, with_trace (trace p ++
       disable_events multi_insert (num_active_timeouts (mem p))) p).
Proof.
  intros Ht. rewrite disable_alarm_run. unfold disable_events.
  destruct (_ || _); [|done]. by rewrite setitimer_outcome_ok.
Qed.

Lemma enable_timeout_at_run id fin p es e0 :
  wf_statics (mem p) -> queue_invariants_for (mem p) es ->
  all_timeouts (mem p) !! id = Some e0 -> timeout_handler e0 <> None ->
  timer_ok ->
  let now := clock (clock_reads p) in
  let es' := insert_sorted (armed now fin e0) (without id es) in
  exists m',
    enable_timeout_at id fin p =
      (Ok tt, mk_process m' (errno p) (MyProc p) (S (clock_reads p))
                (trace p ++ disable_events false (num_active_timeouts (mem p)) ++
                 [EvCall_enable_timeout id now fin] ++ schedule_events now es')) /\
    all_timeouts m' = <[id := armed now fin e0]> (all_timeouts (mem p)) /\
    wf_statics m' /\ queue_invariants_for m' es'.
Proof.
  intros Hwf Hq E0 Hh0 Ht now es'. unfold enable_timeout_at.
  rewrite (bind_ok _ _ _ _ _ (disable_alarm_ok false p Ht)).
  unfold bind at 1, GetCurrentTimestamp. cbn [clock_reads with_trace].
  fold now.
  set (p1 := with_clock_reads _ _).
  destruct (enable_timeout_ok id now fin p1 es e0) as (m' & Hrun & Hall & Hwf' & Hq');
    try done.
  fold es' in Hq'.
  rewrite (bind_ok _ _ _ _ _ Hrun).
  rewrite (schedule_alarm_run now _ es') by done.
  rewrite schedule_result_ok by done.
  exists m'. split; [|done].
  f_equal. subst p1. unfold with_mem, with_trace, with_clock_reads. cbn.
  by rewrite <- !app_assoc.
Qed.

Lemma filter_none {A} (P : A -> Prop) `{!forall x, Decision (P x)} l :
  Forall (fun x => ~ P x) l -> filter P l = [].
Proof.
  induction 1 as [|x l Hx Hl IH]; [done|]. by rewrite filter_cons_False.
Qed.

Lemma filter_insert_sorted id e l :
  index e = id -> Forall (fun x => index x <> id) l ->
  filter (fun x => index x = id) (insert_sorted e l) = [e].
Proof.
  intros He Hl. induction Hl as [|x l Hx Hl IH]; cbn [insert_sorted].
  - by rewrite filter_cons_True.
  - destruct (decide (entry_lt e x)).
    + rewrite filter_cons_True by done. f_equal.
      apply filter_none. by constructor.
    + by rewrite filter_cons_False.
Qed.

Lemma filter_insert_sorted_without id e es :
  index e = id ->
  filter (fun x => index x = id) (insert_sorted e (without id es)) = [e].
Proof.
  intros He. apply filter_insert_sorted; [done|].
  apply Forall_forall. by intros x [Hx _]%list_elem_of_filter.
Qed.

(** C2.  Enabling twice reschedules.  For a registered [id], on a host
    whose timer never fails, [enable_timeout_at(id, t1)] followed by
    [enable_timeout_at(id, t2)] both return; afterwards the active queue
    holds exactly one entry of [id], it is the registry entry of [id], its
    [fin_time] is [t2], its [start_time] is the clock reading of the second
    call and its [indicator] is false. *)
Theorem enable_twice_reschedules (id : TimeoutId) (t1 t2 : TimestampTz) (p : process) :
  wf_statics (mem p) -> queue_invariants (mem p) -> registered (mem p) id ->
  timer_ok ->
  exists p1 p2 es2 e,
    enable_timeout_at id t1 p = (Ok tt, p1) /\
    enable_timeout_at id t2 p1 = (Ok tt, p2) /\
    clock_reads p1 = S (clock_reads p) /\
    queue_entries (mem p2) = Some es2 /\
    filter (fun x => index x = id) es2 = [e] /\
    all_timeouts (mem p2) !! id = Some e /\
    fin_time e = t2 /\
    start_time e = clock (clock_reads p1) /\
    indicator e = false.
Proof.
  intros Hwf [es Hq] (e0 & E0 & Hh0) Ht.
  destruct (enable_timeout_at_run id t1 p es e0) as (m1 & Hrun1 & Hall1 & Hwf1 & Hq1);
    try done.
  set (p1 := mk_process m1 _ _ _ _) in Hrun1.
  set (e1 := armed (clock (clock_reads p)) t1 e0) in *.
  assert (all_timeouts (mem p1) !! id = Some e1) as E1.
  { cbn. rewrite Hall1. apply list_lookup_insert_eq. by eapply lookup_lt_Some. }
  destruct (enable_timeout_at_run id t2 p1 _ e1 Hwf1 Hq1 E1) as
    (m2 & Hrun2 & Hall2 & Hwf2 & Hq2); try done.
  set (e2 := armed (clock (clock_reads p1)) t2 e1) in *.
  eexists p1, _, _, e2. split; [exact Hrun1|]. split; [exact Hrun2|].
  split; [done|]. cbn [mem]. split; [exact (qi_entries _ _ Hq2)|].
  split; [apply filter_insert_sorted_without; exact (wf_index _ Hwf _ _ E0)|].
  split; [|done].
  rewrite Hall2. apply list_lookup_insert_eq. by eapply lookup_lt_Some.
Qed.


Lemma disable_timeout_run id keep p es e0 :
  wf_statics (mem p) -> queue_invariants_for (mem p) es ->
  all_timeouts (mem p) !! id = Some e0 -> timeout_handler e0 <> None ->
  timer_ok ->
  exists p',
    disable_timeout id keep p = (Ok tt, p') /\
    all_timeouts (mem p') =
      (if keep then all_timeouts (mem p)
       else <[id := set_indicator false e0]> (all_timeouts (mem p))) /\
    wf_statics (mem p') /\
    queue_invariants_for (mem p') (without id es) /\
    (id ∉ index <$> es ->
       num_active_timeouts (mem p') = num_active_timeouts (mem p) /\
       active_timeouts (mem p') = active_timeouts (mem p)).
Proof.
  intros Hwf Hq E0 Hh0 Ht. unfold disable_timeout.
  rewrite (bind_ok _ _ _ _ _ (Assert_initialized_ok _ Hwf)).
  rewrite (bind_ok _ _ _ _ _ (Assert_registered_ok id p ltac:(by exists e0))).
  rewrite (bind_ok _ _ _ _ _ (disable_alarm_ok false p Ht)).
  set (p0 := with_trace _ p).
  destruct (cancel_clear_ok id keep p0 es e0) as (m' & Hrun & Hall & Hwf' & Hq' & Hsame);
    try done.
  rewrite Hrun. unfold bind at 1, gets. cbn [mem with_mem].
  destruct (0 <? num_active_timeouts m').
  - unfold bind at 1, GetCurrentTimestamp.
    rewrite (schedule_alarm_run _ _ (without id es)) by done.
    rewrite schedule_result_ok by done.
    eexists. split; [reflexivity|]. by cbn.
  - eexists. split; [reflexivity|]. by cbn.
Qed.

Lemma statics_eq m1 m2 :
  all_timeouts m1 = all_timeouts m2 ->
  all_timeouts_initialized m1 = all_timeouts_initialized m2 ->
  num_active_timeouts m1 = num_active_timeouts m2 ->
  active_timeouts m1 = active_timeouts m2 ->
  m1 = m2.
Proof. destruct m1, m2; cbn; by intros -> -> -> ->. Qed.

(** C3.  [disable_timeout] is idempotent.  For a registered [id], on a
    host whose timer never fails, calling [disable_timeout(id,
    keep_indicator)] twice returns both times and leaves the statics the
    first call left.  When [id] is not in the active queue the first call
    already leaves [num_active_timeouts], [active_timeouts] and the entries
    of the queue as they were, and with [keep_indicator] false the
    indicator of [id] is false afterwards.  (The statics are the state
    compared: the second call reads the clock and programs the timer
    again.) *)
Theorem disable_timeout_idempotent (id : TimeoutId) (keep_indicator : bool)
    (p : process) (es : list timeout_params) (e0 : timeout_params) :
  wf_statics (mem p) -> queue_invariants_for (mem p) es ->
  all_timeouts (mem p) !! id = Some e0 -> timeout_handler e0 <> None ->
  timer_ok ->
  exists p1 p2,
    disable_timeout id keep_indicator p = (Ok tt, p1) /\
    disable_timeout id keep_indicator p1 = (Ok tt, p2) /\
    mem p2 = mem p1 /\
    (id ∉ index <$> es ->
       num_active_timeouts (mem p1) = num_active_timeouts (mem p) /\
       active_timeouts (mem p1) = active_timeouts (mem p) /\
       queue_entries (mem p1) = Some es /\
       (keep_indicator = false ->
          all_timeouts (mem p1) !! id = Some (set_indicator false e0))).
Proof.
  intros Hwf Hq E0 Hh0 Ht.
  pose proof (lookup_lt_Some _ _ _ E0) as Hlt.
  destruct (disable_timeout_run id keep_indicator p es e0)
    as (p1 & Hrun1 & Hall1 & Hwf1 & Hq1 & Hsame1); try done.
  set (e1 := if keep_indicator then e0 else set_indicator false e0).
  assert (all_timeouts (mem p1) !! id = Some e1) as E1.
  { rewrite Hall1. subst e1. destruct keep_indicator; [done|].
    by apply list_lookup_insert_eq. }
  destruct (disable_timeout_run id keep_indicator p1 _ e1 Hwf1 Hq1 E1)
    as (p2 & Hrun2 & Hall2 & Hwf2 & Hq2 & Hsame2); try done.
  { subst e1. by destruct keep_indicator. }
  destruct (Hsame2 (not_elem_of_without id es)) as [Hn2 Ha2].
  exists p1, p2. split; [done|]. split; [done|]. split.
  - apply statics_eq; try done.
    + rewrite Hall2. destruct keep_indicator; [done|].
      apply list_insert_id. by rewrite E1.
    + by rewrite (wf_initialized _ Hwf1), (wf_initialized _ Hwf2).
  - intros Hni. destruct (Hsame1 Hni) as [Hn1 Ha1].
    split; [done|]. split; [done|]. split.
    + rewrite <- (without_id id es); [exact (qi_entries _ _ Hq1)|].
      apply list_find_None, Forall_forall. intros x Hx Ex. apply Hni.
      rewrite <- Ex. by apply list_elem_of_fmap_2.
    + intros ->. exact E1.
Qed.

End Runs.


(** ** The registry *)

Lemma stable_all_timeouts_upd (I : statics -> Prop) id f :
  (forall m l, I m -> I (with_all_timeouts l m)) ->
  stable I (all_timeouts_upd id f).
Proof.
  intros HI p Hp. unfold all_timeouts_upd, bind, all_timeouts_get, modify.
  destruct (all_timeouts (mem p) !! id); [|done]. cbn. by apply HI.
Qed.

Section Registry.
Context `{Platform}.

Lemma RegisterTimeout_scan_ok k : forall (s : nat) p,
  (s + k <= length (all_timeouts (mem p)))%nat ->
  RegisterTimeout_scan k s p =
    (Ok (match list_find (fun e => timeout_handler e = None)
                 (take k (drop s (all_timeouts (mem p)))) with
         | Some (j, _) => (s + j)%nat
         | None => (s + k)%nat
         end), p).
Proof.
  induction k as [|k IH]; intros s p Hlen.
  - cbn. unfold ret. by rewrite Nat.add_0_r.
  - cbn [RegisterTimeout_scan].
    destruct (lookup_lt_is_Some_2 (all_timeouts (mem p)) s ltac:(lia)) as [e E].
    rewrite (bind_ok _ _ _ _ _ (all_timeouts_get_ok _ _ _ E)).
    rewrite (drop_S _ _ _ E). cbn [take list_find].
    destruct (decide (timeout_handler e = None)) as [Hn|Hn].
    + rewrite bool_decide_eq_true_2 by done. unfold ret. by rewrite Nat.add_0_r.
    + rewrite bool_decide_eq_false_2 by done. rewrite IH by lia.
      destruct (list_find _ _) as [[j y]|]; cbn; do 3 f_equal; lia.
Qed.

Lemma RegisterTimeout_frame id handler p :
  num_active_timeouts (mem (RegisterTimeout id handler p).2) =
    num_active_timeouts (mem p) /\
  active_timeouts (mem (RegisterTimeout id handler p).2) = active_timeouts (mem p).
Proof.
  set (I := fun m => num_active_timeouts m = num_active_timeouts (mem p) /\
                     active_timeouts m = active_timeouts (mem p)).
  assert (forall k s, stable I (RegisterTimeout_scan k s)) as Hscan.
  { induction k as [|k IH]; intros s; cbn [RegisterTimeout_scan]; repeat stable_step. }
  assert (stable I (RegisterTimeout id handler)) as Hst; [|by apply Hst].
  unfold RegisterTimeout.
  apply stable_bind; [apply stable_Assert_initialized|intros _].
  apply stable_bind; [repeat stable_step|intros id'].
  apply stable_bind; [apply stable_Assert; repeat stable_step|intros _].
  apply stable_bind; [|intros _; apply stable_ret].
  apply stable_all_timeouts_upd. by intros m l [? ?].
Qed.

Lemma Assert_pass (cond : M bool) p b :
  cond p = (Ok b, p) -> (USE_ASSERT_CHECKING = true -> b = true) ->
  Assert cond p = (Ok tt, p).
Proof.
  intros E Hb. unfold Assert. destruct USE_ASSERT_CHECKING; [|done].
  rewrite (bind_ok _ _ _ _ _ E). by rewrite Hb.
Qed.

Lemma RegisterTimeout_at id handler p e :
  wf_statics (mem p) ->
  all_timeouts (mem p) !! id = Some e ->
  (USE_ASSERT_CHECKING = true -> timeout_handler e = None) ->
  (Assert (e <- all_timeouts_get id ;; ret (bool_decide (timeout_handler e = None))) ;;
   all_timeouts_upd id (set_timeout_handler handler) ;; ret id) p =
  (Ok id, set_slot id (set_timeout_handler handler e) p).
Proof.
  intros Hwf E Hfree.
  erewrite bind_ok.
  2:{ eapply Assert_pass.
      - rewrite (bind_ok _ _ _ _ _ (all_timeouts_get_ok _ _ _ E)). reflexivity.
      - intros Ha. by rewrite bool_decide_eq_true_2 by auto. }
  by rewrite (bind_ok _ _ _ _ _ (all_timeouts_upd_ok _ _ _ _ E)).
Qed.

(** The loop of [InitializeTimeouts] resets the [k] slots from [i] on. *)
Lemma InitializeTimeouts_from_ok k : forall (i : nat) p,
  (i + k <= length (all_timeouts (mem p)))%nat ->
  InitializeTimeouts_from k i p =
    (Ok tt, with_mem (with_all_timeouts
       (take i (all_timeouts (mem p)) ++
        ((fun j => mk_timeout_params j false None 0 0) <$> seq i k) ++
        drop (i + k) (all_timeouts (mem p))) (mem p)) p).
Proof.
  induction k as [|k IH]; intros i p Hlen.
  - cbn [InitializeTimeouts_from seq]. unfold ret.
    rewrite Nat.add_0_r, fmap_nil, app_nil_l, take_drop.
    destruct p as [[] ? ? ? ?]; reflexivity.
  - cbn [InitializeTimeouts_from]. set (a := all_timeouts (mem p)) in *.
    destruct (lookup_lt_is_Some_2 a i ltac:(lia)) as [e E].
    rewrite (bind_ok _ _ _ _ _ (all_timeouts_upd_ok _ _ _ _ E)).
    rewrite IH by (cbn; rewrite length_insert; fold a; lia).
    unfold with_mem, with_all_timeouts; cbn. fold a. do 3 f_equal.
    rewrite (take_S_r _ _ (mk_timeout_params i false None 0 0))
      by (by apply list_lookup_insert_eq, lookup_lt_is_Some_1).
    rewrite take_insert_ge by lia. rewrite drop_insert_lt by lia.
    rewrite <- app_assoc. cbn [app].
    by replace (S (i + k)) with (i + S k)%nat by lia.
Qed.

(** [InitializeTimeouts] establishes the invariants: whatever the statics
    held, afterwards they are well-formed, the queue is empty and no reason
    is registered. *)
Lemma InitializeTimeouts_establishes p :
  length (all_timeouts (mem p)) = MAX_TIMEOUTS ->
  length (active_timeouts (mem p)) = MAX_TIMEOUTS ->
  exists p',
    InitializeTimeouts p = (Ok tt, p') /\
    trace p' = trace p ++ [EvPqsignal] /\
    wf_statics (mem p') /\ queue_invariants_for (mem p') [] /\
    forall id, ~ registered (mem p') id.
Proof.
  intros Hall Hact. unfold InitializeTimeouts.
  unfold bind at 1, modify at 1.
  erewrite bind_ok; [|apply (InitializeTimeouts_from_ok MAX_TIMEOUTS 0); cbn; lia].
  unfold bind at 1, modify, emit. cbn [mem with_mem with_all_timeouts with_num_active
    all_timeouts all_timeouts_initialized num_active_timeouts active_timeouts].
  rewrite take_0, app_nil_l, Nat.add_0_l, <- Hall, drop_all, app_nil_r, Hall.
  eexists. split; [reflexivity|]. cbn.
  assert (Hlook : forall k e,
    ((fun j => mk_timeout_params j false None 0 0) <$> seq 0 MAX_TIMEOUTS) !! k = Some e ->
    e = mk_timeout_params k false None 0 0).
  { intros k e Hk. rewrite list_lookup_fmap in Hk.
    destruct (seq 0 MAX_TIMEOUTS !! k) as [j|] eqn:Ej; [|done].
    apply lookup_seq in Ej as [-> _]. by injection Hk as <-. }
  split; [done|]. split; [|split].
  - constructor; cbn; try done.
    + by rewrite length_fmap, length_seq.
    + intros k e Hk. by rewrite (Hlook k e Hk).
  - constructor; cbn; try done; try constructor; lia.
  - intros id (e & E & Hh). cbn in E. by rewrite (Hlook id e E) in Hh.
Qed.

(** Registering a reason in a free slot keeps the invariants and the queue. *)
Lemma RegisterTimeout_keeps_invariants id handler p e es :
  wf_statics (mem p) -> queue_invariants_for (mem p) es ->
  all_timeouts (mem p) !! id = Some e -> timeout_handler e = None ->
  let p' := set_slot id (set_timeout_handler handler e) p in
  wf_statics (mem p') /\ queue_invariants_for (mem p') es.
Proof.
  intros Hwf Hq E Hfree p'. split.
  - by apply wf_statics_upd.
  - destruct Hq as [He Hs Hnd Hh Hb]. constructor; try done.
    apply queue_entries_of. apply queue_entries_of in He.
    eapply (entries_of_insert (mem p)); [done|exact He| |done].
    intros (x & Ex & Hx)%list_elem_of_fmap.
    rewrite Forall_forall in Hh. apply (Hh x Hx).
    apply (entries_of_slots _ _ _ Hwf) in He as [_ Hsl].
    rewrite Forall_forall in Hsl. destruct (Hsl x Hx) as [_ Hl].
    rewrite <- Ex, E in Hl. by injection Hl as <-.
Qed.

(** C5.  [RegisterTimeout(id, handler)] on an initialized module.  For
    [id < USER_TIMEOUT] it writes [handler] to slot [id] and returns [id]
    (in a build with assertions, provided the slot has no handler yet: the
    function asserts it).  For [id >= USER_TIMEOUT], and so for
    [id == USER_TIMEOUT], it writes [handler] to the first slot of
    [USER_TIMEOUT .. MAX_TIMEOUTS - 1] that has no handler and returns
    that slot, and raises FATAL, changing nothing, when every such slot
    has one.  In every case [num_active_timeouts] and [active_timeouts]
    are left as they were. *)
Theorem RegisterTimeout_spec (id : TimeoutId) (handler : option timeout_handler_proc)
    (p : process) :
  wf_statics (mem p) -> (USER_TIMEOUT <= MAX_TIMEOUTS)%nat ->
  (* predefined reasons *)
  ((id < USER_TIMEOUT)%nat ->
   exists e, all_timeouts (mem p) !! id = Some e /\
     ((USE_ASSERT_CHECKING = true -> timeout_handler e = None) ->
      RegisterTimeout id handler p =
        (Ok id, set_slot id (set_timeout_handler handler e) p))) /\
  (* user-defined reasons: the first free slot, if there is one *)
  ((USER_TIMEOUT <= id)%nat ->
   (forall slot e,
      (USER_TIMEOUT <= slot < MAX_TIMEOUTS)%nat ->
      all_timeouts (mem p) !! slot = Some e -> timeout_handler e = None ->
      (forall s x, (USER_TIMEOUT <= s < slot)%nat ->
         all_timeouts (mem p) !! s = Some x -> timeout_handler x <> None) ->
      RegisterTimeout id handler p =
        (Ok slot, set_slot slot (set_timeout_handler handler e) p)) /\
   ((forall s x, (USER_TIMEOUT <= s < MAX_TIMEOUTS)%nat ->
       all_timeouts (mem p) !! s = Some x -> timeout_handler x <> None) ->
    RegisterTimeout id handler p =
      (Raise (FATAL "cannot add more timeout reasons" []), p))) /\
  (* registration never arms *)
  num_active_timeouts (mem (RegisterTimeout id handler p).2) =
    num_active_timeouts (mem p) /\
  active_timeouts (mem (RegisterTimeout id handler p).2) = active_timeouts (mem p).
Proof.
  intros Hwf HU. pose proof (wf_all_length _ Hwf) as Hlen.
  split; [|split; [|apply RegisterTimeout_frame]].
  - intros Hid.
    destruct (lookup_lt_is_Some_2 (all_timeouts (mem p)) id ltac:(lia)) as [e E].
    exists e. split; [done|]. intros Hfree. unfold RegisterTimeout.
    rewrite (bind_ok _ _ _ _ _ (Assert_initialized_ok _ Hwf)).
    destruct (Nat.leb_spec USER_TIMEOUT id); [lia|].
    unfold bind at 1, ret at 1. by apply RegisterTimeout_at.
  - intros Hid.
    assert (Hscan := RegisterTimeout_scan_ok (MAX_TIMEOUTS - USER_TIMEOUT)
                       USER_TIMEOUT p ltac:(lia)).
    split.
    + intros slot e Hslot E Hnone Hbefore. unfold RegisterTimeout.
      rewrite (bind_ok _ _ _ _ _ (Assert_initialized_ok _ Hwf)).
      destruct (Nat.leb_spec USER_TIMEOUT id); [|lia].
      assert (list_find (fun e => timeout_handler e = None)
                (take (MAX_TIMEOUTS - USER_TIMEOUT)
                   (drop USER_TIMEOUT (all_timeouts (mem p))))
              = Some ((slot - USER_TIMEOUT)%nat, e)) as Hf.
      { apply list_find_Some. split; [|split; [done|]].
        - rewrite lookup_take_lt, lookup_drop by lia. rewrite <- E. f_equal. lia.
        - intros j y Hj Hlt. rewrite lookup_take_lt, lookup_drop in Hj by lia.
          eapply Hbefore; [|exact Hj]. lia. }
      rewrite Hf in Hscan.
      replace (USER_TIMEOUT + (slot - USER_TIMEOUT))%nat with slot in Hscan by lia.
      unfold bind at 1. unfold bind at 1. rewrite Hscan.
      destruct (Nat.leb_spec MAX_TIMEOUTS slot); [lia|].
      unfold ret at 1. apply RegisterTimeout_at; auto.
    + intros Hfull. unfold RegisterTimeout.
      rewrite (bind_ok _ _ _ _ _ (Assert_initialized_ok _ Hwf)).
      destruct (Nat.leb_spec USER_TIMEOUT id); [|lia].
      assert (list_find (fun e => timeout_handler e = None)
                (take (MAX_TIMEOUTS - USER_TIMEOUT)
                   (drop USER_TIMEOUT (all_timeouts (mem p)))) = None) as Hf.
      { apply list_find_None, Forall_forall. intros y Hy.
        apply list_elem_of_lookup in Hy as [j Hj].
        pose proof (lookup_lt_Some _ _ _ Hj) as Hjl.
        rewrite length_take, length_drop in Hjl.
        rewrite lookup_take_lt, lookup_drop in Hj by lia.
        eapply Hfull; [|exact Hj]. lia. }
      rewrite Hf in Hscan.
      replace (USER_TIMEOUT + (MAX_TIMEOUTS - USER_TIMEOUT))%nat
        with MAX_TIMEOUTS in Hscan by lia.
      unfold bind at 1. unfold bind at 1. rewrite Hscan.
      destruct (Nat.leb_spec MAX_TIMEOUTS MAX_TIMEOUTS); [|lia].
      reflexivity.
Qed.

(** C7.  [get_timeout_indicator(id, reset_indicator)] returns the
    indicator of entry [id]; the state is changed only when that indicator
    is true and [reset_indicator] is true, and then only by clearing this
    indicator.  When it returns false the process is left exactly as it
    was. *)
Theorem get_timeout_indicator_spec (id : TimeoutId) (reset_indicator : bool)
    (p : process) (e : timeout_params) :
  all_timeouts (mem p) !! id = Some e ->
  get_timeout_indicator id reset_indicator p =
    (Ok (indicator e),
     if indicator e && reset_indicator then set_slot id (set_indicator false e) p
     else p).
Proof.
  intros E. unfold get_timeout_indicator.
  rewrite (bind_ok _ _ _ _ _ (all_timeouts_get_ok _ _ _ E)).
  destruct (indicator e); [|done]. destruct reset_indicator; cbn [andb].
  - by rewrite (bind_ok _ _ _ _ _ (all_timeouts_upd_ok _ _ _ _ E)).
  - done.
Qed.

Lemma clear_indicators_from_ok k : forall (i : nat) p,
  (i + k <= length (all_timeouts (mem p)))%nat ->
  clear_indicators_from k i p =
    (Ok tt, with_mem (with_all_timeouts
       (take i (all_timeouts (mem p)) ++
        (set_indicator false <$> take k (drop i (all_timeouts (mem p)))) ++
        drop (i + k) (all_timeouts (mem p))) (mem p)) p).
Proof.
  induction k as [|k IH]; intros i p Hlen.
  - cbn [clear_indicators_from]. unfold ret.
    rewrite Nat.add_0_r, take_0, fmap_nil, app_nil_l, take_drop.
    destruct p as [[] ? ? ? ?]; reflexivity.
  - cbn [clear_indicators_from]. set (a := all_timeouts (mem p)) in *.
    destruct (lookup_lt_is_Some_2 a i ltac:(lia)) as [e E].
    rewrite (bind_ok _ _ _ _ _ (all_timeouts_upd_ok _ _ _ _ E)).
    rewrite IH by (cbn; rewrite length_insert; fold a; lia).
    unfold with_mem, with_all_timeouts; cbn. fold a. do 3 f_equal.
    rewrite (take_S_r _ _ (set_indicator false e))
      by (by apply list_lookup_insert_eq, lookup_lt_is_Some_1).
    rewrite take_insert_ge by lia. rewrite !drop_insert_lt by lia.
    rewrite (drop_S a e i E). cbn [take fmap list_fmap].
    rewrite <- app_assoc. cbn [app].
    by replace (S (i + k)) with (i + S k)%nat by lia.
Qed.

(** C8.  [disable_all_timeouts(keep_indicators)], when [setitimer]
    accepts the zero value, calls [setitimer] with zero whatever the number
    of active timeouts, sets [num_active_timeouts] to 0 and, unless
    [keep_indicators], clears every indicator; [index], [timeout_handler],
    [start_time] and [fin_time] of every entry are left as they were, so
    every registered reason is still registered. *)
Theorem disable_all_timeouts_spec (keep_indicators : bool) (p : process) :
  length (all_timeouts (mem p)) = MAX_TIMEOUTS ->
  setitimer itimerval_zero = 0 ->
  exists p',
    disable_all_timeouts keep_indicators p = (Ok tt, p') /\
    trace p' = trace p ++ [EvSetitimer itimerval_zero] /\
    num_active_timeouts (mem p') = 0 /\
    all_timeouts (mem p') =
      (if keep_indicators then all_timeouts (mem p)
       else set_indicator false <$> all_timeouts (mem p)) /\
    (forall id e', all_timeouts (mem p') !! id = Some e' ->
       exists e, all_timeouts (mem p) !! id = Some e /\
         index e' = index e /\ timeout_handler e' = timeout_handler e /\
         start_time e' = start_time e /\ fin_time e' = fin_time e) /\
    (forall id, registered (mem p) id -> registered (mem p') id).
Proof.
  intros Hlen Hrc. unfold disable_all_timeouts.
  unfold bind at 1. unfold call_setitimer, bind at 1, emit, ret at 1.
  rewrite Hrc. cbn [Z.eqb negb]. unfold bind at 1, ret at 1.
  unfold bind at 1, modify.
  set (p1 := with_mem _ _).
  assert (exists p', (if negb keep_indicators then clear_indicators_from MAX_TIMEOUTS 0%nat
                      else ret tt) p1 = (Ok tt, p') /\
            trace p' = trace p ++ [EvSetitimer itimerval_zero] /\
            num_active_timeouts (mem p') = 0 /\
            all_timeouts (mem p') =
              (if keep_indicators then all_timeouts (mem p)
               else set_indicator false <$> all_timeouts (mem p)))
    as (p' & Hrun & Htr & Hn & Hall).
  { destruct keep_indicators; cbn [negb].
    - exists p1. by subst p1.
    - eexists. split; [apply clear_indicators_from_ok; subst p1; cbn; lia|].
      subst p1. cbn. split; [done|]. split; [done|].
      by rewrite take_0, drop_0, <- Hlen, firstn_all, drop_all, app_nil_r. }
  exists p'. split; [done|]. split; [done|]. split; [done|]. split; [done|].
  assert (forall id e', all_timeouts (mem p') !! id = Some e' ->
       exists e, all_timeouts (mem p) !! id = Some e /\
         index e' = index e /\ timeout_handler e' = timeout_handler e /\
         start_time e' = start_time e /\ fin_time e' = fin_time e) as Hfields.
  { intros id e'. rewrite Hall. destruct keep_indicators; [by eauto 10|].
    rewrite list_lookup_fmap. destruct (_ !! id) as [e|]; [|done].
    cbn. intros [= <-]. by exists e. }
  split; [done|].
  intros id (e & E & Hh). unfold registered. rewrite Hall.
  destruct keep_indicators; [by exists e|].
  exists (set_indicator false e). by rewrite list_lookup_fmap, E.
Qed.

End Registry.



(** ** Batches *)

Section Batch.
Context `{Platform}.

(** The arms of the [switch] of [enable_timeouts]. *)
Lemma enable_timeouts_body_recognised now t :
  recognised t ->
  enable_timeouts_body now t = enable_timeout (tp_id t) now (deadline now t).
Proof.
  unfold enable_timeouts_body, deadline. by intros [-> | ->].
Qed.

Lemma enable_timeouts_body_unrecognised now t :
  ~ recognised t ->
  enable_timeouts_body now t =
    raise (ERROR "unrecognized timeout type %d" [to_int (tp_type t)]).
Proof.
  intros Hbad. unfold enable_timeouts_body.
  destruct (Z.eqb_spec (tp_type t) TMPARAM_AFTER) as [E|_]; [by destruct Hbad; left|].
  destruct (Z.eqb_spec (tp_type t) TMPARAM_AT) as [E|_]; [by destruct Hbad; right|].
  done.
Qed.

(** [(int)] leaves the value an [int] can hold as it is. *)
Lemma to_int_id x : -2147483648 <= x < 2147483648 -> to_int x = x.
Proof.
  intros Hx. unfold to_int.
  rewrite Z.mod_small by lia. lia.
Qed.

Lemma enable_timeouts_body_run h now t p es :
  wf_statics (mem p) -> queue_invariants_for (mem p) es ->
  (forall x, handler_at (mem p) x = h x) ->
  h (tp_id t) <> None -> recognised t ->
  exists m',
    enable_timeouts_body now t p =
      (Ok tt, with_mem m' (with_trace (trace p ++ enable_events now [t]) p)) /\
    wf_statics m' /\ queue_invariants_for m' (enqueue h now es t) /\
    (forall x, handler_at m' x = h x).
Proof.
  intros Hwf Hq Hh Hreg Hrec.
  assert (exists e0, all_timeouts (mem p) !! tp_id t = Some e0 /\
                     timeout_handler e0 = h (tp_id t)) as (e0 & E0 & Hh0).
  { specialize (Hh (tp_id t)). revert Hh. unfold handler_at.
    destruct (_ !! tp_id t) as [e0|]; intros Hh; [by exists e0|congruence]. }
  destruct (enable_timeout_ok (tp_id t) now (deadline now t) p es e0)
    as (m' & Hrun & Hall & Hwf' & Hq'); try done; [congruence|].
  exists m'. split; [|split; [done|split]].
  - rewrite (enable_timeouts_body_recognised _ _ Hrec).
    cbn [enable_events fmap list_fmap]. exact Hrun.
  - unfold enqueue, enabled_entry. rewrite <- Hh0.
    rewrite <- (wf_index _ Hwf _ _ E0) at 1. exact Hq'.
  - intros x. rewrite <- Hh. unfold handler_at. rewrite Hall.
    destruct (decide (x = tp_id t)) as [->|Hne].
    + rewrite list_lookup_insert_eq by (by eapply lookup_lt_Some). by rewrite E0.
    + by rewrite list_lookup_insert_ne.
Qed.

Lemma arg_get_ok {A} (l : list A) (i : nat) x p :
  l !! i = Some x -> arg_get l (Z.of_nat i) p = (Ok x, p).
Proof.
  intros E. unfold arg_get. destruct (Z.ltb_spec (Z.of_nat i) 0); [lia|].
  by rewrite Nat2Z.id, E.
Qed.

(** The loop of [enable_timeouts] over entries [l] that are all
    recognised, followed by [extra] more iterations. *)
Lemma enable_timeouts_from_run ts h now l : forall (extra i : nat) p es,
  wf_statics (mem p) -> queue_invariants_for (mem p) es ->
  (forall x, handler_at (mem p) x = h x) ->
  Forall (fun t => h (tp_id t) <> None) l -> Forall recognised l ->
  (forall j t, l !! j = Some t -> ts !! (i + j)%nat = Some t) ->
  exists m',
    (forall B (k : unit -> M B),
       bind (enable_timeouts_from ts now (length l + extra) (Z.of_nat i)) k p =
       bind (enable_timeouts_from ts now extra (Z.of_nat (i + length l))) k
         (with_mem m' (with_trace (trace p ++ enable_events now l) p))) /\
    wf_statics m' /\ queue_invariants_for m' (foldl (enqueue h now) es l) /\
    (forall x, handler_at m' x = h x).
Proof.
  induction l as [|t l IH]; intros extra i p es Hwf Hq Hh Hreg Hrec Hts.
  - exists (mem p). split; [|done]. intros B k. cbn [length Nat.add enable_events fmap list_fmap].
    rewrite app_nil_r, Nat.add_0_r.
    by replace (with_mem (mem p) (with_trace (trace p) p)) with p by (by destruct p).
  - apply Forall_cons in Hreg as [Hreg1 Hreg]. apply Forall_cons in Hrec as [Hrec1 Hrec].
    destruct (enable_timeouts_body_run h now t p es) as (m1 & Hrun1 & Hwf1 & Hq1 & Hh1);
      try done.
    set (p1 := with_mem m1 _) in Hrun1.
    destruct (IH extra (S i) p1 (enqueue h now es t)) as (m' & Hrun & Hwf' & Hq' & Hh');
      try done.
    { intros j t' Hj. rewrite <- (Hts (S j) t' Hj). f_equal. lia. }
    exists m'. split; [|done]. intros B k.
    cbn [length Nat.add enable_timeouts_from].
    pose proof (Hts 0%nat t eq_refl) as Ht0. rewrite Nat.add_0_r in Ht0.
    unfold bind at 1. rewrite (bind_ok _ _ _ _ _ (arg_get_ok _ _ _ _ Ht0)).
    rewrite (bind_ok _ _ _ _ _ Hrun1).
    replace (Z.of_nat i + 1) with (Z.of_nat (S i)) by lia.
    specialize (Hrun B k). unfold bind at 1 in Hrun. rewrite Hrun.
    replace (S i + length l)%nat with (i + S (length l))%nat by lia.
    f_equal. subst p1. unfold with_mem, with_trace. cbn.
    by rewrite <- app_assoc.
Qed.


Lemma registered_handler_at m id :
  registered m id <-> handler_at m id <> None.
Proof.
  unfold registered, handler_at. split.
  - by intros (e & -> & He).
  - destruct (_ !! id) as [e|]; [by exists e|done].
Qed.

(** The batch up to its first unrecognised entry. *)
Lemma enable_timeouts_prefix ts count p es pre rest :
  wf_statics (mem p) -> queue_invariants_for (mem p) es ->
  count = Z.of_nat (length ts) ->
  Forall (fun t => registered (mem p) (tp_id t)) ts ->
  timer_ok ->
  ts = pre ++ rest -> Forall recognised pre ->
  let now := clock (clock_reads p) in
  let h := handler_at (mem p) in
  exists m',
    (forall B (k : Z -> unit -> M B),
       bind (disable_alarm (1 <? count))
         (fun _ => bind GetCurrentTimestamp
            (fun now => bind (enable_timeouts_from ts now (Z.to_nat count) 0) (k now))) p =
       bind (enable_timeouts_from ts now (length rest) (Z.of_nat (length pre))) (k now)
         (mk_process m' (errno p) (MyProc p) (S (clock_reads p))
            (trace p ++ disable_events (1 <? count) (num_active_timeouts (mem p)) ++
             enable_events now pre))) /\
    wf_statics m' /\ queue_invariants_for m' (foldl (enqueue h now) es pre).
Proof.
  intros Hwf Hq Hc Hreg Ht Hts Hrec now h.
  set (p1 := with_clock_reads (S (clock_reads p))
               (with_trace (trace p ++ disable_events (1 <? count)
                              (num_active_timeouts (mem p))) p)).
  destruct (enable_timeouts_from_run ts h now pre (length rest) 0 p1 es)
    as (m' & Hrun & Hwf' & Hq' & _); try done.
  { apply Forall_forall. intros t Ht'. apply registered_handler_at.
    rewrite Forall_forall in Hreg. apply Hreg. subst ts.
    apply elem_of_app. by left. }
  { intros j t Hj. subst ts. cbn. by apply lookup_app_l_Some. }
  exists m'. split; [|done]. intros B k.
  rewrite (bind_ok _ _ _ _ _ (disable_alarm_ok _ p Ht)).
  unfold bind at 1, GetCurrentTimestamp. cbn [clock_reads with_trace]. fold now. fold p1.
  replace (Z.to_nat count) with (length pre + length rest)%nat
    by (subst; rewrite length_app; lia).
  change 0 with (Z.of_nat 0). rewrite Hrun. cbn [Nat.add].
  f_equal. subst p1. unfold with_mem, with_trace, with_clock_reads. cbn.
  by rewrite <- app_assoc.
Qed.

Lemma schedule_alarm_calls_disable multi_insert n :
  schedule_alarm_calls (disable_events multi_insert n) = [].
Proof. unfold disable_events. by destruct (_ || _). Qed.

Lemma schedule_alarm_calls_enable now ts :
  schedule_alarm_calls (enable_events now ts) = [].
Proof. induction ts as [|t ts IH]; [done|]. exact IH. Qed.

(** C9.  [enable_timeouts(timeouts, count)] with [count] the length of
    the array, registered identifiers and a timer that never fails.  When
    every entry has type AFTER or AT the call returns, having called
    [disable_alarm(count > 1)], read the clock once, called
    [enable_timeout(id, now, fin_time)] for every entry in order, with
    [fin_time = TimestampTzPlusMilliseconds(now, delay_ms)] for AFTER and
    the entry's own [fin_time] for AT, and then [schedule_alarm(now)]: once,
    as the last call.  When an entry has another type, that is when the
    value of its [type] is that of neither enumerator, the call raises
    ERROR, which is not fatal, with that value converted to [int]. *)
Theorem enable_timeouts_spec (ts : list EnableTimeoutParams) (count : Z)
    (p : process) (es : list timeout_params) :
  wf_statics (mem p) -> queue_invariants_for (mem p) es ->
  count = Z.of_nat (length ts) ->
  Forall (fun t => registered (mem p) (tp_id t)) ts ->
  timer_ok ->
  let now := clock (clock_reads p) in
  let es' := foldl (enqueue (handler_at (mem p)) now) es ts in
  (Forall recognised ts ->
   exists p',
     enable_timeouts ts count p = (Ok tt, p') /\
     clock_reads p' = S (clock_reads p) /\
     trace p' = trace p ++
       disable_events (1 <? count) (num_active_timeouts (mem p)) ++
       enable_events now ts ++ schedule_events now es' /\
     schedule_alarm_calls
       (disable_events (1 <? count) (num_active_timeouts (mem p)) ++
        enable_events now ts ++ schedule_events now es') = [now] /\
     wf_statics (mem p') /\ queue_invariants_for (mem p') es') /\
  (forall pre bad post,
     ts = pre ++ bad :: post -> Forall recognised pre ->
     ~ recognised bad ->
     (enable_timeouts ts count p).1 =
       Raise (ERROR "unrecognized timeout type %d" [to_int (tp_type bad)])).
Proof.
  intros Hwf Hq Hc Hreg Ht now es'. split.
  - intros Hrec.
    destruct (enable_timeouts_prefix ts count p es ts []) as (m' & Hrun & Hwf' & Hq');
      try done; [by rewrite app_nil_r|].
    fold now in Hrun. fold es' in Hq'.
    unfold enable_timeouts. rewrite Hrun.
    cbn [length enable_timeouts_from]. unfold bind at 1, ret at 1.
    rewrite (schedule_alarm_run now _ es') by done.
    rewrite schedule_result_ok by done.
    eexists. split; [reflexivity|]. cbn [clock_reads trace mem with_trace].
    split; [done|]. split; [by rewrite <- !app_assoc|]. split; [|done].
    unfold schedule_alarm_calls. rewrite !omap_app.
    rewrite schedule_alarm_calls_disable, schedule_alarm_calls_enable.
    by destruct es'.
  - intros pre bad post Hts Hrec Hbad.
    destruct (enable_timeouts_prefix ts count p es pre (bad :: post))
      as (m' & Hrun & Hwf' & Hq'); try done.
    fold now in Hrun. unfold enable_timeouts. rewrite Hrun.
    cbn [length enable_timeouts_from].
    unfold bind at 1. unfold bind at 1.
    erewrite arg_get_ok by (subst ts; apply list_lookup_middle; done).
    unfold bind at 1. by rewrite (enable_timeouts_body_unrecognised _ _ Hbad).
Qed.

(** C10.  [enable_timeouts] is not atomic.  When the entry [bad] after
    the recognised entries [pre] has an unknown type (the value of its
    [type] is that of neither enumerator), the call raises ERROR after
    having enabled every entry of [pre]: they are in the active queue
    that is left behind, which is therefore non-empty when [pre] is; no
    entry after [bad] has been enabled; [schedule_alarm] has not been
    called, and the only value [setitimer] may have been given is the zero
    of [disable_alarm]. *)
Theorem enable_timeouts_not_atomic (ts pre post : list EnableTimeoutParams)
    (bad : EnableTimeoutParams) (count : Z) (p : process)
    (es : list timeout_params) :
  wf_statics (mem p) -> queue_invariants_for (mem p) es ->
  count = Z.of_nat (length ts) ->
  Forall (fun t => registered (mem p) (tp_id t)) ts ->
  timer_ok ->
  ts = pre ++ bad :: post -> Forall recognised pre ->
  ~ recognised bad ->
  let now := clock (clock_reads p) in
  let es' := foldl (enqueue (handler_at (mem p)) now) es pre in
  let done_events :=
    disable_events (1 <? count) (num_active_timeouts (mem p)) ++
    enable_events now pre in
  exists p',
    enable_timeouts ts count p =
      (Raise (ERROR "unrecognized timeout type %d" [to_int (tp_type bad)]), p') /\
    trace p' = trace p ++ done_events /\
    Forall (fun ev => (forall t, ev <> EvCall_schedule_alarm t) /\
                      (forall v, ev = EvSetitimer v -> v = itimerval_zero))
      done_events /\
    wf_statics (mem p') /\ queue_invariants_for (mem p') es' /\
    (pre <> [] -> 0 < num_active_timeouts (mem p')).
Proof.
  intros Hwf Hq Hc Hreg Ht Hts Hrec Hbad now es' done_events.
  destruct (enable_timeouts_prefix ts count p es pre (bad :: post))
    as (m' & Hrun & Hwf' & Hq'); try done.
  fold now in Hrun. change (queue_invariants_for m' es') in Hq'.
  eexists. split; [|split; [|split; [|split; [|split]]]].
  - unfold enable_timeouts. rewrite Hrun.
    cbn [length enable_timeouts_from].
    unfold bind at 1. unfold bind at 1.
    erewrite arg_get_ok by (subst ts; apply list_lookup_middle; done).
    unfold bind at 1. rewrite (enable_timeouts_body_unrecognised _ _ Hbad).
    reflexivity.
  - cbn. done.
  - subst done_events. apply Forall_app. split.
    + unfold disable_events. constructor; [by split|].
      destruct (_ || _); constructor; [|constructor].
      split; [done|]. by intros v [= <-].
    + unfold enable_events. apply Forall_fmap, Forall_forall. intros t _. by split.
  - done.
  - done.
  - intros Hne. cbn [mem]. rewrite (queue_length _ _ Hwf' Hq').
    assert (es' <> []) as Hes'.
    { subst es'. destruct pre as [|t pre _] using rev_ind; [done|].
      rewrite foldl_snoc. unfold enqueue at 1. rewrite insert_sorted_find. cbn zeta.
      by destruct (take _ _). }
    clearbody es'. destruct es'; [done|]. cbn [length]. lia.
Qed.

(** *** The mutators return *)

(** [enable_timeout_after] is [enable_timeout_at] with the deadline
    computed from the clock reading the call makes. *)
Lemma enable_timeout_after_at id delay_ms p :
  timer_ok ->
  enable_timeout_after id delay_ms p =
    enable_timeout_at id
      (TimestampTzPlusMilliseconds (clock (clock_reads p)) delay_ms) p.
Proof.
  intros Ht. unfold enable_timeout_after, enable_timeout_at.
  rewrite !(bind_ok _ _ _ _ _ (disable_alarm_ok false p Ht)).
  reflexivity.
Qed.

(** The loop of [disable_timeouts] over the entries [l]. *)
Lemma disable_timeouts_from_run ts h l : forall (i : nat) p es,
  wf_statics (mem p) -> queue_invariants_for (mem p) es ->
  (forall x, handler_at (mem p) x = h x) ->
  Forall (fun t => h (dp_id t) <> None) l ->
  (forall j t, l !! j = Some t -> ts !! (i + j)%nat = Some t) ->
  exists m',
    disable_timeouts_from ts (length l) (Z.of_nat i) p = (Ok tt, with_mem m' p) /\
    wf_statics m' /\
    queue_invariants_for m' (foldl (fun es t => without (dp_id t) es) es l) /\
    (forall x, handler_at m' x = h x).
Proof.
  induction l as [|t l IH]; intros i p es Hwf Hq Hh Hreg Hts.
  - exists (mem p). split; [|done]. cbn. unfold ret. by rewrite with_mem_id.
  - apply Forall_cons in Hreg as [Hreg1 Hreg].
    assert (exists e0, all_timeouts (mem p) !! dp_id t = Some e0 /\
                       timeout_handler e0 = h (dp_id t)) as (e0 & E0 & Hh0).
    { specialize (Hh (dp_id t)). revert Hh. unfold handler_at.
      destruct (_ !! dp_id t) as [e0|]; intros Hh; [by exists e0|congruence]. }
    destruct (cancel_clear_ok (dp_id t) (dp_keep_indicator t) p es e0)
      as (m1 & Hrun1 & Hall1 & Hwf1 & Hq1 & _); try done.
    destruct (IH (S i) (with_mem m1 p) (without (dp_id t) es))
      as (m' & Hrun & Hwf' & Hq' & Hh'); try done.
    { intros x. rewrite <- Hh. unfold handler_at. cbn [mem with_mem]. rewrite Hall1.
      destruct (dp_keep_indicator t); [done|].
      destruct (decide (x = dp_id t)) as [->|Hne].
      - rewrite list_lookup_insert_eq by (by eapply lookup_lt_Some). by rewrite E0.
      - by rewrite list_lookup_insert_ne. }
    { intros j t' Hj. rewrite <- (Hts (S j) t' Hj). f_equal. lia. }
    exists m'. split; [|done].
    cbn [length disable_timeouts_from].
    pose proof (Hts 0%nat t eq_refl) as Ht0. rewrite Nat.add_0_r in Ht0.
    rewrite (bind_ok _ _ _ _ _ (arg_get_ok _ _ _ _ Ht0)).
    erewrite bind_ok.
    2:{ unfold disable_timeouts_body.
        rewrite (bind_ok _ _ _ _ _
                   (Assert_registered_ok (dp_id t) p ltac:(exists e0; split; [done|congruence]))).
        rewrite <- (bind_ret_tail (find_active_timeout (dp_id t))
                      (fun i => if 0 <=? i then remove_timeout_index i else ret tt)
                      (fun _ => if negb (dp_keep_indicator t)
                                then all_timeouts_upd (dp_id t) (set_indicator false)
                                else ret tt)).
        exact (Hrun1 _ ret). }
    replace (Z.of_nat i + 1) with (Z.of_nat (S i)) by lia.
    rewrite Hrun. by cbn.
Qed.

(** On a host whose timer never fails, a mutator called within its
    preconditions, with the true length of its array and no entry of an
    unknown type, returns. *)
Lemma run_mutator_returns (op : mutator) (p : process) :
  wf_statics (mem p) -> queue_invariants (mem p) -> mutator_pre (mem p) op ->
  timer_ok ->
  match op with
  | Op_enable_timeouts ts count =>
      count = Z.of_nat (length ts) /\ Forall recognised ts
  | Op_disable_timeouts ts count => count = Z.of_nat (length ts)
  | _ => True
  end ->
  (run_mutator op p).1 = Ok tt.
Proof.
  intros Hwf [es Hq] Hpre Ht Hargs.
  destruct op as [id d|id fin|ts c|id keep|ts c|keep]; cbn [run_mutator mutator_pre] in *.
  - rewrite enable_timeout_after_at by done.
    destruct Hpre as (e0 & E0 & Hh0).
    by destruct (enable_timeout_at_run id
                   (TimestampTzPlusMilliseconds (clock (clock_reads p)) d)
                   p es e0 Hwf Hq E0 Hh0 Ht) as (m' & -> & _).
  - destruct Hpre as (e0 & E0 & Hh0).
    by destruct (enable_timeout_at_run id fin p es e0 Hwf Hq E0 Hh0 Ht) as (m' & -> & _).
  - destruct Hargs as [Hc Hrec].
    destruct (enable_timeouts_prefix ts c p es ts []) as (m' & Hrun & Hwf' & Hq');
      try done; [by rewrite app_nil_r|].
    unfold enable_timeouts. rewrite Hrun.
    cbn [length enable_timeouts_from]. unfold bind at 1, ret at 1.
    erewrite schedule_alarm_run; [|exact Hwf'|exact Hq'].
    by rewrite schedule_result_ok.
  - destruct Hpre as (e0 & E0 & Hh0).
    by destruct (disable_timeout_run id keep p es e0 Hwf Hq E0 Hh0 Ht) as (p' & -> & _).
  - unfold disable_timeouts.
    rewrite (bind_ok _ _ _ _ _ (Assert_initialized_ok _ Hwf)).
    rewrite (bind_ok _ _ _ _ _ (disable_alarm_ok false p Ht)).
    set (p0 := with_trace _ p).
    destruct (disable_timeouts_from_run ts (handler_at (mem p)) ts 0 p0 es)
      as (m' & Hrun & Hwf' & Hq' & _); try done.
    { apply Forall_forall. intros t Ht'. apply registered_handler_at.
      rewrite Forall_forall in Hpre. by apply Hpre. }
    subst c. rewrite Nat2Z.id. change (Z.of_nat 0) with 0 in Hrun.
    rewrite (bind_ok _ _ _ _ _ Hrun).
    unfold bind at 1, gets. cbn [mem with_mem].
    destruct (0 <? num_active_timeouts m'); [|done].
    unfold bind at 1, GetCurrentTimestamp.
    erewrite schedule_alarm_run; [|exact Hwf'|exact Hq'].
    by rewrite schedule_result_ok.
  - unfold disable_all_timeouts.
    unfold bind at 1. unfold call_setitimer, bind at 1, emit, ret at 1.
    rewrite Ht. cbn [Z.eqb negb]. unfold bind at 1, ret at 1.
    unfold bind at 1, modify.
    destruct keep; cbn [negb]; [done|].
    rewrite clear_indicators_from_ok; [done|].
    cbn. rewrite (wf_all_length _ Hwf). lia.
Qed.

End Batch.


(** ** The signal handler *)

Lemma fire_events_cons e h es :
  timeout_handler e = Some h -> fire_events (e :: es) = EvHandler h :: fire_events es.
Proof. intros E. unfold fire_events. cbn. by rewrite E. Qed.

Section Signal.
Context `{Platform}.

Lemma remove_head_ok p e es :
  wf_statics (mem p) -> queue_invariants_for (mem p) (e :: es) ->
  exists m1,
    remove_timeout_index 0 p = (Ok tt, with_mem m1 p) /\
    all_timeouts m1 = all_timeouts (mem p) /\
    wf_statics m1 /\ queue_invariants_for m1 es.
Proof.
  intros Hwf Hq. pose proof (queue_length _ _ Hwf Hq) as Hn. cbn [length] in Hn.
  destruct Hq as [He Hs Hnd Hh Hb]. apply queue_entries_of in He.
  destruct (remove_timeout_index_ok 0 p) as (a' & Hrun & Hla & Hq');
    rewrite ?(wf_active_length _ Hwf); try lia.
  eexists. split; [exact Hrun|]. split; [done|]. split.
  - destruct Hwf. by constructor; cbn; try congruence.
  - constructor; cbn.
    + apply queue_entries_of. unfold queue; cbn.
      replace (Z.to_nat (num_active_timeouts (mem p) - 1))
        with (Z.to_nat (num_active_timeouts (mem p)) - 1)%nat by lia.
      rewrite Hq'. apply (Forall2_delete _ _ _ 0) in He. cbn in He.
      eapply entries_of_ext; [|exact He]. done.
    + by apply StronglySorted_inv in Hs as [? _].
    + rewrite fmap_cons in Hnd. by apply NoDup_cons in Hnd as [_ ?].
    + by apply Forall_cons in Hh as [_ ?].
    + lia.
Qed.

(** The loop of [handle_sig_alarm], entered after the clock reading
    number [r]: it fires the first [k] entries and stops. *)
Lemma fire_pending_run (Hext : handlers_external) es : forall fuel r p,
  wf_statics (mem p) -> queue_invariants_for (mem p) es ->
  (length es <= fuel)%nat -> clock_reads p = S r ->
  exists (k : nat) p',
    fire_pending fuel (clock r) p = (Ok (clock (r + k)), p') /\
    (k <= length es)%nat /\
    (forall j e, (j < k)%nat -> es !! j = Some e -> fin_time e <= clock (r + j)) /\
    (forall e, es !! k = Some e -> clock (r + k) < fin_time e) /\
    clock_reads p' = S (r + k) /\
    trace p' = trace p ++ fire_events (take k es) /\
    wf_statics (mem p') /\ queue_invariants_for (mem p') (drop k es) /\
    (forall e, e ∈ take k es ->
       all_timeouts (mem p') !! index e = Some (set_indicator true e)) /\
    (forall id, id ∉ index <$> take k es ->
       all_timeouts (mem p') !! id = all_timeouts (mem p) !! id).
Proof.
  induction es as [|e es IH]; intros fuel r p Hwf Hq Hfuel Hr.
  - exists 0%nat, p. pose proof (queue_length _ _ Hwf Hq) as Hn. cbn in Hn.
    split; [|split; [done|]].
    { destruct fuel; cbn [fire_pending]; unfold bind, gets; rewrite Hn;
        cbn; unfold ret; by rewrite Nat.add_0_r. }
    split; [intros; lia|]. split; [done|]. split; [by rewrite Nat.add_0_r|].
    split; [by rewrite app_nil_r|]. split; [done|]. split; [done|].
    split; [|done]. intros x Hx. cbn in Hx. by apply elem_of_nil in Hx.
  - destruct (queue_head _ _ _ Hwf Hq) as (Hn & ptr & Hptr & He).
    assert (Hstart : forall f', fire_pending f' (clock r) p =
      if fin_time e <=? clock r then
        match f' with
        | O => (Raise OUT_OF_FUEL, p)
        | S fuel' =>
            (remove_timeout_index 0 ;;
             store ptr (set_indicator true) ;;
             e' <- load ptr ;;
             call_handler (timeout_handler e') ;;
             now <- GetCurrentTimestamp ;;
             fire_pending fuel' now) p
        end
      else (Ok (clock r), p)).
    { intros f'. destruct f'; cbn [fire_pending]; unfold bind at 1, gets;
        (destruct (Z.ltb_spec 0 (num_active_timeouts (mem p))); [|lia]);
        rewrite (bind_ok _ _ _ _ _ (active_timeouts_get_ok 0 _ _ Hptr));
        rewrite (bind_ok _ _ _ _ _ (load_ok _ _ _ He));
        by destruct (fin_time e <=? clock r). }
    rewrite Hstart. destruct (Z.leb_spec (fin_time e) (clock r)) as [Hdue|Hnot].
    2:{ exists 0%nat, p. rewrite Nat.add_0_r. split; [done|]. split; [lia|].
        split; [intros; lia|]. split; [by intros ? [= <-]|]. split; [done|].
        split; [by rewrite app_nil_r|]. split; [done|]. split; [done|].
        split; [|done]. intros x Hx. cbn in Hx. by apply elem_of_nil in Hx. }
    destruct fuel as [|fuel]; [cbn in Hfuel; lia|].
    destruct (remove_head_ok p e es Hwf Hq) as (m1 & Hrun1 & Hall1 & Hwf1 & Hq1).
    destruct (entries_slot _ _ _ Hwf He) as (-> & Hidx & Hslot).
    pose proof (qi_nodup _ _ Hq) as Hnd. rewrite fmap_cons in Hnd.
    apply NoDup_cons in Hnd as [Hni Hnd].
    pose proof (qi_handler _ _ Hq) as Hh. apply Forall_cons in Hh as [Hh _].
    destruct (timeout_handler e) as [h|] eqn:Ehand; [|done].
    set (m2 := with_all_timeouts (<[index e := set_indicator true e]> (all_timeouts m1)) m1).
    assert (wf_statics m2) as Hwf2.
    { apply wf_statics_upd; [done|by rewrite Hall1|done]. }
    assert (queue_invariants_for m2 es) as Hq2.
    { destruct Hq1 as [He1 ? ? ? ?]. constructor; try done.
      apply queue_entries_of. apply queue_entries_of in He1.
      by eapply (entries_of_insert m1 m2). }
    destruct (Hext h (with_trace (trace p ++ [EvHandler h]) (with_mem m2 p)))
      as (Hmem & Htrace & Hreads).
    set (p4 := run_handler h _) in *.
    cbn [mem trace clock_reads with_trace with_mem] in Hmem, Htrace, Hreads.
    destruct (IH fuel (S r) (with_clock_reads (S (clock_reads p4)) p4))
      as (k & p' & Hrun & Hk & Hfired & Hstop & Hreads' & Htrace' & Hwf' & Hq' & Hind & Hoth);
      cbn [mem clock_reads with_clock_reads]; rewrite ?Hmem; try done.
    { cbn in Hfuel. lia. }
    { by rewrite Hreads, Hr. }
    cbn [mem trace clock_reads with_clock_reads] in *. rewrite Hmem in Hoth.
    exists (S k), p'.
    replace (r + S k)%nat with (S r + k)%nat by lia.
    split; [|split; [cbn; lia|split; [|split; [done|split; [done|
      split; [|split; [done|split; [done|split]]]]]]]].
    + rewrite (bind_ok _ _ _ _ _ Hrun1).
      erewrite bind_ok;
        [|apply all_timeouts_upd_ok; cbn [mem with_mem]; rewrite Hall1; exact Hslot].
      erewrite bind_ok;
        [|apply all_timeouts_get_ok; cbn [mem with_mem with_all_timeouts all_timeouts];
          apply list_lookup_insert_eq; rewrite Hall1; by eapply lookup_lt_Some].
      cbn [set_indicator timeout_handler]. rewrite Ehand.
      unfold call_handler. unfold bind at 1. unfold bind at 1, emit.
      cbn [mem with_mem trace with_trace]. fold m2.
      change (with_trace (trace p ++ [EvHandler h])
                (with_mem (with_all_timeouts
                             (<[index e:=set_indicator true e]> (all_timeouts m1)) m1)
                   (with_mem m1 p)))
        with (with_trace (trace p ++ [EvHandler h]) (with_mem m2 p)).
      unfold bind at 1, GetCurrentTimestamp.
      change (fire_pending fuel (clock (clock_reads p4))
                (with_clock_reads (S (clock_reads p4)) p4) = (Ok (clock (S r + k)), p')).
      replace (clock (clock_reads p4)) with (clock (S r)) by (by rewrite Hreads, Hr).
      exact Hrun.
    + intros j x Hj Hx. destruct j as [|j]; cbn in Hx.
      * injection Hx as <-. by rewrite Nat.add_0_r.
      * replace (r + S j)%nat with (S r + j)%nat by lia. apply Hfired; [lia|done].
    + rewrite Htrace', Htrace. cbn [take].
      rewrite (fire_events_cons e h) by done. by rewrite <- app_assoc.
    + intros x Hx. cbn [take] in Hx. apply elem_of_cons in Hx as [->|Hx]; [|by apply Hind].
      destruct (decide (index e ∈ index <$> take k es)) as [Hin|Hnin].
      * exfalso. apply Hni. apply list_elem_of_fmap in Hin as (y & Ey & Hy).
        rewrite Ey. apply list_elem_of_fmap_2.
        apply elem_of_take in Hy as (i & Hi & _). by eapply list_elem_of_lookup_2.
      * rewrite (Hoth _ Hnin). subst m2. cbn.
        apply list_lookup_insert_eq. rewrite Hall1. by eapply lookup_lt_Some.
    + intros id Hid. cbn [take] in Hid. rewrite fmap_cons, not_elem_of_cons in Hid.
      destruct Hid as [Hne Hid]. rewrite (Hoth _ Hid). subst m2. cbn.
      rewrite list_lookup_insert_ne by done. by rewrite Hall1.
Qed.

(** The same loop with callbacks that only leave the statics alone,
    entered with any reading [now]: round by round. *)
Lemma fire_pending_rounds (Hks : handlers_keep_statics) es : forall fuel now p,
  wf_statics (mem p) -> queue_invariants_for (mem p) es ->
  (length es <= fuel)%nat ->
  exists (k : nat) now' p',
    fire_pending fuel now p = (Ok now', p') /\
    (k <= length es)%nat /\
    fire_rounds (take k es) (drop k es) now p now' p' /\
    (forall e, es !! k = Some e -> now' < fin_time e) /\
    wf_statics (mem p') /\ queue_invariants_for (mem p') (drop k es) /\
    (forall e, e ∈ take k es ->
       all_timeouts (mem p') !! index e = Some (set_indicator true e)) /\
    (forall id, id ∉ index <$> take k es ->
       all_timeouts (mem p') !! id = all_timeouts (mem p) !! id).
Proof.
  induction es as [|e es IH]; intros fuel now p Hwf Hq Hfuel.
  - exists 0%nat, now, p. pose proof (queue_length _ _ Hwf Hq) as Hn. cbn in Hn.
    split; [|split; [done|]].
    { destruct fuel; cbn [fire_pending]; unfold bind, gets; rewrite Hn; by cbn. }
    split; [constructor|]. split; [done|]. split; [done|]. split; [done|].
    split; [|done]. intros x Hx. cbn in Hx. by apply elem_of_nil in Hx.
  - destruct (queue_head _ _ _ Hwf Hq) as (Hn & ptr & Hptr & He).
    assert (Hstart : forall f', fire_pending f' now p =
      if fin_time e <=? now then
        match f' with
        | O => (Raise OUT_OF_FUEL, p)
        | S fuel' =>
            (remove_timeout_index 0 ;;
             store ptr (set_indicator true) ;;
             e' <- load ptr ;;
             call_handler (timeout_handler e') ;;
             now <- GetCurrentTimestamp ;;
             fire_pending fuel' now) p
        end
      else (Ok now, p)).
    { intros f'. destruct f'; cbn [fire_pending]; unfold bind at 1, gets;
        (destruct (Z.ltb_spec 0 (num_active_timeouts (mem p))); [|lia]);
        rewrite (bind_ok _ _ _ _ _ (active_timeouts_get_ok 0 _ _ Hptr));
        rewrite (bind_ok _ _ _ _ _ (load_ok _ _ _ He));
        by destruct (fin_time e <=? now). }
    rewrite Hstart. destruct (Z.leb_spec (fin_time e) now) as [Hdue|Hnot].
    2:{ exists 0%nat, now, p. split; [done|]. split; [lia|].
        split; [constructor|]. split; [by intros ? [= <-]|]. split; [done|].
        split; [done|]. split; [|done].
        intros x Hx. cbn in Hx. by apply elem_of_nil in Hx. }
    destruct fuel as [|fuel]; [cbn in Hfuel; lia|].
    destruct (remove_head_ok p e es Hwf Hq) as (m1 & Hrun1 & Hall1 & Hwf1 & Hq1).
    destruct (entries_slot _ _ _ Hwf He) as (-> & Hidx & Hslot).
    pose proof (qi_nodup _ _ Hq) as Hnd. rewrite fmap_cons in Hnd.
    apply NoDup_cons in Hnd as [Hni Hnd].
    pose proof (qi_handler _ _ Hq) as Hh. apply Forall_cons in Hh as [Hh _].
    destruct (timeout_handler e) as [h|] eqn:Ehand; [|done].
    set (m2 := with_all_timeouts (<[index e := set_indicator true e]> (all_timeouts m1)) m1).
    assert (wf_statics m2) as Hwf2.
    { apply wf_statics_upd; [done|by rewrite Hall1|done]. }
    assert (queue_invariants_for m2 es) as Hq2.
    { destruct Hq1 as [He1 ? ? ? ?]. constructor; try done.
      apply queue_entries_of. apply queue_entries_of in He1.
      by eapply (entries_of_insert m1 m2). }
    set (q := with_trace (trace p ++ [EvHandler h]) (with_mem m2 p)).
    pose proof (Hks h q) as Hmem. cbn [mem q with_trace with_mem] in Hmem.
    set (p4 := run_handler h q) in *.
    destruct (IH fuel (clock (clock_reads p4)) (with_clock_reads (S (clock_reads p4)) p4))
      as (k & now' & p' & Hrun & Hk & Hrounds & Hstop & Hwf' & Hq' & Hind & Hoth);
      cbn [mem clock_reads with_clock_reads]; rewrite ?Hmem; try done.
    { cbn in Hfuel. lia. }
    cbn [mem with_clock_reads] in Hoth. rewrite Hmem in Hoth.
    exists (S k), now', p'.
    split; [|split; [cbn; lia|split; [|split; [done|split; [done|split; [done|split]]]]]].
    + rewrite (bind_ok _ _ _ _ _ Hrun1).
      erewrite bind_ok;
        [|apply all_timeouts_upd_ok; cbn [mem with_mem]; rewrite Hall1; exact Hslot].
      erewrite bind_ok;
        [|apply all_timeouts_get_ok; cbn [mem with_mem with_all_timeouts all_timeouts];
          apply list_lookup_insert_eq; rewrite Hall1; by eapply lookup_lt_Some].
      cbn [set_indicator timeout_handler]. rewrite Ehand.
      unfold call_handler. unfold bind at 1. unfold bind at 1, emit.
      cbn [mem with_mem trace with_trace]. fold m2.
      change (with_trace (trace p ++ [EvHandler h])
                (with_mem (with_all_timeouts
                             (<[index e:=set_indicator true e]> (all_timeouts m1)) m1)
                   (with_mem m1 p)))
        with q.
      unfold bind at 1, GetCurrentTimestamp. fold p4. exact Hrun.
    + cbn [take drop]. eapply (fire_rounds_next e (take k es) (drop k es) now p h q).
      * done.
      * done.
      * rewrite take_drop. unfold round_to_callback.
        rewrite (fire_events_cons e h []) by done. subst q.
        cbn [mem errno MyProc clock_reads trace with_trace with_mem].
        split; [done|]. split; [done|]. split; [by subst m2; cbn; rewrite Hall1|].
        done.
      * exact Hrounds.
    + intros x Hx. cbn [take] in Hx. apply elem_of_cons in Hx as [->|Hx]; [|by apply Hind].
      destruct (decide (index e ∈ index <$> take k es)) as [Hin|Hnin].
      * exfalso. apply Hni. apply list_elem_of_fmap in Hin as (y & Ey & Hy).
        rewrite Ey. apply list_elem_of_fmap_2.
        apply elem_of_take in Hy as (i & Hi & _). by eapply list_elem_of_lookup_2.
      * rewrite (Hoth _ Hnin). subst m2. cbn.
        apply list_lookup_insert_eq. rewrite Hall1. by eapply lookup_lt_Some.
    + intros id Hid. cbn [take] in Hid. rewrite fmap_cons, not_elem_of_cons in Hid.
      destruct Hid as [Hne Hid]. rewrite (Hoth _ Hid). subst m2. cbn.
      rewrite list_lookup_insert_ne by done. by rewrite Hall1.
Qed.

Lemma entry_lt_fin_time a b : entry_lt a b -> fin_time a <= fin_time b.
Proof. unfold entry_lt, key_lt, key; cbn. lia. Qed.

Lemma StronglySorted_take {A} (R : relation A) k l :
  StronglySorted R l -> StronglySorted R (take k l).
Proof.
  intros Hs. revert k. induction Hs as [|x l Hs IH Hx]; intros [|k]; cbn; try constructor.
  - apply IH.
  - apply Forall_take, Hx.
Qed.

(** With callbacks that also make no call to the host through the
    module and take no time, the rounds are these: the [j]-th entry fires at
    the reading [r + j]. *)
Lemma fire_rounds_external (Hext : handlers_external) fired rest now p now' p' :
  fire_rounds fired rest now p now' p' ->
  forall r : nat, clock_reads p = S r -> now = clock r ->
    now' = clock (r + length fired) /\
    clock_reads p' = S (r + length fired) /\
    trace p' = trace p ++ fire_events fired /\
    (forall j e, fired !! j = Some e -> fin_time e <= clock (r + j)).
Proof.
  induction 1 as [rest now p|e fired rest now p h q now' p' Hdue Eh Hq Hrounds IH];
    intros r Hr Hnow.
  - cbn. rewrite Nat.add_0_r, app_nil_r. by repeat split.
  - destruct Hq as (_ & _ & _ & _ & _ & Hcr & Htr).
    destruct (Hext h q) as (_ & Htr' & Hcr').
    destruct (IH (S r)) as (Hn' & Hcr'' & Htr'' & Hfired).
    { cbn. by rewrite Hcr', Hcr, Hr. }
    { by rewrite Hcr', Hcr, Hr. }
    cbn [length]. replace (r + S (length fired))%nat with (S r + length fired)%nat by lia.
    split; [done|]. split; [done|]. split.
    + rewrite Htr''. cbn [trace with_clock_reads]. rewrite Htr', Htr.
      rewrite (fire_events_cons e h fired) by done.
      rewrite (fire_events_cons e h []) by done. by rewrite <- app_assoc.
    + intros [|j] x Hx; cbn in Hx.
      * injection Hx as <-. rewrite Nat.add_0_r. by subst now.
      * replace (r + S j)%nat with (S r + j)%nat by lia. by apply Hfired.
Qed.

(** C4, amended.  [handle_sig_alarm] fires what is due, round by round.
    Delivered with a non-empty queue [es] that satisfies the invariants,
    callbacks that leave the statics of timeout.c alone, a timer that never
    fails and fuel for [es], the handler returns.  After the latch and a
    first reading of the clock it has gone through the rounds of
    [fire_rounds] for the first [k] entries of [es]: each was the head of the
    queue and due at the reading current then; it was removed from the
    queue and its indicator was set before its callback was called; the
    clock was read again after the callback.  So the callbacks ran in the
    order of [take k es], which is strictly increasing in
    [(fin_time, index)]; the loop stopped with nothing left that is due at
    the last reading [now']; the last thing the handler did was
    [schedule_alarm(now')]; and [errno] is restored.  When the callbacks
    also leave the trace and the clock alone, the [j]-th entry fired at the
    reading [r + j] and the trace is the latch, the callbacks and
    [schedule_alarm].

    Without the condition on the callbacks the order fails: a callback may
    arm a reason for an earlier time, which then fires after it. *)
Theorem handle_sig_alarm_spec (fuel : nat) (p : process) (es : list timeout_params) :
  handlers_keep_statics -> timer_ok ->
  wf_statics (mem p) -> queue_invariants_for (mem p) es ->
  0 < num_active_timeouts (mem p) ->
  (length es <= fuel)%nat ->
  let r := clock_reads p in
  let p0 := with_clock_reads (S r)
              (with_trace (trace p ++ (if MyProc p then [EvSetLatch] else [])) p) in
  exists (k : nat) (now' : TimestampTz) (p2 p' : process),
    handle_sig_alarm fuel p = (Ok tt, p') /\
    p' = with_errno (errno p)
           (with_trace (trace p2 ++ schedule_events now' (drop k es)) p2) /\
    (k <= length es)%nat /\
    fire_rounds (take k es) (drop k es) (clock r) p0 now' p2 /\
    StronglySorted entry_lt (take k es) /\
    (forall e, e ∈ drop k es -> now' < fin_time e) /\
    (forall e, e ∈ take k es ->
       all_timeouts (mem p') !! index e = Some (set_indicator true e)) /\
    wf_statics (mem p') /\ queue_invariants_for (mem p') (drop k es) /\
    errno p' = errno p /\
    (handlers_external ->
       now' = clock (r + k) /\
       (forall j e, (j < k)%nat -> es !! j = Some e -> fin_time e <= clock (r + j)) /\
       clock_reads p' = S (r + k) /\
       trace p' = trace p ++ (if MyProc p then [EvSetLatch] else []) ++
                  fire_events (take k es) ++
                  schedule_events (clock (r + k)) (drop k es)).
Proof.
  intros Hks Ht Hwf Hq Hn Hfuel r p0.
  destruct (fire_pending_rounds Hks es fuel (clock r) p0)
    as (k & now' & p2 & Hrun & Hk & Hrounds & Hstop & Hwf2 & Hq2 & Hind & _);
    try done.
  exists k, now', p2. eexists. split; [|split; [reflexivity|]].
  - unfold handle_sig_alarm. unfold bind at 1.
    assert (when (MyProc p) (emit EvSetLatch) p =
            (Ok tt, with_trace (trace p ++ (if MyProc p then [EvSetLatch] else [])) p)) as ->.
    { destruct (MyProc p) eqn:E; cbn; unfold emit, ret; [done|].
      rewrite app_nil_r. by destruct p. }
    unfold bind at 1, gets. cbn [mem with_trace].
    destruct (Z.ltb_spec 0 (num_active_timeouts (mem p))); [|lia].
    unfold bind at 1. unfold bind at 1, GetCurrentTimestamp.
    cbn [clock_reads with_trace]. fold r. fold p0.
    rewrite (bind_ok _ _ _ _ _ Hrun).
    rewrite (schedule_alarm_run _ _ (drop k es)) by done.
    rewrite schedule_result_ok by done. reflexivity.
  - cbn [trace clock_reads mem errno with_trace with_errno].
    split; [done|]. split; [done|].
    split; [apply StronglySorted_take, (qi_sorted _ _ Hq)|].
    split; [|split; [done|split; [done|split; [done|split; [done|]]]]].
    + intros e He. destruct (drop k es) as [|x rest] eqn:Ed; [by apply elem_of_nil in He|].
      assert (es !! k = Some x) as Hx.
      { rewrite <- (Nat.add_0_r k), <- lookup_drop, Ed. done. }
      specialize (Hstop x Hx).
      apply elem_of_cons in He as [->|He]; [done|].
      pose proof (qi_sorted _ _ Hq2) as Hs. apply StronglySorted_inv in Hs as [_ Hs].
      rewrite Forall_forall in Hs. specialize (Hs e He).
      apply entry_lt_fin_time in Hs. lia.
    + intros Hext.
      destruct (fire_rounds_external Hext _ _ _ _ _ _ Hrounds r eq_refl eq_refl)
        as (Hnow' & Hcr & Htr & Hfired).
      rewrite length_take, Nat.min_l in Hnow', Hcr by done.
      split; [done|]. split.
      { intros j e Hj He. apply Hfired. by rewrite lookup_take_lt. }
      split; [done|]. rewrite Htr, Hnow'. subst p0. cbn [trace with_trace with_clock_reads].
      by rewrite <- !app_assoc.
Qed.

End Signal.

(** * Further properties

    The rest of the file is about what the claims above leave out: the array
    helpers on their own, the registry, single calls and how they compose,
    the signal handler in its corner cases, batches against sequences of
    single calls, and whole sessions. *)

(** ** More on running the monad and on sorted insertion *)

Lemma bind_ext {A B} (m : M A) (k1 k2 : A -> M B) p :
  (forall a p', k1 a p' = k2 a p') -> bind m k1 p = bind m k2 p.
Proof. intros Hk. unfold bind. destruct (m p) as [[a|?] p']; [apply Hk|done]. Qed.

Lemma bind_raise {A B} (m : M A) (k : A -> M B) p e p' :
  m p = (Raise e, p') -> bind m k p = (Raise e, p').
Proof. intros E. unfold bind. by rewrite E. Qed.

Lemma insert_sorted_head e l hd :
  head (insert_sorted e l) = Some hd -> fin_time hd <= fin_time e.
Proof.
  destruct l as [|x l]; cbn.
  - by intros [= <-].
  - destruct (decide (entry_lt e x)) as [Hlt|Hnlt]; cbn; intros [= <-]; [done|].
    unfold entry_lt, key_lt, key in Hnlt. cbn in Hnlt. lia.
Qed.

Lemma insert_sorted_nonempty e l : insert_sorted e l <> [].
Proof. destruct l as [|x l]; cbn; [done|]. by destruct (decide _). Qed.

Lemma without_insert_sorted id e l :
  index e = id -> without id (insert_sorted e l) = without id l.
Proof.
  intros He. unfold without. induction l as [|x l IH]; cbn [insert_sorted].
  - by rewrite filter_cons_False by (by intros ?).
  - destruct (decide (entry_lt e x)).
    + by rewrite filter_cons_False by (by intros ?).
    + rewrite !filter_cons. by rewrite IH.
Qed.

Lemma without_without id l : without id (without id l) = without id l.
Proof.
  unfold without. apply filter_Forall_id, Forall_forall.
  by intros x [? _]%list_elem_of_filter.
Qed.

Lemma without_not_in id l : id ∉ index <$> l -> without id l = l.
Proof.
  intros Hni. apply without_id, list_find_None, Forall_forall.
  intros x Hx Ex. apply Hni. rewrite <- Ex. by apply list_elem_of_fmap_2.
Qed.

Lemma elem_of_insert_sorted x e l : x ∈ insert_sorted e l -> x = e \/ x ∈ l.
Proof. rewrite insert_sorted_perm. by intros [->|?]%elem_of_cons; [left|right]. Qed.

Lemma elem_of_without x id l : x ∈ without id l -> x ∈ l.
Proof. by intros [_ ?]%list_elem_of_filter. Qed.

Lemma insert_sorted_forget_start e l :
  forget_start <$> insert_sorted e l =
  insert_sorted (forget_start e) (forget_start <$> l).
Proof.
  induction l as [|x l IH]; [done|]. cbn [insert_sorted fmap list_fmap].
  destruct (decide (entry_lt e x)) as [Hlt|Hnlt];
    destruct (decide (entry_lt (forget_start e) (forget_start x))) as [Hlt'|Hnlt'];
    try done.
  cbn [fmap list_fmap]. f_equal. exact IH.
Qed.

Lemma without_forget_start id l :
  forget_start <$> without id l = without id (forget_start <$> l).
Proof.
  unfold without. induction l as [|x l IH]; [done|]. cbn [fmap list_fmap].
  rewrite !filter_cons. cbn [forget_start set_start_time index].
  destruct (decide (index x <> id)); [|done]. cbn [fmap list_fmap]. by f_equal.
Qed.

Lemma armed_forget_start now now' fin e e' :
  forget_start e = forget_start e' ->
  forget_start (armed now fin e) = forget_start (armed now' fin e').
Proof. destruct e, e'. cbn. by intros [= -> _ ->]. Qed.

Lemma setitimer_calls_app l1 l2 :
  setitimer_calls (l1 ++ l2) = setitimer_calls l1 ++ setitimer_calls l2.
Proof. apply omap_app. Qed.

Lemma setitimer_calls_disable multi_insert n :
  Forall (fun v => v = itimerval_zero) (setitimer_calls (disable_events multi_insert n)).
Proof. unfold disable_events. cbn. destruct (_ || _); cbn; by repeat constructor. Qed.


Lemma empty_queue_invariants_for `{Platform} m :
  num_active_timeouts m = 0 -> queue_invariants_for m [].
Proof.
  intros Hn. constructor; try by constructor.
  - unfold queue_entries, queue. by rewrite Hn.
  - lia.
Qed.

Lemma fresh_slots_lookup (n k : nat) e :
  ((fun j => mk_timeout_params j false None 0 0) <$> seq 0 n) !! k = Some e ->
  e = mk_timeout_params k false None 0 0.
Proof.
  intros Hk. rewrite list_lookup_fmap in Hk.
  destruct (seq 0 n !! k) as [j|] eqn:Ej; [|done].
  apply lookup_seq in Ej as [-> _]. by injection Hk as <-.
Qed.

Lemma set_slot_id id e p :
  all_timeouts (mem p) !! id = Some e -> set_slot id e p = p.
Proof.
  intros E. unfold set_slot, with_mem, with_all_timeouts.
  rewrite list_insert_id by done. by destruct p as [[] ? ? ? ?].
Qed.

Lemma handler_at_upd m m' id e0 e1 :
  all_timeouts m !! id = Some e0 -> timeout_handler e1 = timeout_handler e0 ->
  all_timeouts m' = <[id := e1]> (all_timeouts m) ->
  forall x, handler_at m' x = handler_at m x.
Proof.
  intros E0 Hh Hall x. unfold handler_at. rewrite Hall.
  destruct (decide (x = id)) as [->|Hne].
  - rewrite list_lookup_insert_eq by (by eapply lookup_lt_Some). by rewrite E0.
  - by rewrite list_lookup_insert_ne.
Qed.

Section Reads.
Context `{Platform}.

Lemma latch_run p :
  when (MyProc p) (emit EvSetLatch) p =
    (Ok tt, with_trace (trace p ++ latch_events p) p).
Proof.
  unfold latch_events. destruct (MyProc p) eqn:E; cbn; unfold emit, ret; [done|].
  rewrite app_nil_r. by destruct p.
Qed.

(** The signal handler with nothing in the queue. *)
Lemma handle_sig_alarm_idle_run fuel p :
  num_active_timeouts (mem p) <= 0 ->
  handle_sig_alarm fuel p = (Ok tt, with_trace (trace p ++ latch_events p) p).
Proof.
  intros Hn. unfold handle_sig_alarm. unfold bind at 1. rewrite latch_run.
  unfold bind at 1, gets. cbn [mem with_trace].
  destruct (Z.ltb_spec 0 (num_active_timeouts (mem p))); [lia|].
  unfold bind at 1, ret at 1. done.
Qed.

(** [get_timeout_indicator] on a slot of the registry. *)
Lemma get_timeout_indicator_at id reset_indicator p e :
  all_timeouts (mem p) !! id = Some e ->
  get_timeout_indicator id reset_indicator p =
    (Ok (indicator e),
     if indicator e && reset_indicator then set_slot id (set_indicator false e) p
     else p).
Proof.
  intros E. unfold get_timeout_indicator.
  rewrite (bind_ok _ _ _ _ _ (all_timeouts_get_ok _ _ _ E)).
  destruct (indicator e); [|done]. destruct reset_indicator; cbn [andb].
  - by rewrite (bind_ok _ _ _ _ _ (all_timeouts_upd_ok _ _ _ _ E)).
  - done.
Qed.

Lemma get_timeout_start_time_at id p e :
  all_timeouts (mem p) !! id = Some e ->
  get_timeout_start_time id p = (Ok (start_time e), p).
Proof.
  intros E. unfold get_timeout_start_time.
  by rewrite (bind_ok _ _ _ _ _ (all_timeouts_get_ok _ _ _ E)).
Qed.

Lemma alarm_value_nonzero now fin : it_value (alarm_value now fin) <> mk_timeval 0 0.
Proof.
  unfold alarm_value. destruct (TimestampDifference now fin) as [secs usecs]. cbn.
  destruct (Z.eqb_spec secs 0) as [->|Hs]; cbn.
  - destruct (Z.eqb_spec usecs 0) as [->|Hu]; congruence.
  - congruence.
Qed.

End Reads.

(** ** The array helpers *)

Section ArrayHelpers.
Context `{Platform}.

(** X1.  [find_active_timeout(id)] on a queue that satisfies the
    invariants changes nothing and returns -1 exactly when no entry of the
    queue has identifier [id]; otherwise it returns the position of the
    first (and by the invariants only) such entry, which is a valid index
    into the queue, and the slot of [active_timeouts] there points to
    [all_timeouts[id]]. *)
Theorem find_active_timeout_spec (id : TimeoutId) (p : process)
    (es : list timeout_params) :
  wf_statics (mem p) -> queue_invariants_for (mem p) es ->
  exists i : Z,
    find_active_timeout id p = (Ok i, p) /\
    (id ∉ index <$> es -> i = -1) /\
    (id ∈ index <$> es ->
       0 <= i < num_active_timeouts (mem p) /\
       active_timeouts (mem p) !! Z.to_nat i = Some (Some id) /\
       (exists e, es !! Z.to_nat i = Some e /\ index e = id) /\
       (forall j e, (j < Z.to_nat i)%nat -> es !! j = Some e -> index e <> id)).
Proof.
  intros Hwf Hq. set (m := mem p) in *.
  pose proof (queue_length _ _ Hwf Hq) as Hn.
  pose proof (qi_entries _ _ Hq) as He. apply queue_entries_of in He.
  assert (Hfind : find_active_timeout id p =
    (Ok (match list_find (fun e => index e = id) es with
         | Some (j, _) => Z.of_nat j | None => -1 end), p)).
  { unfold find_active_timeout. unfold bind, gets. fold m.
    rewrite (find_active_timeout_from_ok id _ 0 p es).
    - done.
    - fold m. rewrite drop_0. exact He.
    - lia. }
  eexists. split; [exact Hfind|].
  destruct (list_find (fun e => index e = id) es) as [[j e]|] eqn:Ef.
  - apply list_find_Some in Ef as (Hj & Hid & Hfirst).
    pose proof (lookup_lt_Some _ _ _ Hj) as Hjl.
    split.
    + intros Hni. exfalso. apply Hni. rewrite <- Hid.
      apply list_elem_of_fmap_2. by eapply list_elem_of_lookup_2.
    + intros _. rewrite Nat2Z.id. split; [lia|]. split; [|split].
      * destruct (entries_of_slots _ _ _ Hwf He) as [Hptrs _].
        assert (queue m !! j = Some (Some id)) as Hqj.
        { rewrite Hptrs, list_lookup_fmap, Hj. cbn. by rewrite Hid. }
        unfold queue in Hqj. by apply lookup_take_Some in Hqj as [? _].
      * by exists e.
      * intros j' e' Hlt Hj'. by apply (Hfirst j' e').
  - split; [done|]. intros Hin. exfalso.
    apply list_elem_of_fmap in Hin as (e & -> & Hin).
    apply list_find_None in Ef. rewrite Forall_forall in Ef. by apply (Ef e).
Qed.

(** X2.  [insert_timeout(id, index)].  An [index] outside
    [0 .. num_active_timeouts] raises FATAL with both numbers and changes
    nothing.  An [index] inside, with room in the array, puts a pointer to
    [all_timeouts[id]] at that position of the queue, moves the entries from
    there on up by one and adds one to [num_active_timeouts]; the registry
    is not touched.  With the array full the store goes past its end
    (UNDEFINED in the model): the function does not check for room, which
    its only caller [enable_timeout] has made by removing [id] first. *)
Theorem insert_timeout_spec (id : TimeoutId) (idx : Z) (p : process) :
  let n := num_active_timeouts (mem p) in
  ((idx < 0 \/ n < idx) ->
   insert_timeout id idx p =
     (Raise (FATAL "timeout index %d out of range 0..%d" [idx; n]), p)) /\
  (0 <= idx <= n -> n < Z.of_nat (length (active_timeouts (mem p))) ->
   exists p',
     insert_timeout id idx p = (Ok tt, p') /\
     num_active_timeouts (mem p') = n + 1 /\
     queue (mem p') =
       take (Z.to_nat idx) (queue (mem p)) ++
       Some id :: drop (Z.to_nat idx) (queue (mem p)) /\
     length (active_timeouts (mem p')) = length (active_timeouts (mem p)) /\
     all_timeouts (mem p') = all_timeouts (mem p) /\
     trace p' = trace p) /\
  (0 <= idx <= n -> n = Z.of_nat (length (active_timeouts (mem p))) ->
   (insert_timeout id idx p).1 = Raise UNDEFINED).
Proof.
  intros n. split; [|split].
  - intros Hr. unfold insert_timeout, bind, gets. fold n.
    destruct (Z.ltb_spec idx 0); [done|].
    destruct (Z.ltb_spec n idx); [done|lia].
  - intros Hr Hroom.
    destruct (insert_timeout_ok id (Z.to_nat idx) p) as (a' & Hrun & Hla & Hq);
      fold n; try lia.
    rewrite Z2Nat.id in Hrun by lia. fold n in Hrun, Hq.
    eexists. split; [exact Hrun|]. cbn. split; [done|]. split; [|done].
    unfold queue at 1. cbn.
    by replace (Z.to_nat (n + 1)) with (S (Z.to_nat n)) by lia.
  - intros Hr Hfull. unfold insert_timeout, bind at 1, gets. fold n.
    unfold bind at 1.
    destruct (Z.ltb_spec idx 0); [lia|]. destruct (Z.ltb_spec n idx); [lia|]. cbn [orb ret].
    destruct (decide (idx = n)) as [->|Hne].
    + replace (Z.to_nat (n - n)) with 0%nat by lia. cbn [shift_up_from].
      unfold bind at 1. cbn [ret]. unfold bind at 1.
      unfold active_timeouts_set, bind at 1, active_timeouts_get.
      destruct (Z.ltb_spec n 0); [done|].
      rewrite lookup_ge_None_2 by lia. done.
    + replace (Z.to_nat (n - idx)) with (S (Z.to_nat (n - idx) - 1)) by lia.
      cbn [shift_up_from]. unfold bind at 1, bind at 1.
      unfold active_timeouts_get at 1.
      destruct (Z.ltb_spec (n - 1) 0); [lia|].
      destruct (active_timeouts (mem p) !! Z.to_nat (n - 1)) as [ptr|] eqn:E; [|done].
      unfold bind at 1. unfold active_timeouts_set, bind at 1, active_timeouts_get.
      replace (n - 1 + 1) with n by lia.
      destruct (Z.ltb_spec n 0); [done|].
      rewrite lookup_ge_None_2 by lia. done.
Qed.

(** X3.  [remove_timeout_index(index)].  An [index] outside
    [0 .. num_active_timeouts - 1] raises FATAL with both numbers and
    changes nothing; in particular removing from an empty queue is FATAL.
    An [index] inside deletes that position from the queue, moving the
    entries behind it down by one, and takes one off [num_active_timeouts];
    the registry is not touched. *)
Theorem remove_timeout_index_spec (idx : Z) (p : process) :
  let n := num_active_timeouts (mem p) in
  ((idx < 0 \/ n <= idx) ->
   remove_timeout_index idx p =
     (Raise (FATAL "timeout index %d out of range 0..%d" [idx; n - 1]), p)) /\
  (0 <= idx < n -> n <= Z.of_nat (length (active_timeouts (mem p))) ->
   exists p',
     remove_timeout_index idx p = (Ok tt, p') /\
     num_active_timeouts (mem p') = n - 1 /\
     queue (mem p') = delete (Z.to_nat idx) (queue (mem p)) /\
     length (active_timeouts (mem p')) = length (active_timeouts (mem p)) /\
     all_timeouts (mem p') = all_timeouts (mem p) /\
     trace p' = trace p).
Proof.
  intros n. split.
  - intros Hr. unfold remove_timeout_index, bind, gets. fold n.
    destruct (Z.ltb_spec idx 0); [done|].
    destruct (Z.leb_spec n idx); [done|lia].
  - intros Hr Hlen.
    destruct (remove_timeout_index_ok (Z.to_nat idx) p) as (a' & Hrun & Hla & Hq);
      fold n; try lia.
    rewrite Z2Nat.id in Hrun by lia. fold n in Hrun, Hq.
    eexists. split; [exact Hrun|]. cbn. split; [done|]. split; [|done].
    unfold queue at 1. cbn.
    by replace (Z.to_nat (n - 1)) with (Z.to_nat n - 1)%nat by lia.
Qed.

(** X4.  Inserting at a position and removing at the same position gives
    the queue back: [insert_timeout(id, index)] followed by
    [remove_timeout_index(index)] returns and leaves [num_active_timeouts],
    the queue and the registry as they were. *)
Theorem insert_remove_round_trip (id : TimeoutId) (idx : Z) (p : process) :
  let n := num_active_timeouts (mem p) in
  0 <= idx <= n -> n < Z.of_nat (length (active_timeouts (mem p))) ->
  exists p',
    (insert_timeout id idx ;; remove_timeout_index idx) p = (Ok tt, p') /\
    num_active_timeouts (mem p') = n /\
    queue (mem p') = queue (mem p) /\
    all_timeouts (mem p') = all_timeouts (mem p) /\
    trace p' = trace p.
Proof.
  intros n Hr Hroom.
  destruct (insert_timeout_ok id (Z.to_nat idx) p) as (a' & Hrun & Hla & Hq);
    fold n; try lia.
  rewrite Z2Nat.id in Hrun by lia. fold n in Hrun.
  set (p1 := with_mem _ p) in Hrun.
  destruct (remove_timeout_index_ok (Z.to_nat idx) p1) as (a'' & Hrun2 & Hla2 & Hq2);
    cbn; try lia.
  rewrite Z2Nat.id in Hrun2 by lia.
  eexists. split; [|split; [|split; [|split]]].
  - rewrite (bind_ok _ _ _ _ _ Hrun). exact Hrun2.
  - cbn. lia.
  - unfold queue at 1. cbn.
    replace (Z.to_nat (n + 1 - 1)) with (Z.to_nat (num_active_timeouts (mem p1)) - 1)%nat
      by (cbn; lia).
    rewrite Hq2. unfold queue at 1. cbn.
    replace (Z.to_nat (n + 1)) with (S (Z.to_nat n)) by lia. fold n in Hq. rewrite Hq.
    assert (length (take (Z.to_nat idx) (queue (mem p))) = Z.to_nat idx) as Hl.
    { rewrite length_take. unfold queue. rewrite length_take. fold n. lia. }
    rewrite <- Hl at 1. rewrite delete_middle. apply take_drop.
  - done.
  - done.
Qed.

End ArrayHelpers.

(** ** More on the registry *)

Section RegistryMore.
Context `{Platform}.

(** [InitializeTimeouts] on arrays of the declared size. *)
Lemma InitializeTimeouts_run p :
  length (all_timeouts (mem p)) = MAX_TIMEOUTS ->
  length (active_timeouts (mem p)) = MAX_TIMEOUTS ->
  let m' := mk_statics
              ((fun j => mk_timeout_params j false None 0 0) <$> seq 0 MAX_TIMEOUTS)
              true 0 (active_timeouts (mem p)) in
  InitializeTimeouts p =
    (Ok tt, mk_process m' (errno p) (MyProc p) (clock_reads p) (trace p ++ [EvPqsignal])) /\
  wf_statics m' /\ queue_invariants_for m' [] /\
  (forall id, ~ registered m' id).
Proof.
  intros Hall Hact m'. split; [|split; [|split]].
  - unfold InitializeTimeouts.
    unfold bind at 1, modify at 1.
    erewrite bind_ok; [|apply (InitializeTimeouts_from_ok MAX_TIMEOUTS 0); cbn; lia].
    unfold bind at 1, modify, emit. cbn [mem with_mem with_all_timeouts with_num_active
      all_timeouts all_timeouts_initialized num_active_timeouts active_timeouts].
    by rewrite take_0, app_nil_l, Nat.add_0_l, <- Hall, drop_all, app_nil_r, Hall.
  - constructor; cbn; try done.
    + by rewrite length_fmap, length_seq.
    + intros k e Hk. by rewrite (fresh_slots_lookup _ _ _ Hk).
  - constructor; cbn; try done; try constructor; lia.
  - intros id (e & E & Hh). cbn in E. by rewrite (fresh_slots_lookup _ _ _ E) in Hh.
Qed.

(** [RegisterTimeout] of a predefined reason. *)
Lemma RegisterTimeout_predefined_run id handler p e :
  wf_statics (mem p) -> (id < USER_TIMEOUT)%nat ->
  all_timeouts (mem p) !! id = Some e ->
  RegisterTimeout id handler p =
    if USE_ASSERT_CHECKING && bool_decide (timeout_handler e <> None)
    then (Raise TRAP, p)
    else (Ok id, set_slot id (set_timeout_handler handler e) p).
Proof.
  intros Hwf Hid E. unfold RegisterTimeout.
  rewrite (bind_ok _ _ _ _ _ (Assert_initialized_ok _ Hwf)).
  destruct (Nat.leb_spec USER_TIMEOUT id); [lia|].
  unfold bind at 1, ret at 1.
  destruct USE_ASSERT_CHECKING eqn:Ea; cbn [andb].
  - destruct (decide (timeout_handler e = None)) as [Hn|Hn].
    + rewrite bool_decide_eq_false_2 by (by intros ?).
      apply RegisterTimeout_at; by auto.
    + rewrite bool_decide_eq_true_2 by done.
      unfold bind at 1, Assert. rewrite Ea. unfold bind at 1.
      rewrite (bind_ok _ _ _ _ _ (all_timeouts_get_ok _ _ _ E)).
      unfold ret at 1. by rewrite bool_decide_eq_false_2.
  - apply RegisterTimeout_at; [done|done|]. by rewrite Ea.
Qed.

(** The allocation of a user-defined reason in closed form. *)
Lemma RegisterTimeout_user_run id handler p :
  wf_statics (mem p) -> (USER_TIMEOUT <= MAX_TIMEOUTS)%nat -> (USER_TIMEOUT <= id)%nat ->
  RegisterTimeout id handler p =
    match list_find (fun e => timeout_handler e = None)
            (take (MAX_TIMEOUTS - USER_TIMEOUT) (drop USER_TIMEOUT (all_timeouts (mem p)))) with
    | Some (j, e) =>
        (Ok (USER_TIMEOUT + j)%nat,
         set_slot (USER_TIMEOUT + j) (set_timeout_handler handler e) p)
    | None => (Raise (FATAL "cannot add more timeout reasons" []), p)
    end.
Proof.
  intros Hwf HU Hid. pose proof (wf_all_length _ Hwf) as Hlen.
  assert (Hscan := RegisterTimeout_scan_ok (MAX_TIMEOUTS - USER_TIMEOUT)
                     USER_TIMEOUT p ltac:(lia)).
  unfold RegisterTimeout.
  rewrite (bind_ok _ _ _ _ _ (Assert_initialized_ok _ Hwf)).
  destruct (Nat.leb_spec USER_TIMEOUT id); [|lia].
  unfold bind at 1. unfold bind at 1. rewrite Hscan.
  destruct (list_find _ _) as [[j e]|] eqn:Ef.
  - apply list_find_Some in Ef as (Hj & Hnone & _).
    pose proof (lookup_lt_Some _ _ _ Hj) as Hjl.
    rewrite length_take, length_drop in Hjl.
    rewrite lookup_take_lt, lookup_drop in Hj by lia.
    destruct (Nat.leb_spec MAX_TIMEOUTS (USER_TIMEOUT + j)); [lia|].
    unfold ret at 1. apply RegisterTimeout_at; auto.
  - replace (USER_TIMEOUT + (MAX_TIMEOUTS - USER_TIMEOUT))%nat with MAX_TIMEOUTS by lia.
    destruct (Nat.leb_spec MAX_TIMEOUTS MAX_TIMEOUTS); [|lia]. reflexivity.
Qed.

(** The three ways [RegisterTimeout] can end on an initialized module. *)
Lemma RegisterTimeout_outcome id handler p :
  wf_statics (mem p) -> (USER_TIMEOUT <= MAX_TIMEOUTS)%nat ->
  RegisterTimeout id handler p = (Raise TRAP, p) \/
  RegisterTimeout id handler p =
    (Raise (FATAL "cannot add more timeout reasons" []), p) \/
  exists s e,
    all_timeouts (mem p) !! s = Some e /\
    RegisterTimeout id handler p = (Ok s, set_slot s (set_timeout_handler handler e) p).
Proof.
  intros Hwf HU. pose proof (wf_all_length _ Hwf) as Hlen.
  destruct (Nat.le_gt_cases USER_TIMEOUT id) as [Hid|Hid].
  - rewrite RegisterTimeout_user_run by done.
    destruct (list_find _ _) as [[j e]|] eqn:Ef; [|by right; left].
    right; right. apply list_find_Some in Ef as (Hj & _ & _).
    pose proof (lookup_lt_Some _ _ _ Hj) as Hjl.
    rewrite length_take, length_drop in Hjl.
    rewrite lookup_take_lt, lookup_drop in Hj by lia. by eexists _, e.
  - destruct (lookup_lt_is_Some_2 (all_timeouts (mem p)) id ltac:(lia)) as [e E].
    pose proof (RegisterTimeout_predefined_run id handler p e Hwf Hid E) as Hr.
    destruct (USE_ASSERT_CHECKING && bool_decide (timeout_handler e <> None));
      [by left|]. right; right. by exists id, e.
Qed.

(** X5.  [InitializeTimeouts], first or repeated, on arrays of the
    declared size.  It returns; its only call outside the file is
    [pqsignal]: the clock is not read and the timer is not touched.  Every
    slot [i] of the registry is reset to [(i, false, NULL, 0, 0)] and
    [num_active_timeouts] to 0 whatever they held, [active_timeouts] is left
    alone.  So afterwards the statics are well-formed, the queue is empty
    and no reason is registered; every indicator reads false and every
    start time reads 0, also for a reason registered since; and a SIGALRM
    still pending from before only sets the latch. *)
Theorem InitializeTimeouts_spec (p : process) :
  length (all_timeouts (mem p)) = MAX_TIMEOUTS ->
  length (active_timeouts (mem p)) = MAX_TIMEOUTS ->
  (USER_TIMEOUT <= MAX_TIMEOUTS)%nat ->
  exists p1,
    InitializeTimeouts p = (Ok tt, p1) /\
    trace p1 = trace p ++ [EvPqsignal] /\
    clock_reads p1 = clock_reads p /\
    active_timeouts (mem p1) = active_timeouts (mem p) /\
    wf_statics (mem p1) /\ queue_invariants_for (mem p1) [] /\
    (forall id, ~ registered (mem p1) id) /\
    (forall id, (id < MAX_TIMEOUTS)%nat ->
       all_timeouts (mem p1) !! id = Some (mk_timeout_params id false None 0 0)) /\
    (forall id reset_indicator, (id < MAX_TIMEOUTS)%nat ->
       get_timeout_indicator id reset_indicator p1 = (Ok false, p1) /\
       get_timeout_start_time id p1 = (Ok 0, p1)) /\
    (forall id handler s p2 reset_indicator,
       RegisterTimeout id handler p1 = (Ok s, p2) ->
       get_timeout_indicator s reset_indicator p2 = (Ok false, p2) /\
       get_timeout_start_time s p2 = (Ok 0, p2)) /\
    (forall fuel,
       handle_sig_alarm fuel p1 =
         (Ok tt, with_trace (trace p1 ++ (if MyProc p1 then [EvSetLatch] else [])) p1)).
Proof.
  intros Hall Hact HU.
  destruct (InitializeTimeouts_run p Hall Hact) as (Hrun & Hwf & Hq & Hnone).
  eexists. split; [exact Hrun|]. set (p1 := mk_process _ _ _ _ _) in *.
  assert (Hslot : forall id, (id < MAX_TIMEOUTS)%nat ->
            all_timeouts (mem p1) !! id = Some (mk_timeout_params id false None 0 0)).
  { intros id Hid. cbn. rewrite list_lookup_fmap, lookup_seq_lt by done. done. }
  split; [done|]. split; [done|]. split; [done|]. split; [done|]. split; [done|].
  split; [done|]. split; [done|]. split; [|split].
  - intros id reset Hid. specialize (Hslot id Hid). split.
    + by rewrite (get_timeout_indicator_at _ reset _ _ Hslot).
    + by rewrite (get_timeout_start_time_at _ _ _ Hslot).
  - intros id handler s p2 reset Hreg.
    destruct (RegisterTimeout_outcome id handler p1 Hwf HU)
      as [Hr|[Hr|(s' & e0 & E0 & Hr)]]; rewrite Hr in Hreg; try done.
    injection Hreg as <- <-.
    assert (s' < MAX_TIMEOUTS)%nat as Hlt.
    { rewrite <- (wf_all_length _ Hwf). exact (lookup_lt_Some _ _ _ E0). }
    rewrite (Hslot _ Hlt) in E0. injection E0 as <-.
    set (p2 := set_slot _ _ _).
    assert (all_timeouts (mem p2) !! s' =
            Some (set_timeout_handler handler (mk_timeout_params s' false None 0 0))) as E2.
    { cbn. apply list_lookup_insert_eq. by rewrite length_fmap, length_seq. }
    split.
    + by rewrite (get_timeout_indicator_at _ reset _ _ E2).
    + by rewrite (get_timeout_start_time_at _ _ _ E2).
  - intros fuel. by apply handle_sig_alarm_idle_run.
Qed.

(** X6.  Registering a predefined reason that already has a callback.
    The function asserts that the slot is unset: a build with assertions
    traps and changes nothing; a build without them returns [id] and
    replaces the callback, whatever [handler] is. *)
Theorem RegisterTimeout_reregister (id : TimeoutId)
    (handler : option timeout_handler_proc) (p : process) (e : timeout_params) :
  wf_statics (mem p) -> (id < USER_TIMEOUT)%nat ->
  all_timeouts (mem p) !! id = Some e -> timeout_handler e <> None ->
  RegisterTimeout id handler p =
    if USE_ASSERT_CHECKING then (Raise TRAP, p)
    else (Ok id, set_slot id (set_timeout_handler handler e) p).
Proof.
  intros Hwf Hid E Hh.
  rewrite (RegisterTimeout_predefined_run id handler p e Hwf Hid E).
  rewrite bool_decide_eq_true_2 by done. by rewrite andb_true_r.
Qed.

(** X7.  Allocating a user-defined reason with a NULL callback allocates
    nothing: the call leaves the process exactly as it was, since the slot
    it returns still counts as free.  And what an allocation returns does
    not depend on its arguments: from the same state every call with
    [id >= USER_TIMEOUT] returns the same slot, or fails the same way,
    whatever [id] and whatever the callback. *)
Theorem RegisterTimeout_null_handler (id : TimeoutId) (p : process) :
  wf_statics (mem p) -> (USER_TIMEOUT <= MAX_TIMEOUTS)%nat -> (USER_TIMEOUT <= id)%nat ->
  (RegisterTimeout id None p).2 = p /\
  (forall id' handler, (USER_TIMEOUT <= id')%nat ->
     (RegisterTimeout id' handler p).1 = (RegisterTimeout id None p).1).
Proof.
  intros Hwf HU Hid. pose proof (wf_all_length _ Hwf) as Hlen. split.
  - rewrite RegisterTimeout_user_run by done.
    destruct (list_find _ _) as [[j e]|] eqn:Ef; [|done]. cbn.
    apply list_find_Some in Ef as (Hj & Hnone & _).
    pose proof (lookup_lt_Some _ _ _ Hj) as Hjl.
    rewrite length_take, length_drop in Hjl.
    rewrite lookup_take_lt, lookup_drop in Hj by lia.
    apply set_slot_id. rewrite Hj. f_equal. destruct e; cbn in *. by subst.
  - intros id' handler Hid'. rewrite !RegisterTimeout_user_run by done.
    by destruct (list_find _ _) as [[j e]|].
Qed.

(** X8.  A user-defined identifier is handed out once.  When an allocation
    with a non-NULL callback returns slot [s1], that slot was free, lies in
    [USER_TIMEOUT .. MAX_TIMEOUTS - 1], now holds the callback, and no other
    slot has changed; the next allocation returns a slot above [s1] or
    fails with FATAL because none is left. *)
Theorem RegisterTimeout_user_distinct (id1 id2 : TimeoutId) (h1 : timeout_handler_proc)
    (handler2 : option timeout_handler_proc) (p : process) :
  wf_statics (mem p) -> (USER_TIMEOUT <= MAX_TIMEOUTS)%nat ->
  (USER_TIMEOUT <= id1)%nat -> (USER_TIMEOUT <= id2)%nat ->
  forall s1 p1,
  RegisterTimeout id1 (Some h1) p = (Ok s1, p1) ->
  (USER_TIMEOUT <= s1 < MAX_TIMEOUTS)%nat /\
  ~ registered (mem p) s1 /\
  handler_at (mem p1) s1 = Some h1 /\
  (forall x, x <> s1 -> all_timeouts (mem p1) !! x = all_timeouts (mem p) !! x) /\
  wf_statics (mem p1) /\
  ((exists s2 p2, RegisterTimeout id2 handler2 p1 = (Ok s2, p2) /\
                  (s1 < s2 < MAX_TIMEOUTS)%nat) \/
   RegisterTimeout id2 handler2 p1 =
     (Raise (FATAL "cannot add more timeout reasons" []), p1)).
Proof.
  intros Hwf HU Hid1 Hid2 s1 p1 Hrun. pose proof (wf_all_length _ Hwf) as Hlen.
  rewrite RegisterTimeout_user_run in Hrun by done.
  destruct (list_find _ _) as [[j e]|] eqn:Ef; [|done].
  injection Hrun as <- <-.
  apply list_find_Some in Ef as (Hj & Hnone & Hbefore).
  pose proof (lookup_lt_Some _ _ _ Hj) as Hjl.
  rewrite length_take, length_drop in Hjl.
  rewrite lookup_take_lt, lookup_drop in Hj by lia.
  set (s1 := (USER_TIMEOUT + j)%nat) in *.
  assert (wf_statics (mem (set_slot s1 (set_timeout_handler (Some h1) e) p))) as Hwf1
    by (by apply wf_statics_upd).
  split; [lia|]. split; [|split; [|split; [|split; [done|]]]].
  - intros (x & Ex & Hx). congruence.
  - unfold handler_at. cbn. by rewrite list_lookup_insert_eq by lia.
  - intros x Hx. cbn. by rewrite list_lookup_insert_ne.
  - rewrite RegisterTimeout_user_run by done.
    destruct (list_find _ _) as [[j2 e2]|] eqn:Ef2; [|by right].
    left. eexists _, _. split; [reflexivity|].
    apply list_find_Some in Ef2 as (Hj2 & Hnone2 & _).
    pose proof (lookup_lt_Some _ _ _ Hj2) as Hjl2.
    rewrite length_take, length_drop in Hjl2. cbn in Hjl2. rewrite length_insert in Hjl2.
    rewrite lookup_take_lt, lookup_drop in Hj2 by lia. cbn in Hj2.
    destruct (Nat.lt_trichotomy j2 j) as [Hlt|[->|Hgt]]; [| |lia].
    + rewrite list_lookup_insert_ne in Hj2 by (unfold s1; lia).
      exfalso. apply (Hbefore j2 e2); [|lia|done].
      by rewrite lookup_take_lt, lookup_drop by lia.
    + fold s1 in Hj2. rewrite list_lookup_insert_eq in Hj2 by lia.
      injection Hj2 as <-. done.
Qed.

(** X9.  [RegisterTimeout] writes one callback and nothing else.  However
    it ends, [errno], the clock, the trace and the initialization flag are
    as before, and every slot keeps its [index], [indicator], [start_time]
    and [fin_time]; only the slot that is returned has its callback
    replaced by [handler].  When it does not return a slot (it trapped or
    raised FATAL) the process is exactly as it was. *)
Theorem RegisterTimeout_writes_one_handler (id : TimeoutId)
    (handler : option timeout_handler_proc) (p : process) :
  wf_statics (mem p) -> (USER_TIMEOUT <= MAX_TIMEOUTS)%nat ->
  let r := (RegisterTimeout id handler p).1 in
  let p' := (RegisterTimeout id handler p).2 in
  errno p' = errno p /\ MyProc p' = MyProc p /\ clock_reads p' = clock_reads p /\
  trace p' = trace p /\
  all_timeouts_initialized (mem p') = all_timeouts_initialized (mem p) /\
  length (all_timeouts (mem p')) = length (all_timeouts (mem p)) /\
  (forall x e, all_timeouts (mem p) !! x = Some e ->
     exists e', all_timeouts (mem p') !! x = Some e' /\
       index e' = index e /\ indicator e' = indicator e /\
       start_time e' = start_time e /\ fin_time e' = fin_time e /\
       (r <> Ok x -> e' = e) /\
       (r = Ok x -> timeout_handler e' = handler)) /\
  ((forall s, r <> Ok s) -> p' = p).
Proof.
  intros Hwf HU r p'.
  destruct (RegisterTimeout_outcome id handler p Hwf HU)
    as [Hr|[Hr|(s & e0 & E0 & Hr)]]; subst r p'; rewrite Hr; cbn [fst snd].
  1,2: repeat split; try done; intros x e E; exists e; by repeat split.
  unfold set_slot. cbn [mem errno MyProc clock_reads trace with_mem with_all_timeouts
                        all_timeouts all_timeouts_initialized].
  split; [done|]. split; [done|]. split; [done|]. split; [done|]. split; [done|].
  split; [by rewrite length_insert|]. split.
  - intros x e E. destruct (decide (x = s)) as [->|Hne].
    + exists (set_timeout_handler handler e0).
      rewrite list_lookup_insert_eq by (by eapply lookup_lt_Some).
      assert (e0 = e) as -> by congruence. by repeat split.
    + exists e. rewrite list_lookup_insert_ne by done.
      repeat split; try done. intros [= ->]. done.
  - intros Hno. by destruct (Hno s).
Qed.

Lemma register_each_run hs : forall (j : nat) p,
  wf_statics (mem p) -> (USER_TIMEOUT <= MAX_TIMEOUTS)%nat ->
  users_taken j (mem p) ->
  (USER_TIMEOUT + j + length hs <= MAX_TIMEOUTS)%nat ->
  exists p',
    register_each hs p = (Ok (seq (USER_TIMEOUT + j) (length hs)), p') /\
    wf_statics (mem p') /\ users_taken (j + length hs) (mem p').
Proof.
  induction hs as [|h hs IH]; intros j p Hwf HU Htaken Hroom.
  - exists p. cbn. unfold ret. by rewrite Nat.add_0_r.
  - cbn [length] in Hroom. pose proof (wf_all_length _ Hwf) as Hlen.
    destruct (lookup_lt_is_Some_2 (all_timeouts (mem p)) (USER_TIMEOUT + j) ltac:(lia))
      as [e E].
    assert (list_find (fun e => timeout_handler e = None)
              (take (MAX_TIMEOUTS - USER_TIMEOUT)
                 (drop USER_TIMEOUT (all_timeouts (mem p)))) = Some (j, e)) as Hf.
    { apply list_find_Some. split; [|split].
      - by rewrite lookup_take_lt, lookup_drop by lia.
      - apply (Htaken (USER_TIMEOUT + j)%nat e); [lia|done|lia].
      - intros i y Hi Hlt Hy. rewrite lookup_take_lt, lookup_drop in Hi by lia.
        apply (Htaken (USER_TIMEOUT + i)%nat y) in Hy; [lia|lia|done]. }
    pose proof (RegisterTimeout_user_run USER_TIMEOUT (Some h) p Hwf HU (le_n _)) as Hrun.
    rewrite Hf in Hrun.
    set (p1 := set_slot _ _ p) in Hrun.
    destruct (IH (S j) p1) as (p' & Hrest & Hwf' & Htaken'); try done.
    { by apply wf_statics_upd. }
    { intros s x Hs Hx. cbn in Hx. destruct (decide (s = USER_TIMEOUT + j)%nat) as [->|Hne].
      - rewrite list_lookup_insert_eq in Hx by lia. injection Hx as <-. cbn.
        split; [done|lia].
      - rewrite list_lookup_insert_ne in Hx by done.
        rewrite (Htaken s x Hs Hx). lia. }
    { lia. }
    exists p'. split; [|split; [done|]].
    + cbn [register_each length seq]. rewrite (bind_ok _ _ _ _ _ Hrun).
      replace (USER_TIMEOUT + S j)%nat with (S (USER_TIMEOUT + j)) in Hrest by lia.
      by rewrite (bind_ok _ _ _ _ _ Hrest).
    + cbn [length]. by replace (j + S (length hs))%nat with (S j + length hs)%nat by lia.
Qed.

(** X10.  The capacity for user-defined reasons is
    [MAX_TIMEOUTS - USER_TIMEOUT].  On a module whose user-defined slots are
    all free, as after [InitializeTimeouts], allocating one reason after
    the other returns [USER_TIMEOUT], [USER_TIMEOUT + 1], ... in this order
    as long as at most that many are asked for; asking for one more raises
    FATAL. *)
Theorem user_timeouts_capacity (hs : list timeout_handler_proc) (p : process) :
  wf_statics (mem p) -> (USER_TIMEOUT <= MAX_TIMEOUTS)%nat ->
  (forall s e, (USER_TIMEOUT <= s < MAX_TIMEOUTS)%nat ->
     all_timeouts (mem p) !! s = Some e -> timeout_handler e = None) ->
  ((length hs <= MAX_TIMEOUTS - USER_TIMEOUT)%nat ->
   (register_each hs p).1 = Ok (seq USER_TIMEOUT (length hs))) /\
  ((MAX_TIMEOUTS - USER_TIMEOUT < length hs)%nat ->
   (register_each hs p).1 = Raise (FATAL "cannot add more timeout reasons" [])).
Proof.
  intros Hwf HU Hfree.
  assert (users_taken 0 (mem p)) as Htaken.
  { intros s e Hs E. split; [lia|]. intros _. by apply (Hfree s e). }
  split.
  - intros Hlen. destruct (register_each_run hs 0 p) as (p' & Hrun & _); try done; [lia|].
    rewrite Hrun. cbn. by rewrite Nat.add_0_r.
  - intros Hlen.
    set (n := (MAX_TIMEOUTS - USER_TIMEOUT)%nat) in *.
    rewrite <- (take_drop n hs).
    assert (length (take n hs) = n) as Hn by (rewrite length_take; lia).
    destruct (drop n hs) as [|h rest] eqn:Ed.
    { apply (f_equal length) in Ed. rewrite length_drop in Ed. cbn in Ed. lia. }
    generalize dependent (take n hs). intros pre Hn. clear Ed Hlen.
    assert (forall pre (j : nat) q, wf_statics (mem q) -> users_taken j (mem q) ->
              (USER_TIMEOUT + j + length pre = MAX_TIMEOUTS)%nat ->
              (register_each (pre ++ h :: rest) q).1 =
                Raise (FATAL "cannot add more timeout reasons" [])) as Hgen.
    { clear pre Hn. induction pre as [|x pre IH]; intros j q Hwfq Htq Hj.
      - cbn [app register_each length] in *.
        pose proof (RegisterTimeout_user_run USER_TIMEOUT (Some h) q Hwfq HU (le_n _))
          as Hrun.
        assert (list_find (fun e => timeout_handler e = None)
                  (take (MAX_TIMEOUTS - USER_TIMEOUT)
                     (drop USER_TIMEOUT (all_timeouts (mem q)))) = None) as Hf.
        { apply list_find_None, Forall_forall. intros y Hy Hnone.
          apply list_elem_of_lookup in Hy as [i Hi].
          pose proof (lookup_lt_Some _ _ _ Hi) as Hil.
          rewrite length_take, length_drop in Hil.
          rewrite lookup_take_lt, lookup_drop in Hi by lia.
          apply (Htq (USER_TIMEOUT + i)%nat y) in Hnone; [lia|lia|done]. }
        rewrite Hf in Hrun. unfold bind. by rewrite Hrun.
      - cbn [app length] in *.
        destruct (register_each_run [x] j q) as (q' & Hrun & Hwf' & Ht'); try done;
          [cbn; lia|].
        cbn [register_each length seq] in Hrun.
        cbn [register_each]. unfold bind at 1. unfold bind at 1 in Hrun.
        destruct (RegisterTimeout USER_TIMEOUT (Some x) q) as [[s|?] q1]; [|done].
        cbn in Hrun. unfold ret in Hrun. injection Hrun as -> ->.
        specialize (IH (j + 1)%nat q' Hwf' Ht' ltac:(lia)).
        unfold bind at 1. by destruct (register_each (pre ++ h :: rest) q') as [[?|?] ?];
          cbn in IH; simplify_eq. }
    apply (Hgen pre 0%nat p); [done|done|lia].
Qed.

End RegistryMore.

(** ** More on single calls *)

Section SingleCalls.
Context `{Platform}.

(** X11.  [enable_timeout_at(id, fin_time)] on a registered [id] and a
    host whose timer never fails.  It returns after one clock reading
    [now].  The queue holds the entries it held for other identifiers, in
    their old order, and one entry for [id], placed before the first entry
    with a larger [(fin_time, index)]; in the registry only slot [id] has
    changed, to indicator false, [start_time = now] and the new [fin_time].
    The last thing the call did was to arm the timer for the head of the new
    queue, whose deadline is the new one or an earlier one, with a value
    that is not zero. *)
Theorem enable_timeout_at_spec (id : TimeoutId) (fin : TimestampTz) (p : process)
    (es : list timeout_params) (e0 : timeout_params) :
  wf_statics (mem p) -> queue_invariants_for (mem p) es ->
  all_timeouts (mem p) !! id = Some e0 -> timeout_handler e0 <> None ->
  timer_ok ->
  let now := clock (clock_reads p) in
  let e1 := mk_timeout_params id false (timeout_handler e0) now fin in
  let es' := insert_sorted e1 (without id es) in
  exists p' hd,
    enable_timeout_at id fin p = (Ok tt, p') /\
    wf_statics (mem p') /\ queue_invariants_for (mem p') es' /\
    all_timeouts (mem p') = <[id := e1]> (all_timeouts (mem p)) /\
    without id es' = without id es /\
    clock_reads p' = S (clock_reads p) /\
    head es' = Some hd /\ fin_time hd <= fin /\
    last (trace p') = Some (EvSetitimer (alarm_value now (fin_time hd))) /\
    it_value (alarm_value now (fin_time hd)) <> mk_timeval 0 0.
Proof.
  intros Hwf Hq E0 Hh0 Ht now e1 es'.
  destruct (enable_timeout_at_run id fin p es e0) as (m' & Hrun & Hall & Hwf' & Hq');
    try done.
  assert (armed now fin e0 = e1) as Harm.
  { pose proof (wf_index _ Hwf _ _ E0) as Hidx. unfold armed, e1.
    destruct e0; cbn in *. by subst. }
  fold now in Hrun, Hall, Hq'. rewrite Harm in Hrun, Hall, Hq'. fold es' in Hrun, Hq'.
  destruct es' as [|hd rest] eqn:Ees'; [by apply insert_sorted_nonempty in Ees'|].
  eexists _, hd. split; [exact Hrun|]. cbn [mem clock_reads trace].
  split; [done|]. split; [done|]. split; [done|].
  split.
  { rewrite <- Ees'. subst es'. rewrite without_insert_sorted by done.
    apply without_without. }
  split; [done|]. split; [done|].
  split; [apply (insert_sorted_head e1 (without id es)); fold es'; by rewrite Ees'|].
  split; [|apply alarm_value_nonzero].
  rewrite !app_assoc. by rewrite last_app.
Qed.

(** A batch of one entry, after [disable_alarm] and the clock reading. *)
Lemma enable_timeouts_from_one t now p :
  (enable_timeouts_from [t] now 1 0 ;; schedule_alarm now) p =
  (enable_timeouts_body now t ;; schedule_alarm now) p.
Proof.
  cbn [enable_timeouts_from]. unfold bind at 1.
  rewrite (bind_ok _ _ _ _ _ (arg_get_ok [t] 0 t p eq_refl)).
  unfold bind. by destruct (enable_timeouts_body now t p) as [[[]|?] p2].
Qed.

(** X12.  A batch of one is the single call.  [enable_timeouts] on one
    entry of type AFTER is [enable_timeout_after] on its [id] and
    [delay_ms], and on one entry of type AT it is [enable_timeout_at] on its
    [id] and [fin_time]: the same outcome, the same statics, the same
    calls to the host, on every state and every host. *)
Theorem enable_timeouts_singleton (id : TimeoutId) (delay_ms : Z) (fin : TimestampTz)
    (unused_fin : TimestampTz) (unused_delay : Z) (p : process) :
  enable_timeouts [mk_EnableTimeoutParams id TMPARAM_AFTER delay_ms unused_fin] 1 p =
    enable_timeout_after id delay_ms p /\
  enable_timeouts [mk_EnableTimeoutParams id TMPARAM_AT unused_delay fin] 1 p =
    enable_timeout_at id fin p.
Proof.
  split; unfold enable_timeouts, enable_timeout_after, enable_timeout_at;
    change (1 <? 1) with false; change (Z.to_nat 1) with 1%nat;
    apply bind_ext; intros _ p1; apply bind_ext; intros now p2;
    apply enable_timeouts_from_one.
Qed.

(** [disable_timeout] on a registered [id], with what it tells the host. *)
Lemma disable_timeout_full id keep p es e0 :
  wf_statics (mem p) -> queue_invariants_for (mem p) es ->
  all_timeouts (mem p) !! id = Some e0 -> timeout_handler e0 <> None ->
  timer_ok ->
  let rest := without id es in
  exists m',
    disable_timeout id keep p =
      (Ok tt, mk_process m' (errno p) (MyProc p)
                (reschedule_reads rest + clock_reads p)
                (trace p ++ disable_events false (num_active_timeouts (mem p)) ++
                 reschedule_events (clock (clock_reads p)) rest)) /\
    all_timeouts m' =
      (if keep then all_timeouts (mem p)
       else <[id := set_indicator false e0]> (all_timeouts (mem p))) /\
    wf_statics m' /\ queue_invariants_for m' rest /\
    (id ∉ index <$> es ->
       num_active_timeouts m' = num_active_timeouts (mem p) /\
       active_timeouts m' = active_timeouts (mem p)).
Proof.
  intros Hwf Hq E0 Hh0 Ht rest. unfold disable_timeout.
  rewrite (bind_ok _ _ _ _ _ (Assert_initialized_ok _ Hwf)).
  rewrite (bind_ok _ _ _ _ _ (Assert_registered_ok id p ltac:(by exists e0))).
  rewrite (bind_ok _ _ _ _ _ (disable_alarm_ok false p Ht)).
  set (p0 := with_trace _ p).
  destruct (cancel_clear_ok id keep p0 es e0) as (m' & Hrun & Hall & Hwf' & Hq' & Hsame);
    try done.
  fold rest in Hq'.
  rewrite Hrun. unfold bind at 1, gets. cbn [mem with_mem].
  pose proof (queue_length _ _ Hwf' Hq') as Hn.
  exists m'. split; [|done].
  destruct rest as [|x rest'] eqn:Er.
  - destruct (Z.ltb_spec 0 (num_active_timeouts m')); [cbn in Hn; lia|].
    unfold ret. f_equal. subst p0. unfold with_mem, with_trace. cbn.
    by rewrite app_nil_r.
  - destruct (Z.ltb_spec 0 (num_active_timeouts m')); [|cbn in Hn; lia].
    unfold bind at 1, GetCurrentTimestamp.
    rewrite (schedule_alarm_run _ _ (x :: rest')) by done.
    rewrite schedule_result_ok by done.
    f_equal. subst p0. unfold with_mem, with_trace, with_clock_reads. cbn.
    by rewrite <- !app_assoc.
Qed.

(** X13.  [disable_timeout(id, keep_indicator)] on a registered [id] and
    a host whose timer never fails.  It returns; the queue holds the entries
    of the other identifiers, in their old order and with their old data:
    any other active timeout remains in force; in the registry at most the
    indicator of [id] has changed.  When nothing is left in the queue the
    clock is not read and the timer is left off (it was disarmed at most);
    otherwise the clock is read once and the last thing the call did was to
    arm the timer for the head of what is left. *)
Theorem disable_timeout_spec (id : TimeoutId) (keep_indicator : bool) (p : process)
    (es : list timeout_params) (e0 : timeout_params) :
  wf_statics (mem p) -> queue_invariants_for (mem p) es ->
  all_timeouts (mem p) !! id = Some e0 -> timeout_handler e0 <> None ->
  timer_ok ->
  let rest := without id es in
  let now := clock (clock_reads p) in
  exists p',
    disable_timeout id keep_indicator p = (Ok tt, p') /\
    wf_statics (mem p') /\ queue_invariants_for (mem p') rest /\
    all_timeouts (mem p') =
      (if keep_indicator then all_timeouts (mem p)
       else <[id := set_indicator false e0]> (all_timeouts (mem p))) /\
    match rest with
    | [] =>
        num_active_timeouts (mem p') = 0 /\
        clock_reads p' = clock_reads p /\
        trace p' = trace p ++ disable_events false (num_active_timeouts (mem p))
    | hd :: _ =>
        clock_reads p' = S (clock_reads p) /\
        trace p' = trace p ++ disable_events false (num_active_timeouts (mem p)) ++
                   [EvCall_schedule_alarm now; EvSetitimer (alarm_value now (fin_time hd))]
    end.
Proof.
  intros Hwf Hq E0 Hh0 Ht rest now.
  destruct (disable_timeout_full id keep_indicator p es e0)
    as (m' & Hrun & Hall & Hwf' & Hq' & _); try done.
  fold rest in Hrun, Hq'.
  eexists. split; [exact Hrun|]. cbn [mem clock_reads trace].
  split; [done|]. split; [done|]. split; [done|].
  pose proof (queue_length _ _ Hwf' Hq') as Hn.
  destruct rest as [|hd rest']; cbn.
  - by rewrite app_nil_r.
  - done.
Qed.

(** X14.  Enabling and then disabling [id] leaves the queue without
    [id]: [enable_timeout_at(id, fin_time)] followed by
    [disable_timeout(id, keep_indicator)] returns, and the queue holds what
    it held for the other identifiers.  For an [id] that was not active the
    queue is as it was, pointer by pointer.  What stays behind is the
    registry entry of [id], with the start time and the deadline of the
    enabling call and the indicator false. *)
Theorem enable_disable_round_trip (id : TimeoutId) (fin : TimestampTz)
    (keep_indicator : bool) (p : process) (es : list timeout_params)
    (e0 : timeout_params) :
  wf_statics (mem p) -> queue_invariants_for (mem p) es ->
  all_timeouts (mem p) !! id = Some e0 -> timeout_handler e0 <> None ->
  timer_ok ->
  let e1 := mk_timeout_params id false (timeout_handler e0) (clock (clock_reads p)) fin in
  exists p1 p2,
    enable_timeout_at id fin p = (Ok tt, p1) /\
    disable_timeout id keep_indicator p1 = (Ok tt, p2) /\
    queue_invariants_for (mem p2) (without id es) /\
    all_timeouts (mem p2) = <[id := e1]> (all_timeouts (mem p)) /\
    (id ∉ index <$> es ->
       queue_invariants_for (mem p2) es /\
       num_active_timeouts (mem p2) = num_active_timeouts (mem p) /\
       queue (mem p2) = queue (mem p)).
Proof.
  intros Hwf Hq E0 Hh0 Ht e1.
  pose proof (lookup_lt_Some _ _ _ E0) as Hlt.
  destruct (enable_timeout_at_run id fin p es e0) as (m1 & Hrun1 & Hall1 & Hwf1 & Hq1);
    try done.
  assert (armed (clock (clock_reads p)) fin e0 = e1) as Harm.
  { pose proof (wf_index _ Hwf _ _ E0) as Hidx. unfold armed, e1.
    destruct e0; cbn in *. by subst. }
  rewrite Harm in Hall1, Hq1.
  set (p1 := mk_process m1 _ _ _ _) in Hrun1.
  assert (all_timeouts (mem p1) !! id = Some e1) as E1.
  { cbn. rewrite Hall1. by apply list_lookup_insert_eq. }
  destruct (disable_timeout_full id keep_indicator p1 _ e1 Hwf1 Hq1 E1)
    as (m2 & Hrun2 & Hall2 & Hwf2 & Hq2 & _); try done.
  rewrite without_insert_sorted, without_without in Hq2 by done.
  assert (all_timeouts m2 = <[id := e1]> (all_timeouts (mem p))) as Hall.
  { rewrite Hall2. destruct keep_indicator; [done|]. cbn [mem p1]. rewrite Hall1.
    by rewrite list_insert_insert_eq. }
  eexists p1, _. split; [exact Hrun1|]. split; [exact Hrun2|]. cbn [mem].
  split; [done|]. split; [done|].
  intros Hni. rewrite (without_not_in _ _ Hni) in Hq2.
  split; [done|].
  pose proof (queue_length _ _ Hwf Hq) as Hn. pose proof (queue_length _ _ Hwf2 Hq2) as Hn2.
  split; [lia|].
  pose proof (qi_entries _ _ Hq) as He. pose proof (qi_entries _ _ Hq2) as He2.
  apply queue_entries_of in He. apply queue_entries_of in He2.
  destruct (entries_of_slots _ _ _ Hwf He) as [-> _].
  by destruct (entries_of_slots _ _ _ Hwf2 He2) as [-> _].
Qed.

(** X15.  [get_timeout_start_time(id)] returns the clock reading of the
    call that last enabled [id], and changes nothing: right after
    [enable_timeout_at(id, fin_time)] it is the reading that call took, and
    it still is after [disable_timeout(id, keep_indicator)], which does not
    reset the start time. *)
Theorem get_timeout_start_time_after_enable (id : TimeoutId) (fin : TimestampTz)
    (keep_indicator : bool) (p : process) (es : list timeout_params)
    (e0 : timeout_params) :
  wf_statics (mem p) -> queue_invariants_for (mem p) es ->
  all_timeouts (mem p) !! id = Some e0 -> timeout_handler e0 <> None ->
  timer_ok ->
  exists p1 p2,
    enable_timeout_at id fin p = (Ok tt, p1) /\
    get_timeout_start_time id p1 = (Ok (clock (clock_reads p)), p1) /\
    disable_timeout id keep_indicator p1 = (Ok tt, p2) /\
    get_timeout_start_time id p2 = (Ok (clock (clock_reads p)), p2).
Proof.
  intros Hwf Hq E0 Hh0 Ht.
  pose proof (lookup_lt_Some _ _ _ E0) as Hlt.
  destruct (enable_timeout_at_run id fin p es e0) as (m1 & Hrun1 & Hall1 & Hwf1 & Hq1);
    try done.
  set (e1 := armed (clock (clock_reads p)) fin e0) in *.
  set (p1 := mk_process m1 _ _ _ _) in Hrun1.
  assert (all_timeouts (mem p1) !! id = Some e1) as E1.
  { cbn. rewrite Hall1. by apply list_lookup_insert_eq. }
  destruct (disable_timeout_full id keep_indicator p1 _ e1 Hwf1 Hq1 E1)
    as (m2 & Hrun2 & Hall2 & Hwf2 & Hq2 & _); try done.
  eexists p1, _. split; [exact Hrun1|]. split; [|split; [exact Hrun2|]].
  - by rewrite (get_timeout_start_time_at _ _ _ E1).
  - set (p2 := mk_process m2 _ _ _ _).
    assert (exists e2, all_timeouts (mem p2) !! id = Some e2 /\
                       start_time e2 = clock (clock_reads p)) as (e2 & E2 & Hs).
    { cbn [mem p2]. rewrite Hall2. destruct keep_indicator; [by exists e1|].
      exists (set_indicator false e1). split; [|done].
      apply list_lookup_insert_eq. cbn [mem p1]. by rewrite Hall1, length_insert. }
    by rewrite (get_timeout_start_time_at _ _ _ E2), Hs.
Qed.

End SingleCalls.

(** ** The batch functions and [disable_all_timeouts], with their events *)

Section FullRuns.
Context `{Platform}.

Lemma elem_of_enqueue_batch h now ts : forall es x,
  x ∈ foldl (enqueue h now) es ts -> x ∈ es \/ indicator x = false.
Proof.
  induction ts as [|t ts IH]; intros es x Hx; [by left|]. cbn [foldl] in Hx.
  destruct (IH _ _ Hx) as [Hin|?]; [|by right].
  apply elem_of_insert_sorted in Hin as [->|Hin]; [by right|].
  left. by eapply elem_of_without.
Qed.

Lemma elem_of_cancel_batch (ts : list DisableTimeoutParams) : forall es x,
  x ∈ foldl (fun es t => without (dp_id t) es) es ts -> x ∈ es.
Proof.
  induction ts as [|t ts IH]; intros es x Hx; [done|]. cbn [foldl] in Hx.
  eapply elem_of_without, IH, Hx.
Qed.

Lemma setitimer_calls_enable now ts :
  setitimer_calls (enable_events now ts) = [].
Proof. induction ts as [|t ts IH]; [done|]. exact IH. Qed.

(** [enable_timeouts] on a batch of recognised entries. *)
Lemma enable_timeouts_full ts count p es :
  wf_statics (mem p) -> queue_invariants_for (mem p) es ->
  count = Z.of_nat (length ts) ->
  Forall (fun t => registered (mem p) (tp_id t)) ts -> Forall recognised ts ->
  timer_ok ->
  let now := clock (clock_reads p) in
  let es' := foldl (enqueue (handler_at (mem p)) now) es ts in
  exists m',
    enable_timeouts ts count p =
      (Ok tt, mk_process m' (errno p) (MyProc p) (S (clock_reads p))
                (trace p ++ (disable_events (1 <? count) (num_active_timeouts (mem p)) ++
                 enable_events now ts) ++ schedule_events now es')) /\
    wf_statics m' /\ queue_invariants_for m' es' /\
    (forall x, handler_at m' x = handler_at (mem p) x).
Proof.
  intros Hwf Hq Hc Hreg Hrec Ht now es'.
  set (p1 := with_clock_reads (S (clock_reads p))
               (with_trace (trace p ++ disable_events (1 <? count)
                              (num_active_timeouts (mem p))) p)).
  destruct (enable_timeouts_from_run ts (handler_at (mem p)) now ts 0 0 p1 es)
    as (m' & Hrun & Hwf' & Hq' & Hh'); try done.
  { apply Forall_forall. intros t Ht'. apply registered_handler_at.
    rewrite Forall_forall in Hreg. by apply Hreg. }
  exists m'. split; [|done]. unfold enable_timeouts.
  rewrite (bind_ok _ _ _ _ _ (disable_alarm_ok _ p Ht)).
  unfold bind at 1, GetCurrentTimestamp. cbn [clock_reads with_trace]. fold now. fold p1.
  replace (Z.to_nat count) with (length ts + 0)%nat by lia.
  change 0 with (Z.of_nat 0). rewrite Hrun. cbn [Nat.add enable_timeouts_from].
  unfold bind at 1, ret at 1.
  rewrite (schedule_alarm_run now _ es') by done.
  rewrite schedule_result_ok by done.
  f_equal. subst p1. unfold with_mem, with_trace, with_clock_reads. cbn.
  by rewrite <- !app_assoc.
Qed.

(** One pass through the body of the loop of [disable_timeouts]. *)
Lemma disable_timeouts_body_run t p es e0 :
  wf_statics (mem p) -> queue_invariants_for (mem p) es ->
  all_timeouts (mem p) !! dp_id t = Some e0 -> timeout_handler e0 <> None ->
  exists m1,
    disable_timeouts_body t p = (Ok tt, with_mem m1 p) /\
    all_timeouts m1 =
      (if dp_keep_indicator t then all_timeouts (mem p)
       else <[dp_id t := set_indicator false e0]> (all_timeouts (mem p))) /\
    wf_statics m1 /\ queue_invariants_for m1 (without (dp_id t) es).
Proof.
  intros Hwf Hq E0 Hh0.
  destruct (cancel_clear_ok (dp_id t) (dp_keep_indicator t) p es e0)
    as (m1 & Hrun1 & Hall1 & Hwf1 & Hq1 & _); try done.
  exists m1. split; [|done].
  unfold disable_timeouts_body.
  rewrite (bind_ok _ _ _ _ _
             (Assert_registered_ok (dp_id t) p ltac:(by exists e0))).
  rewrite <- (bind_ret_tail (find_active_timeout (dp_id t))
                (fun i => if 0 <=? i then remove_timeout_index i else ret tt)
                (fun _ => if negb (dp_keep_indicator t)
                          then all_timeouts_upd (dp_id t) (set_indicator false)
                          else ret tt)).
  exact (Hrun1 _ ret).
Qed.

(** What [disable_timeouts] does once its loop has run. *)
Lemma disable_timeouts_after_loop ts count p m1 rest :
  wf_statics (mem p) -> timer_ok -> count = Z.of_nat (length ts) ->
  let p0 := with_trace (trace p ++ disable_events false (num_active_timeouts (mem p))) p in
  disable_timeouts_from ts (length ts) 0 p0 = (Ok tt, with_mem m1 p0) ->
  wf_statics m1 -> queue_invariants_for m1 rest ->
  disable_timeouts ts count p =
    (Ok tt, mk_process m1 (errno p) (MyProc p)
              (reschedule_reads rest + clock_reads p)
              (trace p ++ disable_events false (num_active_timeouts (mem p)) ++
               reschedule_events (clock (clock_reads p)) rest)).
Proof.
  intros Hwf Ht Hc p0 Hrun Hwf1 Hq1. unfold disable_timeouts.
  rewrite (bind_ok _ _ _ _ _ (Assert_initialized_ok _ Hwf)).
  rewrite (bind_ok _ _ _ _ _ (disable_alarm_ok false p Ht)). fold p0.
  subst count. rewrite Nat2Z.id.
  rewrite (bind_ok _ _ _ _ _ Hrun).
  unfold bind at 1, gets. cbn [mem with_mem].
  pose proof (queue_length _ _ Hwf1 Hq1) as Hn.
  destruct rest as [|x rest'].
  - destruct (Z.ltb_spec 0 (num_active_timeouts m1)); [cbn in Hn; lia|].
    unfold ret. f_equal. subst p0. unfold with_mem, with_trace. cbn.
    by rewrite app_nil_r.
  - destruct (Z.ltb_spec 0 (num_active_timeouts m1)); [|cbn in Hn; lia].
    unfold bind at 1, GetCurrentTimestamp.
    rewrite (schedule_alarm_run _ _ (x :: rest')) by done.
    rewrite schedule_result_ok by done.
    f_equal. subst p0. unfold with_mem, with_trace, with_clock_reads. cbn.
    by rewrite <- !app_assoc.
Qed.

(** [disable_timeouts] on a batch of registered identifiers. *)
Lemma disable_timeouts_full ts count p es :
  wf_statics (mem p) -> queue_invariants_for (mem p) es ->
  count = Z.of_nat (length ts) ->
  Forall (fun t => registered (mem p) (dp_id t)) ts ->
  timer_ok ->
  let rest := foldl (fun es t => without (dp_id t) es) es ts in
  exists m',
    disable_timeouts ts count p =
      (Ok tt, mk_process m' (errno p) (MyProc p)
                (reschedule_reads rest + clock_reads p)
                (trace p ++ disable_events false (num_active_timeouts (mem p)) ++
                 reschedule_events (clock (clock_reads p)) rest)) /\
    wf_statics m' /\ queue_invariants_for m' rest /\
    (forall x, handler_at m' x = handler_at (mem p) x).
Proof.
  intros Hwf Hq Hc Hreg Ht rest.
  set (p0 := with_trace (trace p ++ disable_events false (num_active_timeouts (mem p))) p).
  destruct (disable_timeouts_from_run ts (handler_at (mem p)) ts 0 p0 es)
    as (m' & Hrun & Hwf' & Hq' & Hh'); try done.
  { apply Forall_forall. intros t Ht'. apply registered_handler_at.
    rewrite Forall_forall in Hreg. by apply Hreg. }
  fold rest in Hq'. exists m'. split; [|done].
  by apply disable_timeouts_after_loop.
Qed.

(** [disable_all_timeouts] on well-formed statics. *)
Lemma disable_all_timeouts_full keep p :
  wf_statics (mem p) -> timer_ok ->
  exists m',
    disable_all_timeouts keep p =
      (Ok tt, with_mem m' (with_trace (trace p ++ [EvSetitimer itimerval_zero]) p)) /\
    wf_statics m' /\ queue_invariants_for m' [] /\
    (forall x, handler_at m' x = handler_at (mem p) x).
Proof.
  intros Hwf Ht. pose proof (wf_all_length _ Hwf) as Hlen.
  unfold disable_all_timeouts.
  unfold bind at 1. unfold call_setitimer, bind at 1, emit, ret at 1.
  rewrite Ht. cbn [Z.eqb negb]. unfold bind at 1, ret at 1.
  unfold bind at 1, modify.
  set (p1 := with_mem _ _).
  assert (wf_statics (mem p1)) as Hwf1 by (destruct Hwf; by constructor).
  destruct keep; cbn [negb].
  - exists (mem p1). split; [reflexivity|]. split; [done|].
    split; [by apply empty_queue_invariants_for|done].
  - rewrite clear_indicators_from_ok by (subst p1; cbn; lia).
    eexists. split; [reflexivity|].
    subst p1. cbn [mem with_mem with_trace with_num_active with_all_timeouts all_timeouts
                   all_timeouts_initialized num_active_timeouts active_timeouts].
    rewrite take_0, drop_0, Nat.add_0_l, <- Hlen, firstn_all, drop_all, app_nil_r.
    cbn [app]. unfold with_all_timeouts, with_num_active.
    cbn [all_timeouts all_timeouts_initialized num_active_timeouts active_timeouts].
    assert (wf_statics (mk_statics (set_indicator false <$> all_timeouts (mem p))
              (all_timeouts_initialized (mem p)) 0 (active_timeouts (mem p)))) as Hwf'.
    { destruct Hwf as [W1 W2 W3 W4]. constructor; cbn; try done.
      - by rewrite length_fmap.
      - intros k e. rewrite list_lookup_fmap.
        destruct (_ !! k) as [x|] eqn:Ex; [|done]. cbn. intros [= <-]. cbn. eauto. }
    split; [done|]. split; [by apply empty_queue_invariants_for|].
    intros x. unfold handler_at. cbn. rewrite list_lookup_fmap.
    by destruct (_ !! x).
Qed.

End FullRuns.

(** ** More on the signal handler *)

Section SignalMore.
Context `{Platform}.

(** X16.  A signal with nothing in the queue.  With no active timeout
    [handle_sig_alarm] sets the latch, when there is a process to set it
    for, and does nothing else: the clock is not read, the timer is not
    programmed, no callback runs and the statics are as before.  This is
    so after [disable_all_timeouts] in particular: a SIGALRM that was
    already on its way is harmless. *)
Theorem handle_sig_alarm_idle (fuel : nat) (p : process) :
  (num_active_timeouts (mem p) <= 0 ->
   handle_sig_alarm fuel p =
     (Ok tt, with_trace (trace p ++ (if MyProc p then [EvSetLatch] else [])) p)) /\
  (wf_statics (mem p) -> timer_ok ->
   forall keep_indicators, exists p1,
     disable_all_timeouts keep_indicators p = (Ok tt, p1) /\
     handle_sig_alarm fuel p1 =
       (Ok tt, with_trace (trace p1 ++ (if MyProc p1 then [EvSetLatch] else [])) p1)).
Proof.
  split; [apply handle_sig_alarm_idle_run|].
  intros Hwf Ht keep.
  destruct (disable_all_timeouts_full keep p Hwf Ht) as (m' & Hrun & Hwf' & Hq' & _).
  eexists. split; [exact Hrun|]. apply handle_sig_alarm_idle_run.
  cbn [mem with_mem]. rewrite (queue_length _ _ Hwf' Hq'). done.
Qed.

Lemma fire_pending_not_due fuel now p e es :
  wf_statics (mem p) -> queue_invariants_for (mem p) (e :: es) ->
  now < fin_time e ->
  fire_pending fuel now p = (Ok now, p).
Proof.
  intros Hwf Hq Hnot.
  destruct (queue_head _ _ _ Hwf Hq) as (Hn & ptr & Hptr & He).
  destruct fuel; cbn [fire_pending]; unfold bind at 1, gets;
    (destruct (Z.ltb_spec 0 (num_active_timeouts (mem p))); [|lia]);
    rewrite (bind_ok _ _ _ _ _ (active_timeouts_get_ok 0 _ _ Hptr));
    rewrite (bind_ok _ _ _ _ _ (load_ok _ _ _ He));
    (destruct (Z.leb_spec (fin_time e) now); [lia|done]).
Qed.

(** X17.  A signal that comes early.  When the head of the queue is not
    yet due at the clock reading the handler takes, [handle_sig_alarm] fires
    nothing: it sets the latch, reads the clock once, and arms the timer
    again for the head; the statics and [errno] are as before.  No fuel is
    needed: the loop is not entered. *)
Theorem handle_sig_alarm_not_due (fuel : nat) (p : process)
    (e : timeout_params) (es : list timeout_params) :
  timer_ok ->
  wf_statics (mem p) -> queue_invariants_for (mem p) (e :: es) ->
  clock (clock_reads p) < fin_time e ->
  let now := clock (clock_reads p) in
  handle_sig_alarm fuel p =
    (Ok tt,
     mk_process (mem p) (errno p) (MyProc p) (S (clock_reads p))
       (trace p ++ (if MyProc p then [EvSetLatch] else []) ++
        [EvCall_schedule_alarm now; EvSetitimer (alarm_value now (fin_time e))])).
Proof.
  intros Ht Hwf Hq Hnot now.
  destruct (queue_head _ _ _ Hwf Hq) as (Hn & _).
  unfold handle_sig_alarm. unfold bind at 1. rewrite latch_run.
  unfold bind at 1, gets. cbn [mem with_trace].
  destruct (Z.ltb_spec 0 (num_active_timeouts (mem p))); [|lia].
  unfold bind at 1. unfold bind at 1, GetCurrentTimestamp.
  cbn [clock_reads with_trace]. fold now.
  set (p1 := with_clock_reads _ _).
  rewrite (bind_ok _ _ _ _ _ (fire_pending_not_due fuel now p1 e es Hwf Hq Hnot)).
  rewrite (schedule_alarm_run _ _ (e :: es)) by done. subst p1.
  rewrite schedule_result_ok by done.
  unfold latch_events, with_errno, with_trace, with_clock_reads. cbn.
  by rewrite <- !app_assoc.
Qed.

(** [handle_sig_alarm] with a non-empty queue: the loop fires the first [k]
    entries, then [schedule_alarm] looks at the rest. *)
Lemma handle_sig_alarm_run (Hext : handlers_external) fuel p es :
  wf_statics (mem p) -> queue_invariants_for (mem p) es ->
  0 < num_active_timeouts (mem p) -> (length es <= fuel)%nat ->
  let r := clock_reads p in
  exists (k : nat) p2,
    (k <= length es)%nat /\
    (forall j e, (j < k)%nat -> es !! j = Some e -> fin_time e <= clock (r + j)) /\
    (forall e, es !! k = Some e -> clock (r + k) < fin_time e) /\
    clock_reads p2 = S (r + k) /\
    trace p2 = trace p ++ latch_events p ++ fire_events (take k es) /\
    wf_statics (mem p2) /\ queue_invariants_for (mem p2) (drop k es) /\
    (forall e, e ∈ take k es ->
       all_timeouts (mem p2) !! index e = Some (set_indicator true e)) /\
    (forall id, id ∉ index <$> take k es ->
       all_timeouts (mem p2) !! id = all_timeouts (mem p) !! id) /\
    handle_sig_alarm fuel p =
      let p3 := with_trace (trace p2 ++ schedule_events (clock (r + k)) (drop k es)) p2 in
      match schedule_result (clock (r + k)) (drop k es) with
      | Ok _ => (Ok tt, with_errno (errno p) p3)
      | Raise e => (Raise e, p3)
      end.
Proof.
  intros Hwf Hq Hn Hfuel r.
  set (p1 := with_clock_reads (S r) (with_trace (trace p ++ latch_events p) p)).
  destruct (fire_pending_run Hext es fuel r p1)
    as (k & p2 & Hrun & Hk & Hfired & Hstop & Hreads & Htrace & Hwf2 & Hq2 & Hind & Hoth);
    try done.
  exists k, p2. split; [done|]. split; [done|]. split; [done|]. split; [done|].
  split; [by rewrite Htrace; subst p1; cbn; rewrite <- !app_assoc|].
  split; [done|]. split; [done|]. split; [done|]. split; [done|].
  unfold handle_sig_alarm. unfold bind at 1. rewrite latch_run.
  unfold bind at 1, gets. cbn [mem with_trace].
  destruct (Z.ltb_spec 0 (num_active_timeouts (mem p))); [|lia].
  unfold bind at 1. unfold bind at 1, GetCurrentTimestamp.
  cbn [clock_reads with_trace]. fold r. fold p1.
  rewrite (bind_ok _ _ _ _ _ Hrun).
  rewrite (schedule_alarm_run _ _ (drop k es)) by done.
  by destruct (schedule_result _ _).
Qed.

(** X18.  A signal that comes late.  On a host whose clock does not go
    back, when every active timeout is due at the first reading the
    handler takes, [handle_sig_alarm] fires them all, in queue order: every
    indicator of the queue is set, every callback has run, and the queue is
    empty.  [schedule_alarm] is still called, and finds nothing to arm: the
    timer is left off, whether or not [setitimer] would have worked. *)
Theorem handle_sig_alarm_all_due (fuel : nat) (p : process)
    (es : list timeout_params) :
  handlers_external ->
  wf_statics (mem p) -> queue_invariants_for (mem p) es ->
  0 < num_active_timeouts (mem p) -> (length es <= fuel)%nat ->
  (forall i j : nat, (i <= j)%nat -> clock i <= clock j) ->
  Forall (fun e => fin_time e <= clock (clock_reads p)) es ->
  exists p',
    handle_sig_alarm fuel p = (Ok tt, p') /\
    trace p' = trace p ++ (if MyProc p then [EvSetLatch] else []) ++ fire_events es ++
               [EvCall_schedule_alarm (clock (clock_reads p + length es))] /\
    clock_reads p' = S (clock_reads p + length es) /\
    num_active_timeouts (mem p') = 0 /\
    wf_statics (mem p') /\ queue_invariants_for (mem p') [] /\
    (forall e, e ∈ es -> all_timeouts (mem p') !! index e = Some (set_indicator true e)) /\
    (forall id, id ∉ index <$> es ->
       all_timeouts (mem p') !! id = all_timeouts (mem p) !! id).
Proof.
  intros Hext Hwf Hq Hn Hfuel Hmono Hdue.
  destruct (handle_sig_alarm_run Hext fuel p es Hwf Hq Hn Hfuel)
    as (k & p2 & Hk & Hfired & Hstop & Hreads & Htrace & Hwf2 & Hq2 & Hind & Hoth & Hrun).
  assert (k = length es) as ->.
  { destruct (decide (k = length es)) as [|Hne]; [done|]. exfalso.
    destruct (lookup_lt_is_Some_2 es k ltac:(lia)) as [e He].
    specialize (Hstop e He). rewrite Forall_forall in Hdue.
    specialize (Hdue e (list_elem_of_lookup_2 _ _ _ He)).
    specialize (Hmono (clock_reads p) (clock_reads p + k)%nat ltac:(lia)). lia. }
  rewrite drop_all in Hrun, Hq2. rewrite firstn_all in Htrace, Hind, Hoth.
  cbn [schedule_result schedule_events] in Hrun.
  eexists. split; [exact Hrun|].
  cbn [trace clock_reads mem with_errno with_trace].
  split; [by rewrite Htrace, <- !app_assoc|]. split; [done|].
  split; [by rewrite (queue_length _ _ Hwf2 Hq2)|]. done.
Qed.

(** X19.  The signal handler only sets indicators.  On a host whose
    timer never fails and whose callbacks stay out of timeout.c (they leave
    its statics, the trace and the clock alone), [handle_sig_alarm]
    returns, and every slot of the registry has the [index], the callback,
    the [start_time] and the [fin_time] it had: a timeout that fires keeps
    its start time.  An indicator that was set is still set, and an
    indicator is newly set only for an entry that was in the queue and was
    due at one of the clock readings the handler took. *)
Theorem handle_sig_alarm_frame (fuel : nat) (p : process) (es : list timeout_params) :
  handlers_external -> timer_ok ->
  wf_statics (mem p) -> queue_invariants_for (mem p) es -> (length es <= fuel)%nat ->
  exists p',
    handle_sig_alarm fuel p = (Ok tt, p') /\
    length (all_timeouts (mem p')) = length (all_timeouts (mem p)) /\
    forall id e, all_timeouts (mem p) !! id = Some e ->
      exists e',
        all_timeouts (mem p') !! id = Some e' /\
        index e' = index e /\ timeout_handler e' = timeout_handler e /\
        start_time e' = start_time e /\ fin_time e' = fin_time e /\
        (indicator e = true -> indicator e' = true) /\
        (indicator e' = true -> indicator e = false ->
           e ∈ es /\
           exists j : nat, fin_time e <= clock (clock_reads p + j) /\
                           (clock_reads p + j < clock_reads p')%nat).
Proof.
  intros Hext Ht Hwf Hq Hfuel.
  destruct (Z.le_gt_cases (num_active_timeouts (mem p)) 0) as [Hn|Hn].
  { eexists. split; [by apply handle_sig_alarm_idle_run|]. cbn. split; [done|].
    intros id e E. exists e. repeat split; try done; intros; congruence. }
  destruct (handle_sig_alarm_run Hext fuel p es Hwf Hq Hn Hfuel)
    as (k & p2 & Hk & Hfired & Hstop & Hreads & Htrace & Hwf2 & Hq2 & Hind & Hoth & Hrun).
  rewrite schedule_result_ok in Hrun by done. cbn zeta in Hrun.
  eexists. split; [exact Hrun|]. cbn [mem with_errno with_trace clock_reads].
  split; [by rewrite (wf_all_length _ Hwf2), (wf_all_length _ Hwf)|].
  intros id e E.
  destruct (decide (id ∈ index <$> take k es)) as [Hin|Hnin].
  - apply list_elem_of_fmap in Hin as (x & -> & Hx).
    pose proof Hx as Hx'. apply elem_of_take in Hx' as (j & Hj & Hjk).
    assert (x = e) as ->.
    { pose proof (qi_entries _ _ Hq) as He. apply queue_entries_of in He.
      destruct (entries_of_slots _ _ _ Hwf He) as [_ Hsl]. rewrite Forall_forall in Hsl.
      destruct (Hsl x (list_elem_of_lookup_2 _ _ _ Hj)) as [_ Hl]. congruence. }
    exists (set_indicator true e). split; [by apply Hind|]. repeat split; try done.
    + by eapply list_elem_of_lookup_2.
    + exists j. split; [by apply (Hfired j e)|]. lia.
  - exists e. split; [by rewrite (Hoth _ Hnin)|].
    repeat split; try done; intros; congruence.
Qed.

(** X20.  A timeout that has fired is reported, once.  On a host whose
    timer never fails and whose callbacks stay out of timeout.c (they leave
    its statics, the trace and the clock alone): when the head of the queue
    is due at the reading the handler takes, then after [handle_sig_alarm]
    the timeout is no longer in the queue and [get_timeout_indicator]
    returns true for it; with [reset_indicator] the next call returns false,
    without it the next call returns true again. *)
Theorem fired_timeout_is_reported (fuel : nat) (reset_indicator : bool) (p : process)
    (e : timeout_params) (es : list timeout_params) :
  handlers_external -> timer_ok ->
  wf_statics (mem p) -> queue_invariants_for (mem p) (e :: es) ->
  (length (e :: es) <= fuel)%nat ->
  fin_time e <= clock (clock_reads p) ->
  exists p1 p2 es1,
    handle_sig_alarm fuel p = (Ok tt, p1) /\
    queue_invariants_for (mem p1) es1 /\ (index e ∉ index <$> es1) /\
    get_timeout_indicator (index e) reset_indicator p1 = (Ok true, p2) /\
    get_timeout_indicator (index e) reset_indicator p2 =
      (Ok (negb reset_indicator), p2).
Proof.
  intros Hext Ht Hwf Hq Hfuel Hdue.
  destruct (queue_head _ _ _ Hwf Hq) as (Hn & _).
  destruct (handle_sig_alarm_run Hext fuel p _ Hwf Hq Hn Hfuel)
    as (k & p2 & Hk & Hfired & Hstop & Hreads & Htrace & Hwf2 & Hq2 & Hind & Hoth & Hrun).
  rewrite schedule_result_ok in Hrun by done. cbn zeta in Hrun.
  destruct k as [|k].
  { specialize (Hstop e eq_refl). rewrite Nat.add_0_r in Hstop. lia. }
  cbn [drop take] in *.
  assert (all_timeouts (mem p2) !! index e = Some (set_indicator true e)) as E
    by (apply Hind; left).
  set (p1 := with_errno _ _) in Hrun.
  assert (all_timeouts (mem p1) !! index e = Some (set_indicator true e)) as E1 by done.
  exists p1. eexists. exists (drop k es). split; [exact Hrun|]. split; [done|].
  split.
  { pose proof (qi_nodup _ _ Hq) as Hnd. rewrite fmap_cons in Hnd.
    apply NoDup_cons in Hnd as [Hni _]. intros Hin. apply Hni.
    apply list_elem_of_fmap in Hin as (x & -> & Hx). apply list_elem_of_fmap_2.
    by apply (subseteq_drop k es). }
  rewrite (get_timeout_indicator_at _ reset_indicator _ _ E1).
  cbn [indicator set_indicator andb]. split; [reflexivity|].
  destruct reset_indicator; cbn [negb].
  - set (q := set_slot _ _ p1).
    assert (all_timeouts (mem q) !! index e =
            Some (set_indicator false (set_indicator true e))) as E2.
    { cbn. apply list_lookup_insert_eq. by eapply lookup_lt_Some. }
    by rewrite (get_timeout_indicator_at _ true _ _ E2).
  - by rewrite (get_timeout_indicator_at _ false _ _ E1).
Qed.

End SignalMore.

(** ** A batch beside the single calls *)

Section BatchMore.
Context `{Platform}.

(** The loop of [disable_timeouts] over [l], beside the calls of
    [disable_timeout] for [l] one after the other, from states with the
    same registry and the same queue entries. *)
Lemma disable_timeouts_loop_seq (Ht : timer_ok) ts l : forall (i : nat) p q es,
  wf_statics (mem p) -> queue_invariants_for (mem p) es ->
  wf_statics (mem q) -> queue_invariants_for (mem q) es ->
  all_timeouts (mem p) = all_timeouts (mem q) ->
  Forall (fun t => registered (mem p) (dp_id t)) l ->
  (forall j t, l !! j = Some t -> ts !! (i + j)%nat = Some t) ->
  exists m1 q',
    disable_timeouts_from ts (length l) (Z.of_nat i) p = (Ok tt, with_mem m1 p) /\
    disable_each l q = (Ok tt, q') /\
    wf_statics m1 /\ wf_statics (mem q') /\
    queue_invariants_for m1 (foldl (fun es t => without (dp_id t) es) es l) /\
    queue_invariants_for (mem q') (foldl (fun es t => without (dp_id t) es) es l) /\
    all_timeouts m1 = all_timeouts (mem q') /\
    (clock_reads q <= clock_reads q')%nat.
Proof.
  induction l as [|t l IH]; intros i p q es Hwfp Hqp Hwfq Hqq Hall Hreg Hts.
  - exists (mem p), q. cbn. unfold ret. by rewrite with_mem_id.
  - apply Forall_cons in Hreg as [(e0 & E0 & Hh0) Hreg].
    destruct (disable_timeouts_body_run t p es e0) as (m1 & Hrun1 & Hall1 & Hwf1 & Hq1);
      try done.
    destruct (disable_timeout_full (dp_id t) (dp_keep_indicator t) q es e0)
      as (m2 & Hrun2 & Hall2 & Hwf2 & Hq2 & _); try done; [by rewrite <- Hall|].
    set (q1 := mk_process m2 _ _ _ _) in Hrun2.
    assert (all_timeouts m1 = all_timeouts m2) as Hall12
      by (by rewrite Hall1, Hall2, Hall).
    destruct (IH (S i) (with_mem m1 p) q1 (without (dp_id t) es))
      as (m' & q' & Hrun & Hseq & Hwf' & Hwfq' & Hq' & Hqq' & Hall' & Hreads); try done.
    { apply Forall_forall. intros t' Ht'. rewrite Forall_forall in Hreg.
      specialize (Hreg t' Ht'). cbn [mem with_mem].
      destruct (dp_keep_indicator t).
      - destruct Hreg as (e & E & Hh). exists e. by rewrite Hall1.
      - by apply (registered_insert (mem p) m1 (dp_id t) e0 (set_indicator false e0)). }
    { intros j t' Hj. rewrite <- (Hts (S j) t' Hj). f_equal. lia. }
    exists m', q'. split; [|split; [|split; [done|split; [done|split; [done|split; [done|split; [done|]]]]]]].
    + cbn [length disable_timeouts_from].
      pose proof (Hts 0%nat t eq_refl) as Ht0. rewrite Nat.add_0_r in Ht0.
      rewrite (bind_ok _ _ _ _ _ (arg_get_ok _ _ _ _ Ht0)).
      rewrite (bind_ok _ _ _ _ _ Hrun1).
      replace (Z.of_nat i + 1) with (Z.of_nat (S i)) by lia.
      rewrite Hrun. by cbn.
    + cbn [disable_each]. by rewrite (bind_ok _ _ _ _ _ Hrun2).
    + cbn in Hreads. lia.
Qed.

(** X21.  A batch of cancellations beside the single calls.  On
    registered identifiers and a host whose timer never fails,
    [disable_timeouts] and [disable_timeout] called for the same entries one
    after the other both return, and leave the same registry, the same
    queue and the same count: the queue without the identifiers of the
    batch.  The batch disarms the timer once, reads the clock at most once
    and arms the timer at most once, at its end. *)
Theorem disable_timeouts_as_sequence (ts : list DisableTimeoutParams) (count : Z)
    (p : process) (es : list timeout_params) :
  wf_statics (mem p) -> queue_invariants_for (mem p) es ->
  count = Z.of_nat (length ts) ->
  Forall (fun t => registered (mem p) (dp_id t)) ts ->
  timer_ok ->
  let rest := foldl (fun es t => without (dp_id t) es) es ts in
  exists p1 p2,
    disable_timeouts ts count p = (Ok tt, p1) /\
    disable_each ts p = (Ok tt, p2) /\
    queue_invariants_for (mem p1) rest /\ queue_invariants_for (mem p2) rest /\
    all_timeouts (mem p1) = all_timeouts (mem p2) /\
    num_active_timeouts (mem p1) = num_active_timeouts (mem p2) /\
    queue (mem p1) = queue (mem p2) /\
    trace p1 = trace p ++ disable_events false (num_active_timeouts (mem p)) ++
               reschedule_events (clock (clock_reads p)) rest /\
    (clock_reads p1 <= S (clock_reads p))%nat.
Proof.
  intros Hwf Hq Hc Hreg Ht rest.
  set (p0 := with_trace (trace p ++ disable_events false (num_active_timeouts (mem p))) p).
  destruct (disable_timeouts_loop_seq Ht ts ts 0 p0 p es)
    as (m1 & p2 & Hrun & Hseq & Hwf1 & Hwf2 & Hq1 & Hq2 & Hall & _); try done.
  fold rest in Hq1, Hq2. change (Z.of_nat 0) with 0 in Hrun.
  eexists _, p2.
  split; [exact (disable_timeouts_after_loop ts count p m1 rest Hwf Ht Hc Hrun Hwf1 Hq1)|].
  cbn [mem trace clock_reads].
  split; [done|]. split; [done|]. split; [done|]. split; [done|].
  pose proof (queue_length _ _ Hwf1 Hq1) as Hn1.
  pose proof (queue_length _ _ Hwf2 Hq2) as Hn2.
  split; [lia|]. split; [|split; [done|]].
  - pose proof (qi_entries _ _ Hq1) as He1. pose proof (qi_entries _ _ Hq2) as He2.
    apply queue_entries_of in He1. apply queue_entries_of in He2.
    destruct (entries_of_slots _ _ _ Hwf1 He1) as [-> _].
    by destruct (entries_of_slots _ _ _ Hwf2 He2) as [-> _].
  - unfold reschedule_reads. destruct rest; lia.
Qed.

(** The loop of [enable_timeouts] over entries [l] of type AT, beside the
    calls of [enable_timeout_at] for [l] one after the other, from states
    that agree up to start times. *)
Lemma enable_timeouts_loop_seq (Ht : timer_ok) ts now l : forall (i : nat) p q es1 es2,
  wf_statics (mem p) -> queue_invariants_for (mem p) es1 ->
  wf_statics (mem q) -> queue_invariants_for (mem q) es2 ->
  forget_start <$> all_timeouts (mem p) = forget_start <$> all_timeouts (mem q) ->
  forget_start <$> es1 = forget_start <$> es2 ->
  Forall (fun t => registered (mem p) (tp_id t)) l ->
  Forall (fun t => tp_type t = TMPARAM_AT) l ->
  (forall j t, l !! j = Some t -> ts !! (i + j)%nat = Some t) ->
  exists p' q' es1' es2',
    enable_timeouts_from ts now (length l) (Z.of_nat i) p = (Ok tt, p') /\
    enable_each_at l q = (Ok tt, q') /\
    clock_reads p' = clock_reads p /\ errno p' = errno p /\ MyProc p' = MyProc p /\
    clock_reads q' = (length l + clock_reads q)%nat /\
    wf_statics (mem p') /\ wf_statics (mem q') /\
    queue_invariants_for (mem p') es1' /\ queue_invariants_for (mem q') es2' /\
    forget_start <$> all_timeouts (mem p') = forget_start <$> all_timeouts (mem q') /\
    forget_start <$> es1' = forget_start <$> es2'.
Proof.
  induction l as [|t l IH]; intros i p q es1 es2 Hwfp Hqp Hwfq Hqq Hall Hes Hreg Hat Hts.
  - exists p, q, es1, es2. cbn. unfold ret. done.
  - apply Forall_cons in Hreg as [(e0 & E0 & Hh0) Hreg].
    apply Forall_cons in Hat as [Hat1 Hat].
    assert (exists e0', all_timeouts (mem q) !! tp_id t = Some e0' /\
                        forget_start e0 = forget_start e0') as (e0' & E0' & Hf0).
    { assert ((forget_start <$> all_timeouts (mem p)) !! tp_id t = Some (forget_start e0))
        as Hl by (by rewrite list_lookup_fmap, E0).
      rewrite Hall, list_lookup_fmap in Hl.
      destruct (all_timeouts (mem q) !! tp_id t) as [e0'|]; [|done].
      exists e0'. split; [done|]. cbn in Hl. congruence. }
    assert (timeout_handler e0' <> None) as Hh0'.
    { apply (f_equal timeout_handler) in Hf0. cbn in Hf0. congruence. }
    destruct (enable_timeout_ok (tp_id t) now (tp_fin_time t) p es1 e0)
      as (m1 & Hrun1 & Hall1 & Hwf1 & Hq1); try done.
    destruct (enable_timeout_at_run (tp_id t) (tp_fin_time t) q es2 e0')
      as (m2 & Hrun2 & Hall2 & Hwf2 & Hq2); try done.
    set (p1 := with_mem m1 _) in Hrun1. set (q1 := mk_process m2 _ _ _ _) in Hrun2.
    pose proof (armed_forget_start now (clock (clock_reads q)) (tp_fin_time t) _ _ Hf0)
      as Harm.
    destruct (IH (S i) p1 q1 _ _ Hwf1 Hq1 Hwf2 Hq2)
      as (p' & q' & es1' & es2' & Hrun & Hseq & Hcr & Herr & Hmy & Hcq & Hwf' & Hwfq' &
          Hq' & Hqq' & Hall' & Hes'); try done.
    { cbn [mem p1 q1 with_mem]. rewrite Hall1, Hall2, !list_fmap_insert.
      by rewrite Hall, Harm. }
    { rewrite !insert_sorted_forget_start, !without_forget_start. by rewrite Hes, Harm. }
    { apply Forall_forall. intros t' Ht'. rewrite Forall_forall in Hreg.
      specialize (Hreg t' Ht'). cbn [mem p1 with_mem].
      by apply (registered_insert (mem p) m1 (tp_id t) e0
                  (armed now (tp_fin_time t) e0)). }
    { intros j t' Hj. rewrite <- (Hts (S j) t' Hj). f_equal. lia. }
    exists p', q', es1', es2'.
    split; [|split; [|split; [by rewrite Hcr|split; [by rewrite Herr|split; [by rewrite Hmy|
      split; [rewrite Hcq; cbn; lia|done]]]]]].
    + cbn [length enable_timeouts_from].
      pose proof (Hts 0%nat t eq_refl) as Ht0. rewrite Nat.add_0_r in Ht0.
      rewrite (bind_ok _ _ _ _ _ (arg_get_ok _ _ _ _ Ht0)).
      unfold enable_timeouts_body at 1. rewrite Hat1.
      rewrite (bind_ok _ _ _ _ _ Hrun1).
      replace (Z.of_nat i + 1) with (Z.of_nat (S i)) by lia. exact Hrun.
    + cbn [enable_each_at]. by rewrite (bind_ok _ _ _ _ _ Hrun2).
Qed.

(** X22.  A batch of timeouts beside the single calls.  On registered
    identifiers, entries of type AT and a host whose timer never fails,
    [enable_timeouts] and [enable_timeout_at] called for the same entries
    one after the other both return, and leave the same queue of
    identifiers, the same count, and registries and queue entries that
    differ in start times only: the batch reads the clock once for all its
    entries, the single calls read it once each. *)
Theorem enable_timeouts_as_sequence (ts : list EnableTimeoutParams) (count : Z)
    (p : process) (es : list timeout_params) :
  wf_statics (mem p) -> queue_invariants_for (mem p) es ->
  count = Z.of_nat (length ts) ->
  Forall (fun t => registered (mem p) (tp_id t)) ts ->
  Forall (fun t => tp_type t = TMPARAM_AT) ts ->
  timer_ok ->
  exists p1 p2 es1 es2,
    enable_timeouts ts count p = (Ok tt, p1) /\
    enable_each_at ts p = (Ok tt, p2) /\
    queue_invariants_for (mem p1) es1 /\ queue_invariants_for (mem p2) es2 /\
    set_start_time 0 <$> es1 = set_start_time 0 <$> es2 /\
    queue (mem p1) = queue (mem p2) /\
    num_active_timeouts (mem p1) = num_active_timeouts (mem p2) /\
    set_start_time 0 <$> all_timeouts (mem p1) =
      set_start_time 0 <$> all_timeouts (mem p2) /\
    clock_reads p1 = S (clock_reads p) /\
    clock_reads p2 = (length ts + clock_reads p)%nat.
Proof.
  intros Hwf Hq Hc Hreg Hat Ht.
  set (now := clock (clock_reads p)).
  set (p0 := with_clock_reads (S (clock_reads p))
               (with_trace (trace p ++ disable_events (1 <? count)
                              (num_active_timeouts (mem p))) p)).
  destruct (enable_timeouts_loop_seq Ht ts now ts 0 p0 p es es)
    as (p' & p2 & es1 & es2 & Hrun & Hseq & Hcr & _ & _ & Hcq & Hwf1 & Hwf2 &
        Hq1 & Hq2 & Hall & Hes); try done.
  eexists _, p2, es1, es2. split.
  { unfold enable_timeouts.
    rewrite (bind_ok _ _ _ _ _ (disable_alarm_ok _ p Ht)).
    unfold bind at 1, GetCurrentTimestamp. cbn [clock_reads with_trace]. fold now. fold p0.
    subst count. rewrite Nat2Z.id. change (Z.of_nat 0) with 0 in Hrun.
    rewrite (bind_ok _ _ _ _ _ Hrun).
    rewrite (schedule_alarm_run now _ es1) by done.
    rewrite schedule_result_ok by done. reflexivity. }
  cbn [mem with_trace clock_reads].
  split; [done|]. split; [done|]. split; [done|]. split; [exact Hes|].
  assert (index <$> es1 = index <$> es2) as Hidx.
  { apply (f_equal (fmap index)) in Hes. by rewrite <- !list_fmap_compose in Hes. }
  pose proof (queue_length _ _ Hwf1 Hq1) as Hn1.
  pose proof (queue_length _ _ Hwf2 Hq2) as Hn2.
  pose proof (f_equal length Hidx) as Hlen. rewrite !length_fmap in Hlen.
  split; [|split; [lia|split; [exact Hall|split; [by rewrite Hcr|done]]]].
  pose proof (qi_entries _ _ Hq1) as He1. pose proof (qi_entries _ _ Hq2) as He2.
  apply queue_entries_of in He1. apply queue_entries_of in He2.
  destruct (entries_of_slots _ _ _ Hwf1 He1) as [-> _].
  destruct (entries_of_slots _ _ _ Hwf2 He2) as [-> _].
  change (fun e => Some (index e)) with (Some ∘ index).
  by rewrite !list_fmap_compose, Hidx.
Qed.

(** X23.  Batches of nothing.  With [count] at most 0 the two batch
    functions do not look at their array and leave the statics as they
    are, yet they are not silent: each disarms the timer when timeouts are
    active; [enable_timeouts] then reads the clock and arms the timer for
    the head of the queue again; [disable_timeouts] does so when the queue
    is not empty. *)
Theorem empty_batches (ts : list EnableTimeoutParams) (ds : list DisableTimeoutParams)
    (count : Z) (p : process) (es : list timeout_params) :
  wf_statics (mem p) -> queue_invariants_for (mem p) es -> timer_ok ->
  count <= 0 ->
  let now := clock (clock_reads p) in
  enable_timeouts ts count p =
    (Ok tt, mk_process (mem p) (errno p) (MyProc p) (S (clock_reads p))
              (trace p ++ disable_events false (num_active_timeouts (mem p)) ++
               schedule_events now es)) /\
  disable_timeouts ds count p =
    (Ok tt, mk_process (mem p) (errno p) (MyProc p)
              (reschedule_reads es + clock_reads p)
              (trace p ++ disable_events false (num_active_timeouts (mem p)) ++
               reschedule_events now es)).
Proof.
  intros Hwf Hq Ht Hc now. split.
  - unfold enable_timeouts.
    replace (1 <? count) with false by (symmetry; apply Z.ltb_ge; lia).
    rewrite (bind_ok _ _ _ _ _ (disable_alarm_ok false p Ht)).
    unfold bind at 1, GetCurrentTimestamp.
    replace (Z.to_nat count) with 0%nat by lia. cbn [enable_timeouts_from].
    unfold bind at 1, ret at 1.
    rewrite (schedule_alarm_run _ _ es) by done.
    rewrite schedule_result_ok by done.
    unfold with_trace, with_clock_reads. cbn. by rewrite <- !app_assoc.
  - unfold disable_timeouts.
    rewrite (bind_ok _ _ _ _ _ (Assert_initialized_ok _ Hwf)).
    rewrite (bind_ok _ _ _ _ _ (disable_alarm_ok false p Ht)).
    replace (Z.to_nat count) with 0%nat by lia. cbn [disable_timeouts_from].
    unfold bind at 1, ret at 1. unfold bind at 1, gets. cbn [mem with_trace].
    pose proof (queue_length _ _ Hwf Hq) as Hn.
    destruct es as [|x es'].
    + destruct (Z.ltb_spec 0 (num_active_timeouts (mem p))); [cbn in Hn; lia|].
      unfold ret, with_trace. cbn. by rewrite app_nil_r.
    + destruct (Z.ltb_spec 0 (num_active_timeouts (mem p))); [|cbn in Hn; lia].
      unfold bind at 1, GetCurrentTimestamp.
      rewrite (schedule_alarm_run _ _ (x :: es')) by done.
      rewrite schedule_result_ok by done.
      unfold with_trace, with_clock_reads. cbn. by rewrite <- !app_assoc.
Qed.

End BatchMore.

(** ** Outside the contract: unregistered reasons and a failing timer *)

Section Edges.
Context `{Platform}.

Lemma Assert_registered_trap id p e :
  USE_ASSERT_CHECKING = true ->
  all_timeouts (mem p) !! id = Some e -> timeout_handler e = None ->
  forall B (k : unit -> M B),
    bind (Assert (gets all_timeouts_initialized))
      (fun _ => bind (Assert (e <- all_timeouts_get id ;;
                              ret (bool_decide (timeout_handler e <> None)))) k) p
    = (Raise TRAP, p).
Proof.
  intros Ha E Hnone B k. unfold Assert. rewrite Ha.
  unfold bind at 1. unfold bind at 1, gets.
  destruct (all_timeouts_initialized (mem p)); [|done].
  unfold ret at 1. unfold bind at 1. unfold bind at 1.
  rewrite (bind_ok _ _ _ _ _ (all_timeouts_get_ok _ _ _ E)).
  unfold ret at 1. by rewrite bool_decide_eq_false_2 by (by intros ?).
Qed.

Lemma enable_timeout_trap id now fin p e :
  USE_ASSERT_CHECKING = true ->
  all_timeouts (mem p) !! id = Some e -> timeout_handler e = None ->
  enable_timeout id now fin p =
    (Raise TRAP, with_trace (trace p ++ [EvCall_enable_timeout id now fin]) p).
Proof.
  intros Ha E Hnone. unfold enable_timeout. unfold bind at 1, emit.
  by rewrite (Assert_registered_trap id _ e Ha).
Qed.

(** X24.  A reason that was never registered.  In a build with
    assertions, every function that is given the identifier of a slot
    without a callback stops at an assertion: [enable_timeout_at],
    [enable_timeout_after], [disable_timeout], and the batch functions on a
    batch that names it.  The statics are as before: nothing was queued and
    no indicator was touched.  [disable_timeout] stops before it touches the
    timer. *)
Theorem unregistered_id_traps (id : TimeoutId) (p : process) (e : timeout_params) :
  USE_ASSERT_CHECKING = true -> timer_ok ->
  all_timeouts (mem p) !! id = Some e -> timeout_handler e = None ->
  (forall fin, (enable_timeout_at id fin p).1 = Raise TRAP /\
               mem (enable_timeout_at id fin p).2 = mem p) /\
  (forall delay_ms, (enable_timeout_after id delay_ms p).1 = Raise TRAP /\
                    mem (enable_timeout_after id delay_ms p).2 = mem p) /\
  (forall keep_indicator, disable_timeout id keep_indicator p = (Raise TRAP, p)) /\
  (forall keep_indicator unused_delay fin,
     (disable_timeouts [mk_DisableTimeoutParams id keep_indicator] 1 p).1 = Raise TRAP /\
     mem (disable_timeouts [mk_DisableTimeoutParams id keep_indicator] 1 p).2 = mem p /\
     (enable_timeouts [mk_EnableTimeoutParams id TMPARAM_AT unused_delay fin] 1 p).1 =
       Raise TRAP /\
     mem (enable_timeouts [mk_EnableTimeoutParams id TMPARAM_AT unused_delay fin] 1 p).2 =
       mem p).
Proof.
  intros Ha Ht E Hnone.
  assert (Hat' : forall fin, exists p',
            enable_timeout_at id fin p = (Raise TRAP, p') /\ mem p' = mem p).
  { intros fin. unfold enable_timeout_at.
    rewrite (bind_ok _ _ _ _ _ (disable_alarm_ok false p Ht)).
    unfold bind at 1, GetCurrentTimestamp. set (q := with_clock_reads _ _).
    rewrite (bind_raise _ _ _ _ _ (enable_timeout_trap id _ fin q e Ha E Hnone)).
    by eexists. }
  assert (Hat : forall fin, (enable_timeout_at id fin p).1 = Raise TRAP /\
                            mem (enable_timeout_at id fin p).2 = mem p).
  { intros fin. by destruct (Hat' fin) as (p' & -> & ?). }
  split; [exact Hat|]. split; [|split].
  - intros d. rewrite enable_timeout_after_at by done. apply Hat.
  - intros keep. unfold disable_timeout. by apply Assert_registered_trap with (e := e).
  - intros keep d fin. split; [|split].
    3:{ assert (enable_timeouts [mk_EnableTimeoutParams id TMPARAM_AT d fin] 1 p =
                enable_timeout_at id fin p) as ->; [|apply Hat].
        unfold enable_timeouts, enable_timeout_at.
        change (1 <? 1) with false. change (Z.to_nat 1) with 1%nat.
        apply bind_ext. intros _ p1. apply bind_ext. intros now p2.
        exact (enable_timeouts_from_one (mk_EnableTimeoutParams id TMPARAM_AT d fin) now p2). }
    all: assert (exists p', disable_timeouts [mk_DisableTimeoutParams id keep] 1 p =
                   (Raise TRAP, p') /\ mem p' = mem p) as (p' & -> & Hm); [|done].
    all: unfold disable_timeouts; unfold Assert at 1; rewrite Ha;
      unfold bind at 1; unfold bind at 1, gets;
      (destruct (all_timeouts_initialized (mem p)); [|by eexists]);
      unfold ret at 1;
      rewrite (bind_ok _ _ _ _ _ (disable_alarm_ok false p Ht));
      change (Z.to_nat 1) with 1%nat; cbn [disable_timeouts_from];
      unfold bind at 1; unfold bind at 1;
      rewrite (arg_get_ok [mk_DisableTimeoutParams id keep] 0 _ _ eq_refl);
      unfold bind at 1; unfold disable_timeouts_body; cbn [dp_id dp_keep_indicator];
      unfold bind at 1; unfold Assert; rewrite Ha; unfold bind at 1;
      (erewrite bind_ok; [|apply all_timeouts_get_ok; exact E]);
      unfold ret at 1; rewrite bool_decide_eq_false_2 by (by intros ?); by eexists.
Qed.

Lemma disable_alarm_fatal multi_insert p :
  setitimer itimerval_zero <> 0 ->
  multi_insert = true \/ 0 < num_active_timeouts (mem p) ->
  disable_alarm multi_insert p =
    (Raise (FATAL "could not disable SIGALRM timer: %m" []),
     with_trace (trace p ++ [EvCall_disable_alarm multi_insert;
                             EvSetitimer itimerval_zero]) p).
Proof.
  intros Hf Hc. rewrite disable_alarm_run.
  assert (multi_insert || (0 <? num_active_timeouts (mem p)) = true) as ->.
  { destruct Hc as [->|Hn]; [done|]. apply orb_true_iff. right. by apply Z.ltb_lt. }
  unfold setitimer_outcome. by destruct (Z.eqb_spec (setitimer itimerval_zero) 0).
Qed.

(** X25.  A host whose [setitimer] always fails.  [disable_all_timeouts]
    raises FATAL "could not disable SIGALRM timer" with the statics
    untouched.  While timeouts are active, [enable_timeout_at],
    [enable_timeout_after] and [disable_timeout] raise the same error at
    their first step: the clock is not read and nothing is changed.  With
    no timeout active, [enable_timeout_at] on a registered [id] raises
    FATAL "could not enable SIGALRM timer", and by then the timeout has
    been put in the queue: the statics satisfy the invariants with that one
    entry active and its indicator reset. *)
Theorem timer_failure_is_fatal (p : process) (es : list timeout_params) :
  (forall v, setitimer v <> 0) ->
  wf_statics (mem p) -> queue_invariants_for (mem p) es ->
  let off := Raise (FATAL "could not disable SIGALRM timer: %m" []) in
  let on := Raise (FATAL "could not enable SIGALRM timer: %m" []) in
  (forall keep_indicators,
     disable_all_timeouts keep_indicators p =
       (off, with_trace (trace p ++ [EvSetitimer itimerval_zero]) p)) /\
  (es <> [] -> forall id fin delay_ms keep_indicator,
     enable_timeout_at id fin p =
       (off, with_trace (trace p ++ [EvCall_disable_alarm false;
                                     EvSetitimer itimerval_zero]) p) /\
     enable_timeout_after id delay_ms p =
       (off, with_trace (trace p ++ [EvCall_disable_alarm false;
                                     EvSetitimer itimerval_zero]) p) /\
     (registered (mem p) id ->
      disable_timeout id keep_indicator p =
        (off, with_trace (trace p ++ [EvCall_disable_alarm false;
                                      EvSetitimer itimerval_zero]) p))) /\
  (es = [] -> forall id fin e0,
     all_timeouts (mem p) !! id = Some e0 -> timeout_handler e0 <> None ->
     exists p',
       enable_timeout_at id fin p = (on, p') /\
       queue_invariants_for (mem p') [armed (clock (clock_reads p)) fin e0] /\
       setitimer_calls (trace p') =
         setitimer_calls (trace p) ++ [alarm_value (clock (clock_reads p)) fin]).
Proof.
  intros Hfail Hwf Hq off on.
  pose proof (queue_length _ _ Hwf Hq) as Hn.
  split; [|split].
  - intros keep. unfold disable_all_timeouts.
    unfold bind at 1. unfold call_setitimer, bind at 1, emit, ret at 1.
    destruct (Z.eqb_spec (setitimer itimerval_zero) 0) as [E|_]; [by apply Hfail in E|].
    done.
  - intros Hne id fin d keep.
    assert (0 < num_active_timeouts (mem p)) as Hpos.
    { destruct es; [done|]. cbn in Hn. lia. }
    pose proof (disable_alarm_fatal false p (Hfail _) (or_intror Hpos)) as Hoff.
    split; [|split].
    + unfold enable_timeout_at. by rewrite (bind_raise _ _ _ _ _ Hoff).
    + unfold enable_timeout_after. by rewrite (bind_raise _ _ _ _ _ Hoff).
    + intros Hreg. unfold disable_timeout.
      rewrite (bind_ok _ _ _ _ _ (Assert_initialized_ok _ Hwf)).
      rewrite (bind_ok _ _ _ _ _ (Assert_registered_ok id p Hreg)).
      by rewrite (bind_raise _ _ _ _ _ Hoff).
  - intros -> id fin e0 E0 Hh0. cbn in Hn.
    unfold enable_timeout_at. unfold bind at 1. rewrite disable_alarm_run.
    destruct (Z.ltb_spec 0 (num_active_timeouts (mem p))); [lia|]. cbn [orb].
    unfold bind at 1, GetCurrentTimestamp.
    set (now := clock (clock_reads _)).
    set (p1 := with_clock_reads _ _).
    destruct (enable_timeout_ok id now fin p1 [] e0) as (m' & Hrun & Hall & Hwf' & Hq');
      try done.
    rewrite (bind_ok _ _ _ _ _ Hrun).
    change (without id []) with (@nil timeout_params) in Hq'. cbn [insert_sorted] in Hq'.
    rewrite (schedule_alarm_run now _ [armed now fin e0]) by done.
    cbn [schedule_result schedule_events]. unfold setitimer_outcome.
    destruct (Z.eqb_spec (setitimer (alarm_value now (fin_time (armed now fin e0)))) 0)
      as [E|_]; [by apply Hfail in E|].
    eexists. split; [reflexivity|]. split; [done|].
    cbn [trace with_trace with_mem]. subst p1. cbn [trace with_clock_reads with_trace].
    rewrite !setitimer_calls_app. cbn. by rewrite !app_nil_r.
Qed.

End Edges.

(** ** The timer after a mutator, and a session of calls *)

Section Sessions.
Context `{Platform}.

Lemma timer_programmed_schedule_events now tr es :
  Forall (fun v => v = itimerval_zero) (setitimer_calls tr) ->
  timer_programmed now (tr ++ schedule_events now es) es.
Proof.
  intros Htr. destruct es as [|hd es]; cbn.
  - rewrite setitimer_calls_app. cbn. by rewrite app_nil_r.
  - by rewrite last_app.
Qed.

Lemma timer_programmed_reschedule_events now tr es :
  Forall (fun v => v = itimerval_zero) (setitimer_calls tr) ->
  timer_programmed now (tr ++ reschedule_events now es) es.
Proof.
  intros Htr. destruct es as [|hd es]; cbn.
  - by rewrite app_nil_r.
  - by rewrite last_app.
Qed.

(** A mutator called within its contract on a host whose timer never
    fails: it returns, and this is what it leaves. *)
Lemma run_mutator_full op p es :
  wf_statics (mem p) -> queue_invariants_for (mem p) es -> mutator_pre (mem p) op ->
  mutator_args_ok op -> timer_ok ->
  exists p' es' evs,
    run_mutator op p = (Ok tt, p') /\
    trace p' = trace p ++ evs /\
    wf_statics (mem p') /\ queue_invariants_for (mem p') es' /\
    (forall x, handler_at (mem p') x = handler_at (mem p) x) /\
    (forall e, e ∈ es' -> e ∈ es \/ indicator e = false) /\
    timer_programmed (clock (clock_reads p)) evs es' /\
    (clock_reads p <= clock_reads p' <= S (clock_reads p))%nat /\
    (es' <> [] -> clock_reads p' = S (clock_reads p)).
Proof.
  intros Hwf Hq Hpre Hargs Ht.
  assert (Henable : forall id fin, registered (mem p) id ->
    exists p' es' evs,
      enable_timeout_at id fin p = (Ok tt, p') /\
      trace p' = trace p ++ evs /\
      wf_statics (mem p') /\ queue_invariants_for (mem p') es' /\
      (forall x, handler_at (mem p') x = handler_at (mem p) x) /\
      (forall e, e ∈ es' -> e ∈ es \/ indicator e = false) /\
      timer_programmed (clock (clock_reads p)) evs es' /\
      (clock_reads p <= clock_reads p' <= S (clock_reads p))%nat /\
      (es' <> [] -> clock_reads p' = S (clock_reads p))).
  { intros id fin (e0 & E0 & Hh0).
    destruct (enable_timeout_at_run id fin p es e0 Hwf Hq E0 Hh0 Ht)
      as (m' & Hrun & Hall & Hwf' & Hq').
    eexists _, _, _. split; [exact Hrun|]. cbn [mem trace clock_reads].
    split; [reflexivity|]. split; [done|]. split; [done|].
    split; [eapply handler_at_upd; [exact E0| |exact Hall]; done|].
    split; [|split; [|split; [lia|done]]].
    - intros e [->|Hin]%elem_of_insert_sorted; [by right|].
      left. by eapply elem_of_without.
    - rewrite app_assoc. apply timer_programmed_schedule_events.
      rewrite setitimer_calls_app.
      change (setitimer_calls [EvCall_enable_timeout id (clock (clock_reads p)) fin])
        with (@nil itimerval).
      rewrite app_nil_r. apply setitimer_calls_disable. }
  destruct op as [id d|id fin|ts c|id keep|ts c|keep];
    cbn [run_mutator mutator_pre mutator_args_ok] in *.
  - rewrite enable_timeout_after_at by done. by apply Henable.
  - by apply Henable.
  - destruct Hargs as [Hc Hrec].
    destruct (enable_timeouts_full ts c p es Hwf Hq Hc Hpre Hrec Ht)
      as (m' & Hrun & Hwf' & Hq' & Hh').
    eexists _, _, _. split; [exact Hrun|]. cbn [mem trace clock_reads].
    split; [reflexivity|]. split; [done|]. split; [done|]. split; [done|].
    split; [apply elem_of_enqueue_batch|]. split; [|split; [lia|done]].
    apply timer_programmed_schedule_events.
    rewrite setitimer_calls_app, setitimer_calls_enable, app_nil_r.
    apply setitimer_calls_disable.
  - destruct Hpre as (e0 & E0 & Hh0).
    destruct (disable_timeout_full id keep p es e0 Hwf Hq E0 Hh0 Ht)
      as (m' & Hrun & Hall & Hwf' & Hq' & _).
    eexists _, _, _. split; [exact Hrun|]. cbn [mem trace clock_reads].
    split; [reflexivity|]. split; [done|]. split; [done|].
    split; [|split; [|split; [|split]]].
    + destruct keep.
      * intros x. unfold handler_at. by rewrite Hall.
      * eapply handler_at_upd; [exact E0| |exact Hall]; done.
    + intros e He. left. by eapply elem_of_without.
    + apply timer_programmed_reschedule_events, setitimer_calls_disable.
    + destruct (without id es); cbn; lia.
    + by destruct (without id es).
  - destruct (disable_timeouts_full ts c p es Hwf Hq Hargs Hpre Ht)
      as (m' & Hrun & Hwf' & Hq' & Hh').
    eexists _, _, _. split; [exact Hrun|]. cbn [mem trace clock_reads].
    split; [reflexivity|]. split; [done|]. split; [done|]. split; [done|].
    split; [|split; [|split]].
    + intros e He. left. by eapply elem_of_cancel_batch.
    + apply timer_programmed_reschedule_events, setitimer_calls_disable.
    + destruct (foldl _ es ts); cbn; lia.
    + by destruct (foldl _ es ts).
  - destruct (disable_all_timeouts_full keep p Hwf Ht) as (m' & Hrun & Hwf' & Hq' & Hh').
    eexists _, _, _. split; [exact Hrun|]. cbn [mem trace clock_reads with_mem with_trace].
    split; [reflexivity|]. split; [done|]. split; [done|]. split; [done|].
    split; [by intros e ?%elem_of_nil|]. split; [|split; [lia|done]].
    cbn. by repeat constructor.
Qed.

(** X26.  Every mutator leaves the timer programmed for the queue.  A
    mutator called within its contract on a host whose timer never fails
    returns, and when it returns with timeouts active, the last thing it
    did was to call [setitimer] with the time from its clock reading to the
    [fin_time] of the head of the queue, a value that is never zero; when
    it returns with no timeout active, every value it gave to [setitimer]
    was zero: the timer is off. *)
Theorem mutators_program_timer (op : mutator) (p : process) :
  wf_statics (mem p) -> queue_invariants (mem p) -> mutator_pre (mem p) op ->
  mutator_args_ok op -> timer_ok ->
  exists p' es' evs,
    run_mutator op p = (Ok tt, p') /\
    trace p' = trace p ++ evs /\
    queue_invariants_for (mem p') es' /\
    match es' with
    | [] => Forall (fun v => v = itimerval_zero) (setitimer_calls evs)
    | hd :: _ =>
        exists v, last evs = Some (EvSetitimer v) /\
          v = alarm_value (clock (clock_reads p)) (fin_time hd) /\
          it_value v <> mk_timeval 0 0
    end.
Proof.
  intros Hwf [es Hq] Hpre Hargs Ht.
  destruct (run_mutator_full op p es Hwf Hq Hpre Hargs Ht)
    as (p' & es' & evs & Hrun & Htr & _ & Hq' & _ & _ & Htimer & _).
  exists p', es', evs. split; [done|]. split; [done|]. split; [done|].
  destruct es' as [|hd rest]; [exact Htimer|].
  eexists. split; [exact Htimer|]. split; [done|]. apply alarm_value_nonzero.
Qed.






End Sessions.



(** ** The theorems at work on the sample host *)

(** The well-formedness of a concrete state, slot by slot. *)
Ltac solve_wf_statics :=
  constructor;
  [ reflexivity | reflexivity | reflexivity
  | let k := fresh "k" in let e := fresh "e" in let Hk := fresh "Hk" in
    intros k e Hk;
    do 16 (destruct k as [|k]; [by injection Hk as <-|]); discriminate Hk ].

(** The queue invariants of a concrete state, for its entries. *)
Ltac solve_queue_invariants :=
  constructor;
  [ vm_compute; reflexivity
  | repeat constructor; unfold entry_lt, key_lt; cbn; lia
  | apply (bool_decide_unpack _); vm_compute; exact I
  | repeat constructor; discriminate
  | cbn; lia ].

Ltac solve_registered :=
  eexists; split; [reflexivity|discriminate].

Section Witnesses.
#[local] Existing Instance sample_host.

(** The scenarios of the spec, run on the model. *)

Example scenario_equal_deadline :
  queue (mem sample_armed) = [Some 2%nat; Some 5%nat] /\
  (handle_sig_alarm 2 sample_armed).1 = Ok tt /\
  drop 7 (trace (handle_sig_alarm 2 sample_armed).2) =
    [EvSetLatch; EvHandler 102; EvHandler 105; EvCall_schedule_alarm 1300000] /\
  num_active_timeouts (mem (handle_sig_alarm 2 sample_armed).2) = 0.
Proof. vm_compute. repeat split. Qed.

Example scenario_reschedule :
  let p := ((enable_timeout_after 7 500 ;; enable_timeout_after 7 100) sample_idle).2 in
  queue (mem p) = [Some 7%nat] /\
  fin_time <$> all_timeouts (mem p) !! 7%nat = Some (1100000 + 100 * 1000).
Proof. vm_compute. repeat split. Qed.

Example scenario_batch :
  queue (mem (enable_timeouts sample_batch 2 sample_idle).2) = [Some 4%nat; Some 3%nat] /\
  schedule_alarm_calls (trace (enable_timeouts sample_batch 2 sample_idle).2) = [1000000].
Proof. vm_compute. repeat split. Qed.

Example scenario_bad_batch :
  (enable_timeouts sample_bad_batch 3 sample_idle).1 =
    Raise (ERROR "unrecognized timeout type %d" [2]) /\
  queue (mem (enable_timeouts sample_bad_batch 3 sample_idle).2) = [Some 3%nat] /\
  schedule_alarm_calls (trace (enable_timeouts sample_bad_batch 3 sample_idle).2) = [].
Proof. vm_compute. repeat split. Qed.

Example scenario_table_full :
  (RegisterTimeout USER_TIMEOUT (Some 7%nat) sample_full).1 =
    Raise (FATAL "cannot add more timeout reasons" []).
Proof. vm_compute. reflexivity. Qed.

(** Registering a slot twice fails the assertion of [RegisterTimeout]. *)
Example scenario_registered_twice :
  (RegisterTimeout 3 (Some 7%nat) sample_idle).1 = Raise TRAP.
Proof. vm_compute. reflexivity. Qed.

(** On the sample host a head entry that is due now or was due earlier
    arms the timer for one microsecond. *)
Lemma sample_alarm_value_past (now fin : TimestampTz) :
  fin <= now ->
  alarm_value now fin = mk_itimerval (mk_timeval 0 0) (mk_timeval 0 1).
Proof.
  intros Hle. unfold alarm_value. cbn. unfold TimestampDifference_usec.
  destruct (Z.leb_spec (fin - now) 0); [reflexivity|lia].
Qed.

Lemma sample_timer_ok : timer_ok.
Proof. intros v. reflexivity. Qed.

Lemma sample_handlers_external : handlers_external.
Proof. intros h p. by destruct p. Qed.

Lemma mutators_preserve_queue_invariants_witness :
  wf_statics (mem sample_armed) /\
  queue_invariants (mem sample_armed) /\
  mutator_pre (mem sample_armed) (Op_enable_timeout_after 3 50) /\
  wf_statics (mem (run_mutator (Op_enable_timeout_after 3 50) sample_armed).2) /\
  queue_invariants (mem (run_mutator (Op_enable_timeout_after 3 50) sample_armed).2).
Proof.
  assert (Hwf : wf_statics (mem sample_armed)) by solve_wf_statics.
  assert (Hq : queue_invariants (mem sample_armed))
    by (exists sample_armed_entries; solve_queue_invariants).
  assert (Hpre : mutator_pre (mem sample_armed) (Op_enable_timeout_after 3 50))
    by solve_registered.
  split; [exact Hwf|]. split; [exact Hq|]. split; [exact Hpre|].
  exact (mutators_preserve_queue_invariants _ _ Hwf Hq Hpre).
Defined.

Lemma enable_twice_reschedules_witness :
  wf_statics (mem sample_idle) /\
  queue_invariants (mem sample_idle) /\
  registered (mem sample_idle) 7 /\
  timer_ok /\
  exists p1 p2 es2 e,
    enable_timeout_at 7 1500000 sample_idle = (Ok tt, p1) /\
    enable_timeout_at 7 1100000 p1 = (Ok tt, p2) /\
    clock_reads p1 = S (clock_reads sample_idle) /\
    queue_entries (mem p2) = Some es2 /\
    filter (fun x => index x = 7%nat) es2 = [e] /\
    all_timeouts (mem p2) !! 7%nat = Some e /\
    fin_time e = 1100000 /\
    start_time e = clock (clock_reads p1) /\
    indicator e = false.
Proof.
  assert (Hwf : wf_statics (mem sample_idle)) by solve_wf_statics.
  assert (Hq : queue_invariants (mem sample_idle))
    by (exists []; solve_queue_invariants).
  assert (Hreg : registered (mem sample_idle) 7) by solve_registered.
  split; [exact Hwf|]. split; [exact Hq|]. split; [exact Hreg|].
  split; [exact sample_timer_ok|].
  exact (enable_twice_reschedules 7 1500000 1100000 sample_idle Hwf Hq Hreg
           sample_timer_ok).
Defined.

Lemma disable_timeout_idempotent_witness :
  let e0 := mk_timeout_params 3 false (Some 103%nat) 0 0 in
  wf_statics (mem sample_armed) /\
  queue_invariants_for (mem sample_armed) sample_armed_entries /\
  all_timeouts (mem sample_armed) !! 3%nat = Some e0 /\
  timeout_handler e0 <> None /\
  timer_ok /\
  exists p1 p2,
    disable_timeout 3 false sample_armed = (Ok tt, p1) /\
    disable_timeout 3 false p1 = (Ok tt, p2) /\
    mem p2 = mem p1 /\
    num_active_timeouts (mem p1) = num_active_timeouts (mem sample_armed) /\
    active_timeouts (mem p1) = active_timeouts (mem sample_armed) /\
    queue_entries (mem p1) = Some sample_armed_entries /\
    all_timeouts (mem p1) !! 3%nat = Some (set_indicator false e0).
Proof.
  intros e0.
  assert (Hwf : wf_statics (mem sample_armed)) by solve_wf_statics.
  assert (Hq : queue_invariants_for (mem sample_armed) sample_armed_entries)
    by solve_queue_invariants.
  assert (E0 : all_timeouts (mem sample_armed) !! 3%nat = Some e0) by reflexivity.
  assert (Hh : timeout_handler e0 <> None) by discriminate.
  split; [exact Hwf|]. split; [exact Hq|]. split; [exact E0|]. split; [exact Hh|].
  split; [exact sample_timer_ok|].
  destruct (disable_timeout_idempotent 3 false sample_armed sample_armed_entries e0
              Hwf Hq E0 Hh sample_timer_ok) as (p1 & p2 & H1 & H2 & H3 & Hout).
  assert (Hni : 3%nat ∉ index <$> sample_armed_entries).
  { apply (bool_decide_unpack _). vm_compute. exact I. }
  destruct (Hout Hni) as (Hn & Ha & He & Hi).
  exists p1, p2. repeat split; try assumption. exact (Hi eq_refl).
Defined.

Lemma sample_handlers_keep_statics : handlers_keep_statics.
Proof. intros h p. by destruct p. Qed.

Lemma handle_sig_alarm_spec_witness :
  let r := clock_reads sample_armed in
  let p0 := with_clock_reads (S r)
              (with_trace (trace sample_armed ++
                           (if MyProc sample_armed then [EvSetLatch] else []))
                 sample_armed) in
  handlers_keep_statics /\ timer_ok /\
  wf_statics (mem sample_armed) /\
  queue_invariants_for (mem sample_armed) sample_armed_entries /\
  0 < num_active_timeouts (mem sample_armed) /\
  (length sample_armed_entries <= 2)%nat /\
  exists (k : nat) (now' : TimestampTz) (p2 p' : process),
    handle_sig_alarm 2 sample_armed = (Ok tt, p') /\
    p' = with_errno (errno sample_armed)
           (with_trace (trace p2 ++ schedule_events now' (drop k sample_armed_entries))
              p2) /\
    (k <= length sample_armed_entries)%nat /\
    fire_rounds (take k sample_armed_entries) (drop k sample_armed_entries)
      (clock r) p0 now' p2 /\
    StronglySorted entry_lt (take k sample_armed_entries) /\
    (forall e, e ∈ drop k sample_armed_entries -> now' < fin_time e) /\
    (forall e, e ∈ take k sample_armed_entries ->
       all_timeouts (mem p') !! index e = Some (set_indicator true e)) /\
    wf_statics (mem p') /\
    queue_invariants_for (mem p') (drop k sample_armed_entries) /\
    errno p' = errno sample_armed /\
    (handlers_external ->
       now' = clock (r + k) /\
       (forall j e, (j < k)%nat -> sample_armed_entries !! j = Some e ->
          fin_time e <= clock (r + j)) /\
       clock_reads p' = S (r + k) /\
       trace p' = trace sample_armed ++
                  (if MyProc sample_armed then [EvSetLatch] else []) ++
                  fire_events (take k sample_armed_entries) ++
                  schedule_events (clock (r + k)) (drop k sample_armed_entries)).
Proof.
  intros r p0.
  assert (Hwf : wf_statics (mem sample_armed)) by solve_wf_statics.
  assert (Hq : queue_invariants_for (mem sample_armed) sample_armed_entries)
    by solve_queue_invariants.
  assert (Hn : 0 < num_active_timeouts (mem sample_armed)) by reflexivity.
  assert (Hf : (length sample_armed_entries <= 2)%nat) by (cbn; lia).
  split; [exact sample_handlers_keep_statics|]. split; [exact sample_timer_ok|].
  split; [exact Hwf|]. split; [exact Hq|]. split; [exact Hn|]. split; [exact Hf|].
  exact (handle_sig_alarm_spec 2 sample_armed sample_armed_entries
           sample_handlers_keep_statics sample_timer_ok Hwf Hq Hn Hf).
Defined.

Lemma RegisterTimeout_spec_witness :
  let e1 := mk_timeout_params 1 false None 0 0 in
  let e8 := mk_timeout_params 8 false None 0 0 in
  wf_statics (mem sample_idle) /\
  (USER_TIMEOUT <= MAX_TIMEOUTS)%nat /\
  RegisterTimeout 1 (Some 101%nat) sample_idle =
    (Ok 1%nat, set_slot 1 (set_timeout_handler (Some 101%nat) e1) sample_idle) /\
  RegisterTimeout USER_TIMEOUT (Some 202%nat) sample_idle =
    (Ok 8%nat, set_slot 8 (set_timeout_handler (Some 202%nat) e8) sample_idle) /\
  num_active_timeouts (mem (RegisterTimeout 1 (Some 101%nat) sample_idle).2) =
    num_active_timeouts (mem sample_idle) /\
  active_timeouts (mem (RegisterTimeout 1 (Some 101%nat) sample_idle).2) =
    active_timeouts (mem sample_idle).
Proof.
  intros e1 e8.
  assert (Hwf : wf_statics (mem sample_idle)) by solve_wf_statics.
  assert (HU : (USER_TIMEOUT <= MAX_TIMEOUTS)%nat) by (cbn; lia).
  split; [exact Hwf|]. split; [exact HU|].
  destruct (RegisterTimeout_spec 1 (Some 101%nat) sample_idle Hwf HU)
    as (Hpre & _ & Hn & Ha).
  destruct (RegisterTimeout_spec USER_TIMEOUT (Some 202%nat) sample_idle Hwf HU)
    as (_ & Huser & _).
  split.
  { destruct (Hpre ltac:(cbn; lia)) as (e & E & Hrun).
    injection E as <-. apply Hrun. reflexivity. }
  split; [|split; [exact Hn|exact Ha]].
  destruct (Huser ltac:(cbn; lia)) as (Hfree & _).
  apply (Hfree 8%nat e8); [cbn; lia|reflexivity|reflexivity|].
  intros s x Hs Hx. cbn in Hs.
  assert (s = 6 \/ s = 7)%nat as [-> | ->] by lia; injection Hx as <-; discriminate.
Defined.

Lemma schedule_alarm_spec_witness :
  wf_statics (mem sample_armed) /\
  queue_invariants_for (mem sample_armed) sample_armed_entries /\
  0 < num_active_timeouts (mem sample_armed) /\
  exists v,
    schedule_alarm 1100000 sample_armed =
      (if setitimer v =? 0 then Ok tt
       else Raise (FATAL "could not enable SIGALRM timer: %m" []),
       with_trace (trace sample_armed ++
                   [EvCall_schedule_alarm 1100000; EvSetitimer v]) sample_armed) /\
    it_interval v = mk_timeval 0 0 /\
    it_value v = mk_timeval 0 1 /\
    it_value v <> mk_timeval 0 0.
Proof.
  assert (Hwf : wf_statics (mem sample_armed)) by solve_wf_statics.
  assert (Hq : queue_invariants_for (mem sample_armed) sample_armed_entries)
    by solve_queue_invariants.
  split; [exact Hwf|]. split; [exact Hq|].
  exact (schedule_alarm_spec 1100000 sample_armed sample_armed_entries Hwf Hq).
Defined.

Lemma get_timeout_indicator_spec_witness :
  let e2 := mk_timeout_params 2 false (Some 102%nat) 1000000 1100000 in
  all_timeouts (mem sample_armed) !! 2%nat = Some e2 /\
  get_timeout_indicator 2 true sample_armed = (Ok false, sample_armed).
Proof.
  intros e2.
  assert (E : all_timeouts (mem sample_armed) !! 2%nat = Some e2) by reflexivity.
  split; [exact E|].
  exact (get_timeout_indicator_spec 2 true sample_armed e2 E).
Defined.

Lemma disable_all_timeouts_spec_witness :
  length (all_timeouts (mem sample_armed)) = MAX_TIMEOUTS /\
  setitimer itimerval_zero = 0 /\
  exists p',
    disable_all_timeouts false sample_armed = (Ok tt, p') /\
    trace p' = trace sample_armed ++ [EvSetitimer itimerval_zero] /\
    num_active_timeouts (mem p') = 0 /\
    all_timeouts (mem p') = (set_indicator false <$> all_timeouts (mem sample_armed)) /\
    (forall id e', all_timeouts (mem p') !! id = Some e' ->
       exists e, all_timeouts (mem sample_armed) !! id = Some e /\
         index e' = index e /\ timeout_handler e' = timeout_handler e /\
         start_time e' = start_time e /\ fin_time e' = fin_time e) /\
    (forall id, registered (mem sample_armed) id -> registered (mem p') id).
Proof.
  assert (Hlen : length (all_timeouts (mem sample_armed)) = MAX_TIMEOUTS) by reflexivity.
  assert (Hrc : setitimer itimerval_zero = 0) by reflexivity.
  split; [exact Hlen|]. split; [exact Hrc|].
  exact (disable_all_timeouts_spec false sample_armed Hlen Hrc).
Defined.

Lemma enable_timeouts_spec_witness :
  let now := clock (clock_reads sample_idle) in
  let es' := foldl (enqueue (handler_at (mem sample_idle)) now) [] sample_batch in
  wf_statics (mem sample_idle) /\
  queue_invariants_for (mem sample_idle) [] /\
  2 = Z.of_nat (length sample_batch) /\
  Forall (fun t => registered (mem sample_idle) (tp_id t)) sample_batch /\
  timer_ok /\
  Forall recognised sample_batch /\
  index <$> es' = [4; 3]%nat /\
  (enable_timeouts sample_bad_batch 3 sample_idle).1 =
    Raise (ERROR "unrecognized timeout type %d" [2]) /\
  exists p',
    enable_timeouts sample_batch 2 sample_idle = (Ok tt, p') /\
    clock_reads p' = S (clock_reads sample_idle) /\
    trace p' = trace sample_idle ++
      disable_events (1 <? 2) (num_active_timeouts (mem sample_idle)) ++
      enable_events now sample_batch ++ schedule_events now es' /\
    schedule_alarm_calls
      (disable_events (1 <? 2) (num_active_timeouts (mem sample_idle)) ++
       enable_events now sample_batch ++ schedule_events now es') = [now] /\
    wf_statics (mem p') /\ queue_invariants_for (mem p') es'.
Proof.
  intros now es'.
  assert (Hwf : wf_statics (mem sample_idle)) by solve_wf_statics.
  assert (Hq : queue_invariants_for (mem sample_idle) []) by solve_queue_invariants.
  assert (Hc : 2 = Z.of_nat (length sample_batch)) by reflexivity.
  assert (Hreg : Forall (fun t => registered (mem sample_idle) (tp_id t)) sample_batch)
    by (repeat constructor; solve_registered).
  assert (Hrec : Forall recognised sample_batch)
    by (constructor; [left; reflexivity|constructor; [right; reflexivity|constructor]]).
  split; [exact Hwf|]. split; [exact Hq|]. split; [exact Hc|]. split; [exact Hreg|].
  split; [exact sample_timer_ok|]. split; [exact Hrec|].
  split; [vm_compute; reflexivity|].
  split.
  - assert (Hreg3 : Forall (fun t => registered (mem sample_idle) (tp_id t))
                      sample_bad_batch) by (repeat constructor; solve_registered).
    exact (proj2 (enable_timeouts_spec sample_bad_batch 3 sample_idle [] Hwf Hq
                    eq_refl Hreg3 sample_timer_ok)
             [mk_EnableTimeoutParams 3 TMPARAM_AFTER 50 0]
             (mk_EnableTimeoutParams 7 2 0 0)
             [mk_EnableTimeoutParams 4 TMPARAM_AT 0 1010000]
             eq_refl
             ltac:(constructor; [left; reflexivity|constructor])
             ltac:(by intros [?|?])).
  - exact (proj1 (enable_timeouts_spec sample_batch 2 sample_idle [] Hwf Hq Hc Hreg
                    sample_timer_ok) Hrec).
Defined.

Lemma enable_timeouts_not_atomic_witness :
  let pre := [mk_EnableTimeoutParams 3 TMPARAM_AFTER 50 0] in
  let bad := mk_EnableTimeoutParams 7 2 0 0 in
  let post := [mk_EnableTimeoutParams 4 TMPARAM_AT 0 1010000] in
  let now := clock (clock_reads sample_idle) in
  let es' := foldl (enqueue (handler_at (mem sample_idle)) now) [] pre in
  let done_events :=
    disable_events (1 <? 3) (num_active_timeouts (mem sample_idle)) ++
    enable_events now pre in
  wf_statics (mem sample_idle) /\
  queue_invariants_for (mem sample_idle) [] /\
  3 = Z.of_nat (length sample_bad_batch) /\
  Forall (fun t => registered (mem sample_idle) (tp_id t)) sample_bad_batch /\
  timer_ok /\
  sample_bad_batch = pre ++ bad :: post /\
  Forall recognised pre /\
  ~ recognised bad /\
  exists p',
    enable_timeouts sample_bad_batch 3 sample_idle =
      (Raise (ERROR "unrecognized timeout type %d" [2]), p') /\
    trace p' = trace sample_idle ++ done_events /\
    Forall (fun ev => (forall t, ev <> EvCall_schedule_alarm t) /\
                      (forall v, ev = EvSetitimer v -> v = itimerval_zero))
      done_events /\
    wf_statics (mem p') /\ queue_invariants_for (mem p') es' /\
    0 < num_active_timeouts (mem p').
Proof.
  intros pre bad post now es' done_events.
  assert (Hwf : wf_statics (mem sample_idle)) by solve_wf_statics.
  assert (Hq : queue_invariants_for (mem sample_idle) []) by solve_queue_invariants.
  assert (Hc : 3 = Z.of_nat (length sample_bad_batch)) by reflexivity.
  assert (Hreg : Forall (fun t => registered (mem sample_idle) (tp_id t)) sample_bad_batch)
    by (repeat constructor; solve_registered).
  assert (Hts : sample_bad_batch = pre ++ bad :: post) by reflexivity.
  assert (Hrec : Forall recognised pre)
    by (constructor; [left; reflexivity|constructor]).
  assert (Hbad : ~ recognised bad) by (by intros [?|?]).
  split; [exact Hwf|]. split; [exact Hq|]. split; [exact Hc|]. split; [exact Hreg|].
  split; [exact sample_timer_ok|]. split; [exact Hts|]. split; [exact Hrec|].
  split; [exact Hbad|].
  destruct (enable_timeouts_not_atomic sample_bad_batch pre post bad 3 sample_idle []
              Hwf Hq Hc Hreg sample_timer_ok Hts Hrec Hbad)
    as (p' & H1 & H2 & H3 & H4 & H5 & H6).
  exists p'. split; [exact H1|]. split; [exact H2|]. split; [exact H3|].
  split; [exact H4|]. split; [exact H5|]. apply H6. discriminate.
Defined.


(** The sample states satisfy what the theorems ask for. *)

Lemma sample_idle_wf : wf_statics (mem sample_idle).
Proof. solve_wf_statics. Qed.

Lemma sample_idle_queue : queue_invariants_for (mem sample_idle) [].
Proof. solve_queue_invariants. Qed.

Lemma sample_armed_wf : wf_statics (mem sample_armed).
Proof. solve_wf_statics. Qed.

Lemma sample_armed_queue : queue_invariants_for (mem sample_armed) sample_armed_entries.
Proof. solve_queue_invariants. Qed.

Lemma sample_later_wf : wf_statics (mem sample_later).
Proof. solve_wf_statics. Qed.

Lemma sample_later_queue : queue_invariants_for (mem sample_later) sample_later_entries.
Proof. solve_queue_invariants. Qed.

Lemma sample_fresh_wf : wf_statics (mem sample_fresh).
Proof. solve_wf_statics. Qed.

Lemma sample_sizes : (USER_TIMEOUT <= MAX_TIMEOUTS)%nat.
Proof. cbn. lia. Qed.

Lemma sample_clock_monotone (i j : nat) : (i <= j)%nat -> clock i <= clock j.
Proof. intros Hij. cbn. lia. Qed.

Lemma find_active_timeout_spec_witness :
  wf_statics (mem sample_armed) /\
  queue_invariants_for (mem sample_armed) sample_armed_entries /\
  exists i : Z,
    find_active_timeout 5 sample_armed = (Ok i, sample_armed) /\
    (5%nat ∉ index <$> sample_armed_entries -> i = -1) /\
    (5%nat ∈ index <$> sample_armed_entries ->
       0 <= i < num_active_timeouts (mem sample_armed) /\
       active_timeouts (mem sample_armed) !! Z.to_nat i = Some (Some 5%nat) /\
       (exists e, sample_armed_entries !! Z.to_nat i = Some e /\ index e = 5%nat) /\
       (forall j e, (j < Z.to_nat i)%nat -> sample_armed_entries !! j = Some e ->
          index e <> 5%nat)).
Proof.
  split; [exact sample_armed_wf|]. split; [exact sample_armed_queue|].
  exact (find_active_timeout_spec 5 sample_armed sample_armed_entries
           sample_armed_wf sample_armed_queue).
Defined.

Lemma insert_timeout_spec_witness :
  insert_timeout 3 5 sample_armed =
    (Raise (FATAL "timeout index %d out of range 0..%d" [5; 2]), sample_armed) /\
  exists p',
    insert_timeout 3 1 sample_armed = (Ok tt, p') /\
    num_active_timeouts (mem p') = 3 /\
    queue (mem p') = [Some 2%nat; Some 3%nat; Some 5%nat] /\
    length (active_timeouts (mem p')) = length (active_timeouts (mem sample_armed)) /\
    all_timeouts (mem p') = all_timeouts (mem sample_armed) /\
    trace p' = trace sample_armed.
Proof.
  split.
  - apply (insert_timeout_spec 3 5 sample_armed). right. reflexivity.
  - apply (insert_timeout_spec 3 1 sample_armed); cbn; lia.
Defined.

Lemma remove_timeout_index_spec_witness :
  remove_timeout_index 2 sample_armed =
    (Raise (FATAL "timeout index %d out of range 0..%d" [2; 1]), sample_armed) /\
  exists p',
    remove_timeout_index 0 sample_armed = (Ok tt, p') /\
    num_active_timeouts (mem p') = 1 /\
    queue (mem p') = [Some 5%nat] /\
    length (active_timeouts (mem p')) = length (active_timeouts (mem sample_armed)) /\
    all_timeouts (mem p') = all_timeouts (mem sample_armed) /\
    trace p' = trace sample_armed.
Proof.
  split.
  - apply (remove_timeout_index_spec 2 sample_armed). right. cbn. lia.
  - apply (remove_timeout_index_spec 0 sample_armed); cbn; lia.
Defined.

Lemma insert_remove_round_trip_witness :
  0 <= 1 <= num_active_timeouts (mem sample_armed) /\
  num_active_timeouts (mem sample_armed) <
    Z.of_nat (length (active_timeouts (mem sample_armed))) /\
  exists p',
    (insert_timeout 3 1 ;; remove_timeout_index 1) sample_armed = (Ok tt, p') /\
    num_active_timeouts (mem p') = num_active_timeouts (mem sample_armed) /\
    queue (mem p') = queue (mem sample_armed) /\
    all_timeouts (mem p') = all_timeouts (mem sample_armed) /\
    trace p' = trace sample_armed.
Proof.
  assert (H1 : 0 <= 1 <= num_active_timeouts (mem sample_armed)) by (cbn; lia).
  assert (H2 : num_active_timeouts (mem sample_armed) <
               Z.of_nat (length (active_timeouts (mem sample_armed)))) by (cbn; lia).
  split; [exact H1|]. split; [exact H2|].
  exact (insert_remove_round_trip 3 1 sample_armed H1 H2).
Defined.

(** [InitializeTimeouts] called again while two timeouts are active. *)
Lemma InitializeTimeouts_spec_witness :
  length (all_timeouts (mem sample_armed)) = MAX_TIMEOUTS /\
  length (active_timeouts (mem sample_armed)) = MAX_TIMEOUTS /\
  (USER_TIMEOUT <= MAX_TIMEOUTS)%nat /\
  exists p1,
    InitializeTimeouts sample_armed = (Ok tt, p1) /\
    trace p1 = trace sample_armed ++ [EvPqsignal] /\
    clock_reads p1 = clock_reads sample_armed /\
    active_timeouts (mem p1) = active_timeouts (mem sample_armed) /\
    wf_statics (mem p1) /\ queue_invariants_for (mem p1) [] /\
    (forall id, ~ registered (mem p1) id) /\
    (forall id, (id < MAX_TIMEOUTS)%nat ->
       all_timeouts (mem p1) !! id = Some (mk_timeout_params id false None 0 0)) /\
    (forall id reset_indicator, (id < MAX_TIMEOUTS)%nat ->
       get_timeout_indicator id reset_indicator p1 = (Ok false, p1) /\
       get_timeout_start_time id p1 = (Ok 0, p1)) /\
    (forall id handler s p2 reset_indicator,
       RegisterTimeout id handler p1 = (Ok s, p2) ->
       get_timeout_indicator s reset_indicator p2 = (Ok false, p2) /\
       get_timeout_start_time s p2 = (Ok 0, p2)) /\
    (forall fuel,
       handle_sig_alarm fuel p1 =
         (Ok tt, with_trace (trace p1 ++ (if MyProc p1 then [EvSetLatch] else [])) p1)).
Proof.
  assert (H1 : length (all_timeouts (mem sample_armed)) = MAX_TIMEOUTS) by reflexivity.
  assert (H2 : length (active_timeouts (mem sample_armed)) = MAX_TIMEOUTS) by reflexivity.
  split; [exact H1|]. split; [exact H2|]. split; [exact sample_sizes|].
  exact (InitializeTimeouts_spec sample_armed H1 H2 sample_sizes).
Defined.

Lemma RegisterTimeout_reregister_witness :
  let e3 := mk_timeout_params 3 false (Some 103%nat) 0 0 in
  wf_statics (mem sample_idle) /\ (3 < USER_TIMEOUT)%nat /\
  all_timeouts (mem sample_idle) !! 3%nat = Some e3 /\ timeout_handler e3 <> None /\
  RegisterTimeout 3 (Some 7%nat) sample_idle = (Raise TRAP, sample_idle) /\
  RegisterTimeout 3 None sample_idle = (Raise TRAP, sample_idle).
Proof.
  intros e3.
  assert (Hid : (3 < USER_TIMEOUT)%nat) by (cbn; lia).
  assert (E : all_timeouts (mem sample_idle) !! 3%nat = Some e3) by reflexivity.
  assert (Hh : timeout_handler e3 <> None) by discriminate.
  split; [exact sample_idle_wf|]. split; [exact Hid|]. split; [exact E|].
  split; [exact Hh|]. split.
  - exact (RegisterTimeout_reregister 3 (Some 7%nat) sample_idle e3 sample_idle_wf Hid E Hh).
  - exact (RegisterTimeout_reregister 3 None sample_idle e3 sample_idle_wf Hid E Hh).
Defined.

Lemma RegisterTimeout_null_handler_witness :
  wf_statics (mem sample_idle) /\ (USER_TIMEOUT <= MAX_TIMEOUTS)%nat /\
  (USER_TIMEOUT <= 9)%nat /\
  (RegisterTimeout 9 None sample_idle).2 = sample_idle /\
  (forall id' handler, (USER_TIMEOUT <= id')%nat ->
     (RegisterTimeout id' handler sample_idle).1 = (RegisterTimeout 9 None sample_idle).1).
Proof.
  assert (Hid : (USER_TIMEOUT <= 9)%nat) by (cbn; lia).
  split; [exact sample_idle_wf|]. split; [exact sample_sizes|]. split; [exact Hid|].
  exact (RegisterTimeout_null_handler 9 sample_idle sample_idle_wf sample_sizes Hid).
Defined.

Lemma RegisterTimeout_user_distinct_witness :
  let p1 := (RegisterTimeout 6 (Some 300%nat) sample_idle).2 in
  wf_statics (mem sample_idle) /\ (USER_TIMEOUT <= MAX_TIMEOUTS)%nat /\
  (USER_TIMEOUT <= 6)%nat /\ (USER_TIMEOUT <= 12)%nat /\
  RegisterTimeout 6 (Some 300%nat) sample_idle = (Ok 8%nat, p1) /\
  (USER_TIMEOUT <= 8 < MAX_TIMEOUTS)%nat /\
  ~ registered (mem sample_idle) 8 /\
  handler_at (mem p1) 8 = Some 300%nat /\
  (forall x, x <> 8%nat ->
     all_timeouts (mem p1) !! x = all_timeouts (mem sample_idle) !! x) /\
  wf_statics (mem p1) /\
  ((exists s2 p2, RegisterTimeout 12 (Some 301%nat) p1 = (Ok s2, p2) /\
                  (8 < s2 < MAX_TIMEOUTS)%nat) \/
   RegisterTimeout 12 (Some 301%nat) p1 =
     (Raise (FATAL "cannot add more timeout reasons" []), p1)).
Proof.
  intros p1.
  assert (H1 : (USER_TIMEOUT <= 6)%nat) by (cbn; lia).
  assert (H2 : (USER_TIMEOUT <= 12)%nat) by (cbn; lia).
  assert (Hrun : RegisterTimeout 6 (Some 300%nat) sample_idle = (Ok 8%nat, p1))
    by reflexivity.
  split; [exact sample_idle_wf|]. split; [exact sample_sizes|]. split; [exact H1|].
  split; [exact H2|]. split; [exact Hrun|].
  exact (RegisterTimeout_user_distinct 6 12 300%nat (Some 301%nat) sample_idle
           sample_idle_wf sample_sizes H1 H2 8%nat p1 Hrun).
Defined.

Lemma RegisterTimeout_writes_one_handler_witness :
  let r := (RegisterTimeout 1 (Some 101%nat) sample_armed).1 in
  let p' := (RegisterTimeout 1 (Some 101%nat) sample_armed).2 in
  wf_statics (mem sample_armed) /\ (USER_TIMEOUT <= MAX_TIMEOUTS)%nat /\
  r = Ok 1%nat /\
  errno p' = errno sample_armed /\ MyProc p' = MyProc sample_armed /\
  clock_reads p' = clock_reads sample_armed /\
  trace p' = trace sample_armed /\
  all_timeouts_initialized (mem p') = all_timeouts_initialized (mem sample_armed) /\
  length (all_timeouts (mem p')) = length (all_timeouts (mem sample_armed)) /\
  (forall x e, all_timeouts (mem sample_armed) !! x = Some e ->
     exists e', all_timeouts (mem p') !! x = Some e' /\
       index e' = index e /\ indicator e' = indicator e /\
       start_time e' = start_time e /\ fin_time e' = fin_time e /\
       (r <> Ok x -> e' = e) /\
       (r = Ok x -> timeout_handler e' = Some 101%nat)) /\
  ((forall s, r <> Ok s) -> p' = sample_armed).
Proof.
  intros r p'.
  split; [exact sample_armed_wf|]. split; [exact sample_sizes|].
  split; [reflexivity|].
  exact (RegisterTimeout_writes_one_handler 1 (Some 101%nat) sample_armed
           sample_armed_wf sample_sizes).
Defined.

Lemma user_timeouts_capacity_witness :
  wf_statics (mem sample_fresh) /\ (USER_TIMEOUT <= MAX_TIMEOUTS)%nat /\
  (forall s e, (USER_TIMEOUT <= s < MAX_TIMEOUTS)%nat ->
     all_timeouts (mem sample_fresh) !! s = Some e -> timeout_handler e = None) /\
  (register_each (seq 300 10) sample_fresh).1 = Ok (seq 6 10) /\
  (register_each (seq 300 11) sample_fresh).1 =
    Raise (FATAL "cannot add more timeout reasons" []).
Proof.
  assert (Hfree : forall s e, (USER_TIMEOUT <= s < MAX_TIMEOUTS)%nat ->
            all_timeouts (mem sample_fresh) !! s = Some e -> timeout_handler e = None).
  { intros s e _ Hl.
    do 16 (destruct s as [|s]; [by injection Hl as <-|]). discriminate Hl. }
  split; [exact sample_fresh_wf|]. split; [exact sample_sizes|]. split; [exact Hfree|].
  split.
  - apply (user_timeouts_capacity (seq 300 10) sample_fresh sample_fresh_wf
             sample_sizes Hfree). cbn. lia.
  - apply (user_timeouts_capacity (seq 300 11) sample_fresh sample_fresh_wf
             sample_sizes Hfree). cbn. lia.
Defined.

(** Reason 3 armed for 1.15 s while 2 and 5 wait for 1.1 s: it goes behind
    them, and the timer is armed for the head. *)
Lemma enable_timeout_at_spec_witness :
  let e0 := mk_timeout_params 3 false (Some 103%nat) 0 0 in
  let e1 := mk_timeout_params 3 false (Some 103%nat) 1100000 1150000 in
  let es' := sample_armed_entries ++ [e1] in
  wf_statics (mem sample_armed) /\
  queue_invariants_for (mem sample_armed) sample_armed_entries /\
  all_timeouts (mem sample_armed) !! 3%nat = Some e0 /\ timeout_handler e0 <> None /\
  timer_ok /\
  exists p' hd,
    enable_timeout_at 3 1150000 sample_armed = (Ok tt, p') /\
    wf_statics (mem p') /\ queue_invariants_for (mem p') es' /\
    all_timeouts (mem p') = <[3%nat := e1]> (all_timeouts (mem sample_armed)) /\
    without 3 es' = without 3 sample_armed_entries /\
    clock_reads p' = S (clock_reads sample_armed) /\
    head es' = Some hd /\ fin_time hd <= 1150000 /\
    last (trace p') = Some (EvSetitimer (alarm_value 1100000 (fin_time hd))) /\
    it_value (alarm_value 1100000 (fin_time hd)) <> mk_timeval 0 0.
Proof.
  intros e0 e1 es'.
  assert (E0 : all_timeouts (mem sample_armed) !! 3%nat = Some e0) by reflexivity.
  assert (Hh : timeout_handler e0 <> None) by discriminate.
  split; [exact sample_armed_wf|]. split; [exact sample_armed_queue|].
  split; [exact E0|]. split; [exact Hh|]. split; [exact sample_timer_ok|].
  exact (enable_timeout_at_spec 3 1150000 sample_armed sample_armed_entries e0
           sample_armed_wf sample_armed_queue E0 Hh sample_timer_ok).
Defined.

(** Cancelling reason 2 of the two that are armed: reason 5 stays, and the
    timer is armed for it. *)
Lemma disable_timeout_spec_witness :
  let e0 := mk_timeout_params 2 false (Some 102%nat) 1000000 1100000 in
  let e5 := mk_timeout_params 5 false (Some 105%nat) 1000000 1100000 in
  wf_statics (mem sample_armed) /\
  queue_invariants_for (mem sample_armed) sample_armed_entries /\
  all_timeouts (mem sample_armed) !! 2%nat = Some e0 /\ timeout_handler e0 <> None /\
  timer_ok /\
  exists p',
    disable_timeout 2 true sample_armed = (Ok tt, p') /\
    wf_statics (mem p') /\ queue_invariants_for (mem p') [e5] /\
    all_timeouts (mem p') = all_timeouts (mem sample_armed) /\
    clock_reads p' = S (clock_reads sample_armed) /\
    trace p' = trace sample_armed ++
               disable_events false (num_active_timeouts (mem sample_armed)) ++
               [EvCall_schedule_alarm 1100000;
                EvSetitimer (alarm_value 1100000 (fin_time e5))].
Proof.
  intros e0 e5.
  assert (E0 : all_timeouts (mem sample_armed) !! 2%nat = Some e0) by reflexivity.
  assert (Hh : timeout_handler e0 <> None) by discriminate.
  split; [exact sample_armed_wf|]. split; [exact sample_armed_queue|].
  split; [exact E0|]. split; [exact Hh|]. split; [exact sample_timer_ok|].
  exact (disable_timeout_spec 2 true sample_armed sample_armed_entries e0
           sample_armed_wf sample_armed_queue E0 Hh sample_timer_ok).
Defined.

Lemma enable_disable_round_trip_witness :
  let e0 := mk_timeout_params 3 false (Some 103%nat) 0 0 in
  let e1 := mk_timeout_params 3 false (Some 103%nat) 1100000 1150000 in
  wf_statics (mem sample_armed) /\
  queue_invariants_for (mem sample_armed) sample_armed_entries /\
  all_timeouts (mem sample_armed) !! 3%nat = Some e0 /\ timeout_handler e0 <> None /\
  timer_ok /\
  exists p1 p2,
    enable_timeout_at 3 1150000 sample_armed = (Ok tt, p1) /\
    disable_timeout 3 false p1 = (Ok tt, p2) /\
    queue_invariants_for (mem p2) (without 3 sample_armed_entries) /\
    all_timeouts (mem p2) = <[3%nat := e1]> (all_timeouts (mem sample_armed)) /\
    (3%nat ∉ index <$> sample_armed_entries ->
       queue_invariants_for (mem p2) sample_armed_entries /\
       num_active_timeouts (mem p2) = num_active_timeouts (mem sample_armed) /\
       queue (mem p2) = queue (mem sample_armed)).
Proof.
  intros e0 e1.
  assert (E0 : all_timeouts (mem sample_armed) !! 3%nat = Some e0) by reflexivity.
  assert (Hh : timeout_handler e0 <> None) by discriminate.
  split; [exact sample_armed_wf|]. split; [exact sample_armed_queue|].
  split; [exact E0|]. split; [exact Hh|]. split; [exact sample_timer_ok|].
  exact (enable_disable_round_trip 3 1150000 false sample_armed sample_armed_entries e0
           sample_armed_wf sample_armed_queue E0 Hh sample_timer_ok).
Defined.

Lemma get_timeout_start_time_after_enable_witness :
  let e0 := mk_timeout_params 4 false (Some 104%nat) 0 0 in
  wf_statics (mem sample_idle) /\ queue_invariants_for (mem sample_idle) [] /\
  all_timeouts (mem sample_idle) !! 4%nat = Some e0 /\ timeout_handler e0 <> None /\
  timer_ok /\
  exists p1 p2,
    enable_timeout_at 4 2000000 sample_idle = (Ok tt, p1) /\
    get_timeout_start_time 4 p1 = (Ok 1000000, p1) /\
    disable_timeout 4 false p1 = (Ok tt, p2) /\
    get_timeout_start_time 4 p2 = (Ok 1000000, p2).
Proof.
  intros e0.
  assert (E0 : all_timeouts (mem sample_idle) !! 4%nat = Some e0) by reflexivity.
  assert (Hh : timeout_handler e0 <> None) by discriminate.
  split; [exact sample_idle_wf|]. split; [exact sample_idle_queue|].
  split; [exact E0|]. split; [exact Hh|]. split; [exact sample_timer_ok|].
  exact (get_timeout_start_time_after_enable 4 2000000 false sample_idle [] e0
           sample_idle_wf sample_idle_queue E0 Hh sample_timer_ok).
Defined.

Lemma handle_sig_alarm_idle_witness :
  num_active_timeouts (mem sample_idle) <= 0 /\
  handle_sig_alarm 0 sample_idle =
    (Ok tt, with_trace (trace sample_idle ++ [EvSetLatch]) sample_idle) /\
  exists p1,
    disable_all_timeouts true sample_armed = (Ok tt, p1) /\
    handle_sig_alarm 2 p1 =
      (Ok tt, with_trace (trace p1 ++ (if MyProc p1 then [EvSetLatch] else [])) p1).
Proof.
  assert (Hn : num_active_timeouts (mem sample_idle) <= 0) by (cbn; lia).
  split; [exact Hn|]. split.
  - exact (proj1 (handle_sig_alarm_idle 0 sample_idle) Hn).
  - exact (proj2 (handle_sig_alarm_idle 2 sample_armed) sample_armed_wf
             sample_timer_ok true).
Defined.

(** SIGALRM at 1.1 s while reason 3 waits for 5.0 s. *)
Lemma handle_sig_alarm_not_due_witness :
  let e3 := mk_timeout_params 3 false (Some 103%nat) 1000000 5000000 in
  timer_ok /\ wf_statics (mem sample_later) /\
  queue_invariants_for (mem sample_later) [e3] /\
  clock (clock_reads sample_later) < fin_time e3 /\
  handle_sig_alarm 1 sample_later =
    (Ok tt,
     mk_process (mem sample_later) (errno sample_later) (MyProc sample_later)
       (S (clock_reads sample_later))
       (trace sample_later ++ [EvSetLatch] ++
        [EvCall_schedule_alarm 1100000; EvSetitimer (alarm_value 1100000 5000000)])).
Proof.
  intros e3.
  assert (Hnot : clock (clock_reads sample_later) < fin_time e3) by (cbn; lia).
  split; [exact sample_timer_ok|]. split; [exact sample_later_wf|].
  split; [exact sample_later_queue|]. split; [exact Hnot|].
  exact (handle_sig_alarm_not_due 1 sample_later e3 [] sample_timer_ok sample_later_wf
           sample_later_queue Hnot).
Defined.

Lemma handle_sig_alarm_all_due_witness :
  handlers_external /\ wf_statics (mem sample_armed) /\
  queue_invariants_for (mem sample_armed) sample_armed_entries /\
  0 < num_active_timeouts (mem sample_armed) /\
  (length sample_armed_entries <= 2)%nat /\
  (forall i j : nat, (i <= j)%nat -> clock i <= clock j) /\
  Forall (fun e => fin_time e <= clock (clock_reads sample_armed)) sample_armed_entries /\
  exists p',
    handle_sig_alarm 2 sample_armed = (Ok tt, p') /\
    trace p' = trace sample_armed ++ [EvSetLatch] ++
               [EvHandler 102; EvHandler 105] ++ [EvCall_schedule_alarm 1300000] /\
    clock_reads p' = 4%nat /\
    num_active_timeouts (mem p') = 0 /\
    wf_statics (mem p') /\ queue_invariants_for (mem p') [] /\
    (forall e, e ∈ sample_armed_entries ->
       all_timeouts (mem p') !! index e = Some (set_indicator true e)) /\
    (forall id, id ∉ index <$> sample_armed_entries ->
       all_timeouts (mem p') !! id = all_timeouts (mem sample_armed) !! id).
Proof.
  assert (Hn : 0 < num_active_timeouts (mem sample_armed)) by reflexivity.
  assert (Hf : (length sample_armed_entries <= 2)%nat) by (cbn; lia).
  assert (Hdue : Forall (fun e => fin_time e <= clock (clock_reads sample_armed))
                   sample_armed_entries) by (repeat constructor; cbn; lia).
  split; [exact sample_handlers_external|]. split; [exact sample_armed_wf|].
  split; [exact sample_armed_queue|]. split; [exact Hn|]. split; [exact Hf|].
  split; [exact sample_clock_monotone|]. split; [exact Hdue|].
  exact (handle_sig_alarm_all_due 2 sample_armed sample_armed_entries
           sample_handlers_external sample_armed_wf sample_armed_queue Hn Hf
           sample_clock_monotone Hdue).
Defined.

Lemma handle_sig_alarm_frame_witness :
  handlers_external /\ timer_ok /\ wf_statics (mem sample_armed) /\
  queue_invariants_for (mem sample_armed) sample_armed_entries /\
  (length sample_armed_entries <= 2)%nat /\
  exists p',
    handle_sig_alarm 2 sample_armed = (Ok tt, p') /\
    length (all_timeouts (mem p')) = length (all_timeouts (mem sample_armed)) /\
    forall id e, all_timeouts (mem sample_armed) !! id = Some e ->
      exists e',
        all_timeouts (mem p') !! id = Some e' /\
        index e' = index e /\ timeout_handler e' = timeout_handler e /\
        start_time e' = start_time e /\ fin_time e' = fin_time e /\
        (indicator e = true -> indicator e' = true) /\
        (indicator e' = true -> indicator e = false ->
           e ∈ sample_armed_entries /\
           exists j : nat, fin_time e <= clock (clock_reads sample_armed + j) /\
                           (clock_reads sample_armed + j < clock_reads p')%nat).
Proof.
  assert (Hf : (length sample_armed_entries <= 2)%nat) by (cbn; lia).
  split; [exact sample_handlers_external|]. split; [exact sample_timer_ok|].
  split; [exact sample_armed_wf|]. split; [exact sample_armed_queue|].
  split; [exact Hf|].
  exact (handle_sig_alarm_frame 2 sample_armed sample_armed_entries
           sample_handlers_external sample_timer_ok sample_armed_wf sample_armed_queue Hf).
Defined.

Lemma fired_timeout_is_reported_witness :
  let e2 := mk_timeout_params 2 false (Some 102%nat) 1000000 1100000 in
  let e5 := mk_timeout_params 5 false (Some 105%nat) 1000000 1100000 in
  handlers_external /\ timer_ok /\ wf_statics (mem sample_armed) /\
  queue_invariants_for (mem sample_armed) [e2; e5] /\
  (length [e2; e5] <= 2)%nat /\
  fin_time e2 <= clock (clock_reads sample_armed) /\
  exists p1 p2 es1,
    handle_sig_alarm 2 sample_armed = (Ok tt, p1) /\
    queue_invariants_for (mem p1) es1 /\ (2%nat ∉ index <$> es1) /\
    get_timeout_indicator 2 true p1 = (Ok true, p2) /\
    get_timeout_indicator 2 true p2 = (Ok false, p2).
Proof.
  intros e2 e5.
  assert (Hf : (length [e2; e5] <= 2)%nat) by (cbn; lia).
  assert (Hdue : fin_time e2 <= clock (clock_reads sample_armed)) by (cbn; lia).
  split; [exact sample_handlers_external|]. split; [exact sample_timer_ok|].
  split; [exact sample_armed_wf|]. split; [exact sample_armed_queue|].
  split; [exact Hf|]. split; [exact Hdue|].
  exact (fired_timeout_is_reported 2 true sample_armed e2 [e5]
           sample_handlers_external sample_timer_ok sample_armed_wf sample_armed_queue
           Hf Hdue).
Defined.

Lemma disable_timeouts_as_sequence_witness :
  let e2 := mk_timeout_params 2 false (Some 102%nat) 1000000 1100000 in
  wf_statics (mem sample_armed) /\
  queue_invariants_for (mem sample_armed) sample_armed_entries /\
  2 = Z.of_nat (length sample_cancel_batch) /\
  Forall (fun t => registered (mem sample_armed) (dp_id t)) sample_cancel_batch /\
  timer_ok /\
  exists p1 p2,
    disable_timeouts sample_cancel_batch 2 sample_armed = (Ok tt, p1) /\
    disable_each sample_cancel_batch sample_armed = (Ok tt, p2) /\
    queue_invariants_for (mem p1) [e2] /\ queue_invariants_for (mem p2) [e2] /\
    all_timeouts (mem p1) = all_timeouts (mem p2) /\
    num_active_timeouts (mem p1) = num_active_timeouts (mem p2) /\
    queue (mem p1) = queue (mem p2) /\
    trace p1 = trace sample_armed ++
               disable_events false (num_active_timeouts (mem sample_armed)) ++
               reschedule_events (clock (clock_reads sample_armed)) [e2] /\
    (clock_reads p1 <= S (clock_reads sample_armed))%nat.
Proof.
  intros e2.
  assert (Hc : 2 = Z.of_nat (length sample_cancel_batch)) by reflexivity.
  assert (Hreg : Forall (fun t => registered (mem sample_armed) (dp_id t))
                   sample_cancel_batch) by (repeat constructor; solve_registered).
  split; [exact sample_armed_wf|]. split; [exact sample_armed_queue|].
  split; [exact Hc|]. split; [exact Hreg|]. split; [exact sample_timer_ok|].
  exact (disable_timeouts_as_sequence sample_cancel_batch 2 sample_armed
           sample_armed_entries sample_armed_wf sample_armed_queue Hc Hreg
           sample_timer_ok).
Defined.

Lemma enable_timeouts_as_sequence_witness :
  wf_statics (mem sample_idle) /\ queue_invariants_for (mem sample_idle) [] /\
  2 = Z.of_nat (length sample_at_batch) /\
  Forall (fun t => registered (mem sample_idle) (tp_id t)) sample_at_batch /\
  Forall (fun t => tp_type t = TMPARAM_AT) sample_at_batch /\
  timer_ok /\
  exists p1 p2 es1 es2,
    enable_timeouts sample_at_batch 2 sample_idle = (Ok tt, p1) /\
    enable_each_at sample_at_batch sample_idle = (Ok tt, p2) /\
    queue_invariants_for (mem p1) es1 /\ queue_invariants_for (mem p2) es2 /\
    set_start_time 0 <$> es1 = set_start_time 0 <$> es2 /\
    queue (mem p1) = queue (mem p2) /\
    num_active_timeouts (mem p1) = num_active_timeouts (mem p2) /\
    set_start_time 0 <$> all_timeouts (mem p1) =
      set_start_time 0 <$> all_timeouts (mem p2) /\
    clock_reads p1 = S (clock_reads sample_idle) /\
    clock_reads p2 = (length sample_at_batch + clock_reads sample_idle)%nat.
Proof.
  assert (Hc : 2 = Z.of_nat (length sample_at_batch)) by reflexivity.
  assert (Hreg : Forall (fun t => registered (mem sample_idle) (tp_id t))
                   sample_at_batch) by (repeat constructor; solve_registered).
  assert (Hat : Forall (fun t => tp_type t = TMPARAM_AT) sample_at_batch)
    by (repeat constructor).
  split; [exact sample_idle_wf|]. split; [exact sample_idle_queue|].
  split; [exact Hc|]. split; [exact Hreg|]. split; [exact Hat|].
  split; [exact sample_timer_ok|].
  exact (enable_timeouts_as_sequence sample_at_batch 2 sample_idle [] sample_idle_wf
           sample_idle_queue Hc Hreg Hat sample_timer_ok).
Defined.

Lemma empty_batches_witness :
  let now := clock (clock_reads sample_armed) in
  wf_statics (mem sample_armed) /\
  queue_invariants_for (mem sample_armed) sample_armed_entries /\
  timer_ok /\ 0 <= 0 /\
  enable_timeouts sample_batch 0 sample_armed =
    (Ok tt, mk_process (mem sample_armed) (errno sample_armed) (MyProc sample_armed)
              (S (clock_reads sample_armed))
              (trace sample_armed ++
               disable_events false (num_active_timeouts (mem sample_armed)) ++
               schedule_events now sample_armed_entries)) /\
  disable_timeouts sample_cancel_batch 0 sample_armed =
    (Ok tt, mk_process (mem sample_armed) (errno sample_armed) (MyProc sample_armed)
              (reschedule_reads sample_armed_entries + clock_reads sample_armed)
              (trace sample_armed ++
               disable_events false (num_active_timeouts (mem sample_armed)) ++
               reschedule_events now sample_armed_entries)).
Proof.
  intros now.
  assert (Hc : 0 <= 0) by lia.
  split; [exact sample_armed_wf|]. split; [exact sample_armed_queue|].
  split; [exact sample_timer_ok|]. split; [exact Hc|].
  exact (empty_batches sample_batch sample_cancel_batch 0 sample_armed
           sample_armed_entries sample_armed_wf sample_armed_queue sample_timer_ok Hc).
Defined.

(** Reason 1 was never registered. *)
Lemma unregistered_id_traps_witness :
  let e1 := mk_timeout_params 1 false None 0 0 in
  USE_ASSERT_CHECKING = true /\ timer_ok /\
  all_timeouts (mem sample_idle) !! 1%nat = Some e1 /\ timeout_handler e1 = None /\
  (forall fin, (enable_timeout_at 1 fin sample_idle).1 = Raise TRAP /\
               mem (enable_timeout_at 1 fin sample_idle).2 = mem sample_idle) /\
  (forall delay_ms, (enable_timeout_after 1 delay_ms sample_idle).1 = Raise TRAP /\
                    mem (enable_timeout_after 1 delay_ms sample_idle).2 = mem sample_idle) /\
  (forall keep_indicator,
     disable_timeout 1 keep_indicator sample_idle = (Raise TRAP, sample_idle)) /\
  (forall keep_indicator unused_delay fin,
     (disable_timeouts [mk_DisableTimeoutParams 1 keep_indicator] 1 sample_idle).1 =
       Raise TRAP /\
     mem (disable_timeouts [mk_DisableTimeoutParams 1 keep_indicator] 1 sample_idle).2 =
       mem sample_idle /\
     (enable_timeouts [mk_EnableTimeoutParams 1 TMPARAM_AT unused_delay fin] 1
        sample_idle).1 = Raise TRAP /\
     mem (enable_timeouts [mk_EnableTimeoutParams 1 TMPARAM_AT unused_delay fin] 1
            sample_idle).2 = mem sample_idle).
Proof.
  intros e1.
  assert (Ha : USE_ASSERT_CHECKING = true) by reflexivity.
  assert (E : all_timeouts (mem sample_idle) !! 1%nat = Some e1) by reflexivity.
  assert (Hnone : timeout_handler e1 = None) by reflexivity.
  split; [exact Ha|]. split; [exact sample_timer_ok|]. split; [exact E|].
  split; [exact Hnone|].
  exact (unregistered_id_traps 1 sample_idle e1 Ha sample_timer_ok E Hnone).
Defined.

(** Cancelling reason 2 leaves the timer armed for reason 5. *)
Lemma mutators_program_timer_witness :
  let op := Op_disable_timeout 2 false in
  wf_statics (mem sample_armed) /\ queue_invariants (mem sample_armed) /\
  mutator_pre (mem sample_armed) op /\ mutator_args_ok op /\ timer_ok /\
  exists p' es' evs,
    run_mutator op sample_armed = (Ok tt, p') /\
    trace p' = trace sample_armed ++ evs /\
    queue_invariants_for (mem p') es' /\
    match es' with
    | [] => Forall (fun v => v = itimerval_zero) (setitimer_calls evs)
    | hd :: _ =>
        exists v, last evs = Some (EvSetitimer v) /\
          v = alarm_value (clock (clock_reads sample_armed)) (fin_time hd) /\
          it_value v <> mk_timeval 0 0
    end.
Proof.
  intros op.
  assert (Hq : queue_invariants (mem sample_armed))
    by (exists sample_armed_entries; exact sample_armed_queue).
  assert (Hpre : mutator_pre (mem sample_armed) op) by solve_registered.
  assert (Hargs : mutator_args_ok op) by exact I.
  split; [exact sample_armed_wf|]. split; [exact Hq|]. split; [exact Hpre|].
  split; [exact Hargs|]. split; [exact sample_timer_ok|].
  exact (mutators_program_timer op sample_armed sample_armed_wf Hq Hpre Hargs
           sample_timer_ok).
Defined.




End Witnesses.

(** ** A host whose timer fails *)

Section FailingHost.
#[local] Existing Instance failing_host.

Lemma timer_failure_is_fatal_witness :
  let e3 := mk_timeout_params 3 false (Some 103%nat) 0 0 in
  let off := Raise (FATAL "could not disable SIGALRM timer: %m" []) in
  let on := Raise (FATAL "could not enable SIGALRM timer: %m" []) in
  let stopped := with_trace (trace sample_armed ++
                   [EvCall_disable_alarm false; EvSetitimer itimerval_zero]) sample_armed in
  (forall v, setitimer v <> 0) /\
  wf_statics (mem sample_armed) /\
  queue_invariants_for (mem sample_armed) sample_armed_entries /\
  wf_statics (mem sample_idle) /\ queue_invariants_for (mem sample_idle) [] /\
  disable_all_timeouts false sample_armed =
    (off, with_trace (trace sample_armed ++ [EvSetitimer itimerval_zero]) sample_armed) /\
  enable_timeout_at 3 1150000 sample_armed = (off, stopped) /\
  enable_timeout_after 3 50 sample_armed = (off, stopped) /\
  disable_timeout 2 false sample_armed = (off, stopped) /\
  exists p',
    enable_timeout_at 3 1150000 sample_idle = (on, p') /\
    queue_invariants_for (mem p') [armed (clock (clock_reads sample_idle)) 1150000 e3] /\
    setitimer_calls (trace p') =
      setitimer_calls (trace sample_idle) ++
      [alarm_value (clock (clock_reads sample_idle)) 1150000].
Proof.
  intros e3 off on stopped.
  assert (Hfail : forall v, setitimer v <> 0) by (intros v; discriminate).
  assert (Hwfa : wf_statics (mem sample_armed)) by solve_wf_statics.
  assert (Hqa : queue_invariants_for (mem sample_armed) sample_armed_entries)
    by solve_queue_invariants.
  assert (Hwfi : wf_statics (mem sample_idle)) by solve_wf_statics.
  assert (Hqi : queue_invariants_for (mem sample_idle) []) by solve_queue_invariants.
  split; [exact Hfail|]. split; [exact Hwfa|]. split; [exact Hqa|].
  split; [exact Hwfi|]. split; [exact Hqi|].
  destruct (timer_failure_is_fatal sample_armed sample_armed_entries Hfail Hwfa Hqa)
    as (Hall & Hactive & _).
  destruct (timer_failure_is_fatal sample_idle [] Hfail Hwfi Hqi) as (_ & _ & Hidle).
  split; [exact (Hall false)|].
  destruct (Hactive ltac:(discriminate) 3%nat 1150000 50 false) as (Hat & Hafter & _).
  destruct (Hactive ltac:(discriminate) 2%nat 0 0 false) as (_ & _ & Hdis).
  split; [exact Hat|]. split; [exact Hafter|].
  split; [apply Hdis; solve_registered|].
  exact (Hidle eq_refl 3%nat 1150000 e3 eq_refl ltac:(discriminate)).
Defined.

End FailingHost.

(** ** A host whose callbacks call back into timeout.c *)

Section ReentrantHost.
#[local] Existing Instance reentrant_host.

(** C4 as the claim has it, for any callbacks, fails here.  SIGALRM finds
    reasons 2 and 5 due.  The callback of 2 arms reason 3 for a time before
    theirs; 3 fires next, then 5: three callbacks run, for timeouts whose
    [(fin_time, index)] do not increase, and the second is none of the
    queue the handler found. *)
Lemma handle_sig_alarm_reentrant_counterexample :
  let p' := (handle_sig_alarm 3 sample_armed).2 in
  let e2 := mk_timeout_params 2 true (Some 102%nat) 1000000 1100000 in
  let e3 := mk_timeout_params 3 true (Some 103%nat) 1200000 500000 in
  let e5 := mk_timeout_params 5 true (Some 105%nat) 1000000 1100000 in
  wf_statics (mem sample_armed) /\
  queue_invariants_for (mem sample_armed) sample_armed_entries /\
  0 < num_active_timeouts (mem sample_armed) /\
  timer_ok /\
  (handle_sig_alarm 3 sample_armed).1 = Ok tt /\
  handler_calls (drop (length (trace sample_armed)) (trace p')) =
    [102; 103; 105]%nat /\
  all_timeouts (mem p') !! 2%nat = Some e2 /\
  all_timeouts (mem p') !! 3%nat = Some e3 /\
  all_timeouts (mem p') !! 5%nat = Some e5 /\
  ~ entry_lt e2 e3 /\
  ~ StronglySorted entry_lt [e2; e3; e5] /\
  (forall k, handler_calls (drop (length (trace sample_armed)) (trace p')) <>
             omap timeout_handler (take k sample_armed_entries)) /\
  ~ handlers_keep_statics.
Proof.
  intros p' e2 e3 e5.
  assert (Hlt : ~ entry_lt e2 e3) by (unfold entry_lt, key_lt, key; cbn; lia).
  split; [solve_wf_statics|]. split; [solve_queue_invariants|].
  split; [reflexivity|]. split; [by intros v|].
  split; [vm_compute; reflexivity|]. split; [vm_compute; reflexivity|].
  split; [vm_compute; reflexivity|]. split; [vm_compute; reflexivity|].
  split; [vm_compute; reflexivity|]. split; [exact Hlt|].
  split; [|split].
  - intros Hs. apply StronglySorted_inv in Hs as [_ Hall].
    apply Forall_cons in Hall as [H23 _]. by apply Hlt.
  - intros k.
    change (handler_calls (drop (length (trace sample_armed)) (trace p')))
      with [102; 103; 105]%nat.
    destruct k as [|[|[|k]]]; vm_compute; discriminate.
  - intros Hks.
    specialize (Hks 102%nat sample_idle). vm_compute in Hks. discriminate Hks.
Qed.

End ReentrantHost.
